(** * dir-ingest: a shallow embedding of the three variants of the tool

    The repository holds three generations of one command-line program
    (package [main]) that walks a directory tree, filters the files and
    prints them as plain text, Markdown or XML:

    - [src/unnamed/part_000], the first variant ([-i], [-e], no skip report);
    - [src/main.go], the second variant ([-i], [-e], [-p], skip report);
    - [src/unnamed/part_001], the third variant (ignore file, [-x], [-xe]).

    The Go standard library functions the program calls
    ([filepath.Match], [filepath.WalkDir], [xml.EscapeText], ...) are
    embedded first, following the library sources; the three [main]
    functions follow, each in a module of its own, and then the notions
    and the properties stated about them.

    Conventions of the embedding:
    - Go strings and byte slices are Rocq strings, that is, sequences of
      8-bit characters; runes are numbers in [N];
    - the host is a Unix one: the path separator is the slash;
    - a directory tree is a value of type [node] that holds everything
      a run can observe of it, the errors of the file system included;
    - the variables a walk function captures are the state it is given
      and returns; the calls of [d.Info()] and [os.ReadFile] are recorded
      in that state;
    - [main] starts from the parsed flags, and returns what the process
      has written and its exit status; the loop that separates the
      arguments before the flags are parsed is embedded by itself;
    - a loop that is not structural takes fuel, and is shown not to use
      it up where a property depends on that;
    - [strings.ToLower] is embedded for ASCII text, the case tables of
      package [unicode] being left out: a property that depends on the
      lower case of an extension says by a hypothesis that the text is
      ASCII. *)

From Stdlib Require Import ZArith NArith List Bool Lia String Ascii.
From Stdlib Require Import DecimalString Sorting.Sorted Permutation.
Import ListNotations.

Local Open Scope string_scope.

(** ** Bytes and strings *)

Definition byteval (c : ascii) : N := N_of_ascii c.

Fixpoint drop (n : nat) (s : string) : string :=
  match n, s with
  | O, _ => s
  | S _, EmptyString => EmptyString
  | S n', String _ s' => drop n' s'
  end.

Fixpoint take (n : nat) (s : string) : string :=
  match n, s with
  | O, _ => EmptyString
  | S _, EmptyString => EmptyString
  | S n', String c s' => String c (take n' s')
  end.

Fixpoint all (p : ascii -> bool) (s : string) : bool :=
  match s with
  | EmptyString => true
  | String c s' => p c && all p s'
  end.

Definition isEmpty (s : string) : bool :=
  match s with EmptyString => true | _ => false end.

(** The last byte of a string, if any ([s[len(s)-1]]). *)
Fixpoint lastByte (s : string) : option ascii :=
  match s with
  | EmptyString => None
  | String c EmptyString => Some c
  | String _ s' => lastByte s'
  end.

(** ASCII text: every byte is below 0x80. *)
Definition isAscii (c : ascii) : bool := (byteval c <? 128)%N.

Definition asciiOnly (s : string) : bool := all isAscii s.

(** ** Package [unicode/utf8] *)

Module GoUtf8.

Definition RuneError : N := 65533.

(** The table [first] of the library, read as: [None] for a byte that
    cannot start a multi-byte sequence (the entry [xx]), and otherwise the
    length of the sequence with the accepted range of its second byte. *)
Definition first (s0 : N) : option (nat * N * N) :=
  if (s0 <? 0xC2)%N then None
  else if (s0 <=? 0xDF)%N then Some (2%nat, 0x80%N, 0xBF%N)
  else if (s0 =? 0xE0)%N then Some (3%nat, 0xA0%N, 0xBF%N)
  else if (s0 <=? 0xEC)%N then Some (3%nat, 0x80%N, 0xBF%N)
  else if (s0 =? 0xED)%N then Some (3%nat, 0x80%N, 0x9F%N)
  else if (s0 <=? 0xEF)%N then Some (3%nat, 0x80%N, 0xBF%N)
  else if (s0 =? 0xF0)%N then Some (4%nat, 0x90%N, 0xBF%N)
  else if (s0 <=? 0xF3)%N then Some (4%nat, 0x80%N, 0xBF%N)
  else if (s0 =? 0xF4)%N then Some (4%nat, 0x80%N, 0x8F%N)
  else None.

Definition locb : N := 0x80.
Definition hicb : N := 0xBF.

Definition cont (c : ascii) : bool :=
  (locb <=? byteval c)%N && (byteval c <=? hicb)%N.

(** [DecodeRuneInString]: the first rune of [s] and its width in bytes. *)
Definition DecodeRuneInString (s : string) : N * nat :=
  match s with
  | EmptyString => (RuneError, 0)
  | String c0 t0 =>
    let s0 := byteval c0 in
    if (s0 <? 0x80)%N then (s0, 1)
    else
      match first s0 with
      | None => (RuneError, 1)
      | Some (sz, lo, hi) =>
        if Nat.ltb (String.length s) sz then (RuneError, 1)
        else
          match t0 with
          | EmptyString => (RuneError, 1)
          | String c1 t1 =>
            let s1 := byteval c1 in
            if ((s1 <? lo) || (hi <? s1))%N then (RuneError, 1)
            else if Nat.leb sz 2 then
              (N.lor (N.shiftl (N.land s0 0x1F) 6) (N.land s1 0x3F), 2)
            else
              match t1 with
              | EmptyString => (RuneError, 1)
              | String c2 t2 =>
                let s2 := byteval c2 in
                if negb (cont c2) then (RuneError, 1)
                else if Nat.leb sz 3 then
                  (N.lor (N.lor (N.shiftl (N.land s0 0x0F) 12)
                                (N.shiftl (N.land s1 0x3F) 6))
                         (N.land s2 0x3F), 3)
                else
                  match t2 with
                  | EmptyString => (RuneError, 1)
                  | String c3 _ =>
                    let s3 := byteval c3 in
                    if negb (cont c3) then (RuneError, 1)
                    else
                      (N.lor (N.lor (N.lor (N.shiftl (N.land s0 0x07) 18)
                                           (N.shiftl (N.land s1 0x3F) 12))
                                    (N.shiftl (N.land s2 0x3F) 6))
                             (N.land s3 0x3F), 4)
                  end
              end
          end
      end
  end.

End GoUtf8.

(** ** Package [strings] *)

Module GoStrings.

Fixpoint HasPrefix (s prefix : string) {struct prefix} : bool :=
  match prefix, s with
  | EmptyString, _ => true
  | String _ _, EmptyString => false
  | String p prefix', String c s' => Ascii.eqb p c && HasPrefix s' prefix'
  end.

(** [Contains] is only called with a one-byte needle here. *)
Definition ContainsByte (s : string) (b : ascii) : bool :=
  negb (all (fun c => negb (Ascii.eqb c b)) s).

Definition lowerByte (c : ascii) : ascii :=
  if ((65 <=? byteval c) && (byteval c <=? 90))%N
  then ascii_of_N (byteval c + 32) else c.

(** [ToLower] for ASCII text, which the library lowers byte by byte (its
    first case).  Text with a byte from 0x80 on goes through the case
    tables of package [unicode], which are not embedded: a property that
    depends on [ToLower] of a text supposes the text to be ASCII
    ([asciiOnly]). *)
Fixpoint ToLower (s : string) : string :=
  match s with
  | EmptyString => EmptyString
  | String c s' => String (lowerByte c) (ToLower s')
  end.

(** [EqualFold s t] for a [t] made of ASCII letters other than [k] and
    [s], digits and punctuation: no rune outside ASCII folds to such a
    byte, so that the comparison is the byte-wise one up to ASCII case. *)
Fixpoint EqualFold (s t : string) : bool :=
  match s, t with
  | EmptyString, EmptyString => true
  | String a s', String b t' =>
    Ascii.eqb (lowerByte a) (lowerByte b) && EqualFold s' t'
  | _, _ => false
  end.

(** [TrimLeft s cutset] for a cutset of one byte. *)
Fixpoint TrimLeftByte (s : string) (b : ascii) : string :=
  match s with
  | EmptyString => EmptyString
  | String c s' => if Ascii.eqb c b then TrimLeftByte s' b else s
  end.

End GoStrings.

(** ** Package [path/filepath] (Unix) *)

Module GoFilepath.

Definition Separator : ascii := "/"%char.

Definition IsPathSeparator (c : ascii) : bool := Ascii.eqb c Separator.

(** [ToSlash] replaces every separator by a slash. *)
Fixpoint ToSlash (path : string) : string :=
  match path with
  | EmptyString => EmptyString
  | String c path' =>
    String (if IsPathSeparator c then "/"%char else c) (ToSlash path')
  end.

(** [Ext]: the suffix beginning at the final dot of the final element.
    [extFrom] reads the path from the left and keeps, as it goes, the
    candidate found after the last separator. *)
Fixpoint extFrom (path : string) (found : string) : string :=
  match path with
  | EmptyString => found
  | String c path' =>
    if IsPathSeparator c then extFrom path' EmptyString
    else if Ascii.eqb c "."%char then extFrom path' path
    else extFrom path' found
  end.

Definition Ext (path : string) : string := extFrom path EmptyString.

(** [Base]: the last element of the path, trailing separators removed. *)
Fixpoint stripTrailingSeparators (path : string) : string :=
  match path with
  | EmptyString => EmptyString
  | String c path' =>
    match stripTrailingSeparators path' with
    | EmptyString => if IsPathSeparator c then EmptyString else String c EmptyString
    | rest => String c rest
    end
  end.

Fixpoint lastElement (path : string) (found : string) : string :=
  match path with
  | EmptyString => found
  | String c path' =>
    if IsPathSeparator c then lastElement path' path' else lastElement path' found
  end.

Definition Base (path : string) : string :=
  match path with
  | EmptyString => "."
  | _ =>
    let path1 := stripTrailingSeparators path in
    match lastElement path1 path1 with
    | EmptyString => String Separator EmptyString
    | elem => elem
    end
  end.

(** *** [Match] *)

(** [scanChunk]: the leading stars, then the chunk up to the next star
    that is outside a character class. *)
Fixpoint skipStars (pattern : string) : bool * string :=
  match pattern with
  | String "*" pattern' => (true, snd (skipStars pattern'))
  | _ => (false, pattern)
  end.

Fixpoint scanSplit (pattern : string) (inrange : bool) : string * string :=
  match pattern with
  | EmptyString => (EmptyString, EmptyString)
  | String c pattern' =>
    let keep (p : string * string) := (String c (fst p), snd p) in
    if Ascii.eqb c "\"%char then
      match pattern' with
      | EmptyString => (String c EmptyString, EmptyString)
      | String c' pattern'' =>
        let p := scanSplit pattern'' inrange in
        (String c (String c' (fst p)), snd p)
      end
    else if Ascii.eqb c "["%char then keep (scanSplit pattern' true)
    else if Ascii.eqb c "]"%char then keep (scanSplit pattern' false)
    else if Ascii.eqb c "*"%char then
      if inrange then keep (scanSplit pattern' inrange)
      else (EmptyString, pattern)
    else keep (scanSplit pattern' inrange)
  end.

Definition scanChunk (pattern : string) : bool * string * string :=
  let (star, pattern1) := skipStars pattern in
  let (chunk, rest) := scanSplit pattern1 false in
  (star, chunk, rest).

(** [getEsc]: a possibly escaped rune of a character class; [None] is
    [ErrBadPattern]. *)
Definition getEsc (chunk : string) : option (N * string) :=
  match chunk with
  | EmptyString => None
  | String c chunk' =>
    if Ascii.eqb c "-"%char || Ascii.eqb c "]"%char then None
    else
      let chunk1 := if Ascii.eqb c "\"%char then chunk' else chunk in
      match chunk1 with
      | EmptyString => None
      | _ =>
        let (r, n) := GoUtf8.DecodeRuneInString chunk1 in
        if (N.eqb r GoUtf8.RuneError && Nat.eqb n 1) then None
        else
          match drop n chunk1 with
          | EmptyString => None
          | nchunk => Some (r, nchunk)
          end
      end
  end.

(** The results of the loops below: [None] is reserved for a loop that
    used up its fuel, which the totality lemmas exclude. *)
Inductive classRes : Type :=
| ClassOk (chunk : string) (matched : bool)
| ClassBad.

(** The loop over the ranges of a character class, for the rune [r]. *)
Fixpoint classLoop (fuel : nat) (chunk : string) (r : N) (matched : bool)
         (nrange : nat) : option classRes :=
  match fuel with
  | O => None
  | S fuel' =>
    if GoStrings.HasPrefix chunk "]" && Nat.ltb 0 nrange
    then Some (ClassOk (drop 1 chunk) matched)
    else
      match getEsc chunk with
      | None => Some ClassBad
      | Some (lo, chunk1) =>
        if GoStrings.HasPrefix chunk1 "-" then
          match getEsc (drop 1 chunk1) with
          | None => Some ClassBad
          | Some (hi, chunk3) =>
            classLoop fuel' chunk3 r
                      (matched || ((lo <=? r)%N && (r <=? hi)%N)) (S nrange)
          end
        else
          classLoop fuel' chunk1 r
                    (matched || ((lo <=? r)%N && (r <=? lo)%N)) (S nrange)
      end
  end.

Inductive chunkRes : Type :=
| ChunkOk (rest : string)
| ChunkFail
| ChunkBad.

(** [matchChunk]: does the chunk match a prefix of [s]?  [failed] is the
    variable of that name in the library. *)
Fixpoint matchChunkLoop (fuel : nat) (chunk s : string) (failed : bool)
  : option chunkRes :=
  match fuel with
  | O => None
  | S fuel' =>
    match chunk with
    | EmptyString => Some (if failed then ChunkFail else ChunkOk s)
    | String c chunk1 =>
      let failed := failed || isEmpty s in
      let literal (lit : ascii) (chunk' : string) :=
        match s with
        | String c0 s' =>
          if failed then matchChunkLoop fuel' chunk' s true
          else matchChunkLoop fuel' chunk' s' (negb (Ascii.eqb lit c0))
        | EmptyString => matchChunkLoop fuel' chunk' s true
        end in
      if Ascii.eqb c "["%char then
        let (r, s1) :=
          if failed then (0%N, s)
          else let (r, n) := GoUtf8.DecodeRuneInString s in (r, drop n s) in
        let negated := GoStrings.HasPrefix chunk1 "^" in
        let chunk2 := if negated then drop 1 chunk1 else chunk1 in
        match classLoop (S (String.length chunk2)) chunk2 r false 0 with
        | None => None
        | Some ClassBad => Some ChunkBad
        | Some (ClassOk chunk3 matched) =>
          matchChunkLoop fuel' chunk3 s1 (failed || Bool.eqb matched negated)
        end
      else if Ascii.eqb c "?"%char then
        match s with
        | String c0 _ =>
          if failed then matchChunkLoop fuel' chunk1 s true
          else
            matchChunkLoop fuel' chunk1
                           (drop (snd (GoUtf8.DecodeRuneInString s)) s)
                           (IsPathSeparator c0)
        | EmptyString => matchChunkLoop fuel' chunk1 s true
        end
      else if Ascii.eqb c "\"%char then
        match chunk1 with
        | EmptyString => Some ChunkBad
        | String c' chunk2 => literal c' chunk2
        end
      else literal c chunk1
    end
  end.

Definition matchChunk (chunk s : string) : option chunkRes :=
  matchChunkLoop (S (String.length chunk)) chunk s false.

(** The loop of [Match] that lets a star swallow [i+1] bytes of the
    name, none of them a separator. *)
Inductive starRes : Type :=
| StarFound (rest : string)
| StarNone
| StarBad.

Fixpoint starLoop (chunk pattern name : string) : option starRes :=
  match name with
  | EmptyString => Some StarNone
  | String c name' =>
    if IsPathSeparator c then Some StarNone
    else
      match matchChunk chunk name' with
      | None => None
      | Some (ChunkOk t) =>
        if isEmpty pattern && negb (isEmpty t) then starLoop chunk pattern name'
        else Some (StarFound t)
      | Some ChunkBad => Some StarBad
      | Some ChunkFail => starLoop chunk pattern name'
      end
  end.

(** The result of [Match] is the pair (matched, err != nil). *)
Fixpoint MatchLoop (fuel : nat) (pattern name : string) : option (bool * bool) :=
  match fuel with
  | O => None
  | S fuel' =>
    match pattern with
    | EmptyString => Some (isEmpty name, false)
    | _ =>
      let '(star, chunk, pattern1) := scanChunk pattern in
      if star && isEmpty chunk then
        Some (negb (GoStrings.ContainsByte name Separator), false)
      else
        let viaStar (_ : unit) :=
          if star then
            match starLoop chunk pattern1 name with
            | None => None
            | Some (StarFound t) => MatchLoop fuel' pattern1 t
            | Some StarBad => Some (false, true)
            | Some StarNone => Some (false, false)
            end
          else Some (false, false) in
        match matchChunk chunk name with
        | None => None
        | Some (ChunkOk t) =>
          if isEmpty t || negb (isEmpty pattern1) then MatchLoop fuel' pattern1 t
          else viaStar tt
        | Some ChunkBad => Some (false, true)
        | Some ChunkFail => viaStar tt
        end
    end
  end.

Definition Match (pattern name : string) : bool * bool :=
  match MatchLoop (S (String.length pattern)) pattern name with
  | Some r => r
  | None => (false, true)
  end.

(** *** [Clean] and [Join] *)

(** The inner loop of the [..] case: [w] has been decremented once and
    goes on down to the previous separator, not below [dotdot]. *)
Fixpoint backtrack (out : string) (dotdot w : nat) : nat :=
  match w with
  | O => O
  | S w' =>
    if Nat.ltb dotdot w
       && negb (match String.get w out with
                | Some c => IsPathSeparator c
                | None => false
                end)
    then backtrack out dotdot w'
    else w
  end.

(** The element that starts the path, and what follows it. *)
Fixpoint element (path : string) : string * string :=
  match path with
  | EmptyString => (EmptyString, EmptyString)
  | String c path' =>
    if IsPathSeparator c then (EmptyString, path)
    else let p := element path' in (String c (fst p), snd p)
  end.

Definition endsElement (path : string) : bool :=
  match path with
  | EmptyString => true
  | String c _ => IsPathSeparator c
  end.

(** The main loop of [Clean]: [path] is what is left to read, [out] what
    has been written. *)
Fixpoint cleanLoop (fuel : nat) (rooted : bool) (path out : string)
         (dotdot : nat) : string :=
  match fuel with
  | O => out
  | S fuel' =>
    match path with
    | EmptyString => out
    | String c path1 =>
      if IsPathSeparator c then cleanLoop fuel' rooted path1 out dotdot
      else if Ascii.eqb c "."%char && endsElement path1 then
        cleanLoop fuel' rooted path1 out dotdot
      else if Ascii.eqb c "."%char
              && match path1 with
                 | String "." path2 => endsElement path2
                 | _ => false
                 end
      then
        let path2 := drop 1 path1 in
        if Nat.ltb dotdot (String.length out) then
          let w := backtrack out dotdot (String.length out - 1) in
          cleanLoop fuel' rooted path2 (take w out) dotdot
        else if negb rooted then
          let out1 := if Nat.ltb 0 (String.length out)
                      then out ++ String Separator EmptyString else out in
          let out2 := out1 ++ ".." in
          cleanLoop fuel' rooted path2 out2 (String.length out2)
        else cleanLoop fuel' rooted path2 out dotdot
      else
        let w := String.length out in
        let out1 :=
          if (rooted && negb (Nat.eqb w 1)) || (negb rooted && negb (Nat.eqb w 0))
          then out ++ String Separator EmptyString else out in
        let (elem, path') := element path in
        cleanLoop fuel' rooted path' (out1 ++ elem) dotdot
    end
  end.

Definition Clean (path : string) : string :=
  match path with
  | EmptyString => "."
  | String c _ =>
    let rooted := IsPathSeparator c in
    let out :=
      if rooted
      then cleanLoop (String.length path) rooted (drop 1 path)
                     (String Separator EmptyString) 1
      else cleanLoop (String.length path) rooted path EmptyString 0 in
    match out with
    | EmptyString => "."
    | _ => out
    end
  end.

(** [Join a b] for a non-empty [a], the only use the program makes of it. *)
Definition Join (a b : string) : string :=
  match a with
  | EmptyString => match b with EmptyString => EmptyString | _ => Clean b end
  | _ => Clean (a ++ String Separator EmptyString ++ b)
  end.

End GoFilepath.


(** ** Package [encoding/xml]: [EscapeText] *)

Module GoXml.

Definition isInCharacterRange (r : N) : bool :=
  ((r =? 0x09) || (r =? 0x0A) || (r =? 0x0D)
   || ((0x20 <=? r) && (r <=? 0xD7FF))
   || ((0xE000 <=? r) && (r <=? 0xFFFD))
   || ((0x10000 <=? r) && (r <=? 0x10FFFF)))%N.

Definition escFFFD : string :=
  String "239" (String "191" (String "189" EmptyString)).

(** The [switch] of [escapeText] (with [escapeNewline] set): the escape
    for the rune [r] decoded with width [width], or [None] where the
    library continues and leaves the bytes of the rune as they are. *)
Definition escapeOf (r : N) (width : nat) : option string :=
  if (r =? 34)%N then Some "&#34;"
  else if (r =? 39)%N then Some "&#39;"
  else if (r =? 38)%N then Some "&amp;"
  else if (r =? 60)%N then Some "&lt;"
  else if (r =? 62)%N then Some "&gt;"
  else if (r =? 9)%N then Some "&#x9;"
  else if (r =? 10)%N then Some "&#xA;"
  else if (r =? 13)%N then Some "&#xD;"
  else if negb (isInCharacterRange r)
          || ((r =? GoUtf8.RuneError)%N && Nat.eqb width 1)
       then Some escFFFD
  else None.

Fixpoint escapeLoop (fuel : nat) (s : string) : string :=
  match fuel with
  | O => EmptyString
  | S fuel' =>
    match s with
    | EmptyString => EmptyString
    | _ =>
      let (r, width) := GoUtf8.DecodeRuneInString s in
      match escapeOf r width with
      | Some esc => esc ++ escapeLoop fuel' (drop width s)
      | None => take width s ++ escapeLoop fuel' (drop width s)
      end
    end
  end.

(** [EscapeText b s]: the builder [b] after the escaped [s] is written. *)
Definition EscapeText (b : string) (s : string) : string :=
  b ++ escapeLoop (String.length s) s.

End GoXml.

(** ** Packages [sort], [fmt] and [log] *)

Module GoSort.

(** [sort.Slice] and [sort.Strings] promise a permutation of the slice
    that is ordered by [less]; they are embedded as an insertion sort.
    Where no two elements are equivalent for [less] (distinct paths,
    or strings) every sorting algorithm gives this same result. *)
Section Sort.
Context {A : Type}.
Variable less : A -> A -> bool.

Fixpoint insert (x : A) (l : list A) : list A :=
  match l with
  | [] => [x]
  | y :: l' => if less x y then x :: l else y :: insert x l'
  end.

Fixpoint Slice (l : list A) : list A :=
  match l with
  | [] => []
  | x :: l' => insert x (Slice l')
  end.

End Sort.

Definition Strings (l : list string) : list string := Slice String.ltb l.

End GoSort.

Module GoFmt.

(** The verb [%d]. *)
Definition itoa (z : Z) : string := NilZero.string_of_int (Z.to_int z).

Definition dquote : string := String "034" EmptyString.

(** The verb [%q] ([strconv.Quote]): the quote and the backslash get a
    backslash; the control characters of ASCII are written as escapes,
    and so is a byte that is not part of a valid encoding; a rune above
    0x7F is written as it is, which is what the library does for the
    printable ones (its tables of printable runes are not embedded). *)
Definition hexDigit (n : N) : ascii :=
  if (n <? 10)%N then ascii_of_N (48 + n) else ascii_of_N (87 + n).

Definition hexByte (c : ascii) : string :=
  String "\" (String "x" (String (hexDigit (N.shiftr (byteval c) 4))
                                 (String (hexDigit (N.land (byteval c) 15))
                                         EmptyString))).

Definition quoteByte (c : ascii) : string :=
  let b := byteval c in
  if (b =? 34)%N || (b =? 92)%N then String "\" (String c EmptyString)
  else if (b =? 7)%N then "\a"
  else if (b =? 8)%N then "\b"
  else if (b =? 12)%N then "\f"
  else if (b =? 10)%N then "\n"
  else if (b =? 13)%N then "\r"
  else if (b =? 9)%N then "\t"
  else if (b =? 11)%N then "\v"
  else if (b <? 32)%N || (b =? 127)%N then hexByte c
  else String c EmptyString.

Fixpoint quoteLoop (fuel : nat) (s : string) : string :=
  match fuel with
  | O => EmptyString
  | S fuel' =>
    match s with
    | EmptyString => EmptyString
    | String c s' =>
      if (byteval c <? 128)%N then quoteByte c ++ quoteLoop fuel' s'
      else
        let (r, width) := GoUtf8.DecodeRuneInString s in
        if Nat.eqb width 1 && (r =? GoUtf8.RuneError)%N
        then hexByte c ++ quoteLoop fuel' s'
        else take width s ++ quoteLoop fuel' (drop width s)
    end
  end.

Definition quote (s : string) : string :=
  dquote ++ quoteLoop (String.length s) s ++ dquote.

End GoFmt.

Definition newline : string := String "010" EmptyString.

Module GoLog.

(** With [log.SetFlags(0)] a log call writes its text to the standard
    error stream, and a newline unless the text ends in one. *)
Definition Print (stderr : string) (text : string) : string :=
  match lastByte text with
  | Some "010"%char => stderr ++ text
  | _ => stderr ++ text ++ newline
  end.

End GoLog.

(** [int64(x)] of an integer: two's complement wrap-around. *)
Definition wrap64 (z : Z) : Z :=
  ((z + 9223372036854775808) mod 18446744073709551616 - 9223372036854775808)%Z.

(** ** The file system and [filepath.WalkDir] *)

(** What the program can observe of a directory tree.  For an entry that
    is not a directory: whether its type is regular, what [d.Info()]
    gives ([None] for an error, else the size) and what [os.ReadFile]
    gives ([None] for an error, else the bytes).  For a directory: the
    error of [os.ReadDir], if any, and the entries it returns, in the
    order it returns them. *)
#[warnings="-register-all"] Inductive node : Type :=
| File (name : string) (regular : bool) (info : option Z) (data : option string)
| Dir (name : string) (readErr : option string) (entries : list node).

Definition Name (d : node) : string :=
  match d with
  | File name _ _ _ => name
  | Dir name _ _ => name
  end.

Definition IsDir (d : node) : bool :=
  match d with
  | File _ _ _ _ => false
  | Dir _ _ _ => true
  end.

(** The result of [os.Lstat] on the root of the walk. *)
Inductive lstat : Type :=
| Found (d : node)
| Missing (err : string).

(** The errors a walk function returns; [nil] is [None]. *)
Inductive walkErr : Type :=
| SkipDir
| SkipAll
| Failure (err : string).

(** The method [Error] of these errors. *)
Definition errorText (e : walkErr) : string :=
  match e with
  | SkipDir => "skip this directory"
  | SkipAll => "skip everything and stop the walk"
  | Failure err => err
  end.

(** [filepath.Rel(absRootDir, path)] for the paths the walk builds: [.]
    for the root itself, and the names from the root down, joined by the
    separator, below it.  Entry names are file names: not empty, without
    separator, and neither [.] nor [..]. *)
Definition relJoin (rel name : string) : string :=
  if String.eqb rel "." then name
  else rel ++ String GoFilepath.Separator EmptyString ++ name.

Section WalkDir.
Context {St : Type}.

(** The walk function gets the path (here: the path relative to the
    root), the entry ([None] where the library passes [nil]) and the
    error, and works on the state [St] its closure captures. *)
Variable fn : string -> option node -> option string -> St -> St * option walkErr.

Fixpoint walkDir (rel : string) (d : node) (st : St) {struct d}
  : St * option walkErr :=
  let (st1, err) := fn rel (Some d) None st in
  match d with
  | File _ _ _ _ => (st1, err)
  | Dir _ readErr entries =>
    match err with
    | Some SkipDir => (st1, None)
    | Some e => (st1, Some e)
    | None =>
      let (st2, err2) :=
        match readErr with
        | Some e => fn rel (Some d) (Some e) st1
        | None => (st1, None)
        end in
      match err2 with
      | Some SkipDir => (st2, None)
      | Some e => (st2, Some e)
      | None =>
        (fix walkEntries (ds : list node) (st : St) : St * option walkErr :=
           match ds with
           | [] => (st, None)
           | d1 :: ds' =>
             let (st', err1) := walkDir (relJoin rel (Name d1)) d1 st in
             match err1 with
             | None => walkEntries ds' st'
             | Some SkipDir => (st', None)
             | Some e => (st', Some e)
             end
           end) entries st2
      end
    end
  end.

Definition WalkDir (root : lstat) (st : St) : St * option walkErr :=
  let (st', err) :=
    match root with
    | Missing e => fn "." None (Some e) st
    | Found d => walkDir "." d st
    end in
  match err with
  | Some SkipDir | Some SkipAll => (st', None)
  | _ => (st', err)
  end.

End WalkDir.

(** ** Declarations the three files share *)

(** [type fileData struct { path string; content []byte }] *)
Record fileData : Type := mkFileData { path : string; content : string }.

(** A Go map from strings, read with the zero value for a missing key. *)
Fixpoint lookup {V : Type} (zero : V) (m : list (string * V)) (key : string) : V :=
  match m with
  | [] => zero
  | (k, v) :: m' => if String.eqb k key then v else lookup zero m' key
  end.

(** The result of a run: what was written to the standard output, what
    was logged to the standard error, and the exit status. *)
Record process : Type := mkProcess {
  stdout : string;
  stderr : string;
  exitCode : Z
}.

(** [log.Fatal]: the message, then [os.Exit(1)]; nothing has been printed
    to the standard output where the program calls it. *)
Definition fatal (stderr : string) (msg : string) : process :=
  mkProcess EmptyString (GoLog.Print stderr msg) 1.

(** The calls to the file system made for single files: [d.Info()] and
    [os.ReadFile], each with the relative path of the file.  The walk
    functions record them, in order, next to the state they capture. *)
Inductive syscall : Type :=
| InfoCall (rel : string)
| ReadFileCall (rel : string).

(** What a run finds outside the program: the result of [filepath.Abs]
    for the directory argument (the absolute path, or the text of the
    error) and the result of [os.Lstat] for an absolute path. *)
Record world : Type := mkWorld {
  Abs : string -> string + string;
  root : string -> lstat
}.

Definition isVCSName (name : string) : bool :=
  String.eqb name ".git" || String.eqb name ".hg"
  || String.eqb name ".svn" || String.eqb name "node_modules".

(** The loops [for _, pattern := range patterns] over [filepath.Match],
    whose error is dropped. *)
Definition matchAny (patterns : list string) (relPath : string) : bool :=
  existsb (fun pattern => fst (GoFilepath.Match pattern relPath)) patterns.

(** The comparison given to [sort.Slice] (the same in the three files). *)
Definition isReadme (f : fileData) : bool :=
  GoStrings.EqualFold (GoFilepath.Base (path f)) "readme.md".

Definition less (fi fj : fileData) : bool :=
  if negb (Bool.eqb (isReadme fi) (isReadme fj)) then isReadme fi
  else String.ltb (path fi) (path fj).

(** The seven bytes before [ Ingested] in the source files. *)
Definition checkMark : string :=
  String "195" (String "162" (String "197" (String "147"
    (String "226" (String "128" (String "156" EmptyString)))))).

Definition fence : string := "```".

(** ** [src/main.go] *)

Module Main.

Definition defaultExtensions : list (string * bool) :=
  map (fun e => (e, true))
    [".go"; ".py"; ".js"; ".ts"; ".java"; ".c"; ".h"; ".cpp"; ".cs"; ".rs";
     ".rb"; ".php"; ".swift"; ".kt"; ".kts"; ".scala"; ".pl"; ".pm"; ".sh";
     ".html"; ".css"; ".scss"; ".less";
     ".json"; ".yaml"; ".yml"; ".xml"; ".toml"; ".ini"; ".env";
     ".md"; ".txt"; ".rst"; ".sql"].

Definition languageExtMap : list (string * string) :=
  [(".go", "go"); (".py", "python"); (".js", "javascript");
   (".ts", "typescript"); (".java", "java"); (".c", "c"); (".h", "c");
   (".cpp", "cpp"); (".cs", "csharp"); (".rs", "rust"); (".rb", "ruby");
   (".php", "php"); (".swift", "swift"); (".kt", "kotlin");
   (".kts", "kotlin"); (".scala", "scala"); (".pl", "perl"); (".sh", "bash");
   (".html", "html"); (".css", "css"); (".scss", "scss"); (".less", "less");
   (".json", "json"); (".yaml", "yaml"); (".yml", "yaml"); (".xml", "xml");
   (".toml", "toml"); (".ini", "ini"); (".env", "bash"); (".md", "markdown");
   (".txt", "text"); (".rst", "rst"); (".sql", "sql")].

(** The flags and the positional arguments, as parsed. *)
Record config : Type := mkConfig {
  sizeLimitKB : Z;
  useClaudeXML : bool;
  useMarkdown : bool;
  prependPath : string;
  includes : list string;
  excludes : list string;
  positionalArgs : list string
}.

(** The variables the walk function captures and appends to. *)
Record state : Type := mkState {
  files : list fileData;
  skippedFiles : list string;
  syscalls : list syscall
}.

Definition initial : state := mkState [] [] [].

Definition skip (st : state) (msg : string) : state :=
  mkState (files st) (skippedFiles st ++ [msg]) (syscalls st).

Definition accept (st : state) (f : fileData) : state :=
  mkState (files st ++ [f]) (skippedFiles st) (syscalls st).

Definition call (st : state) (c : syscall) : state :=
  mkState (files st) (skippedFiles st) (syscalls st ++ [c]).

Definition maxSizeBytes (cfg : config) : Z := wrap64 (sizeLimitKB cfg * 1024).

(** The variable [isIncluded] of the walk function. *)
Definition isIncluded (cfg : config) (relPath : string) : bool :=
  if Nat.ltb 0 (List.length (includes cfg)) then matchAny (includes cfg) relPath
  else lookup false defaultExtensions (GoStrings.ToLower (GoFilepath.Ext relPath)).

(** The function literal given to [filepath.WalkDir]. *)
Definition walkFn (cfg : config) (relPath : string) (d : option node)
           (err : option string) (st : state) : state * option walkErr :=
  match err, d with
  | Some e, _ => (st, Some (Failure e))
  | None, None => (st, None)
  | None, Some (Dir name _ _) =>
    if isVCSName name then (st, Some SkipDir)
    else if matchAny (excludes cfg) relPath then (st, Some SkipDir)
    else (st, None)
  | None, Some (File _ regular info data) =>
    if negb regular then (st, None)
    else if matchAny (excludes cfg) relPath then
      (skip st (relPath ++ " (excluded by pattern)"), None)
    else
      let st := call st (InfoCall relPath) in
      match info with
      | None => (skip st (relPath ++ " (error getting info)"), None)
      | Some size =>
        if (size >? maxSizeBytes cfg)%Z then
          (skip st (relPath ++ " (too large: " ++ GoFmt.itoa (Z.quot size 1024)
                            ++ "KB > " ++ GoFmt.itoa (sizeLimitKB cfg) ++ "KB)"),
           None)
        else if (size =? 0)%Z then (skip st (relPath ++ " (empty)"), None)
        else if isIncluded cfg relPath then
          let st := call st (ReadFileCall relPath) in
          match data with
          | None => (skip st (relPath ++ " (unreadable)"), None)
          | Some bytes =>
            (accept st (mkFileData (GoFilepath.ToSlash relPath) bytes), None)
          end
        else if Nat.eqb (List.length (includes cfg)) 0 then
          (skip st (relPath ++ " (unsupported extension)"), None)
        else (st, None)
      end
  end.

Definition getLanguageHint (path : string) : string :=
  lookup EmptyString languageExtMap (GoStrings.ToLower (GoFilepath.Ext path)).

Definition applyPrepend (path prepend : string) : string :=
  match prepend with
  | EmptyString => path
  | _ => GoFilepath.ToSlash (GoFilepath.Join prepend path)
  end.

(** The builders take the [strings.Builder] as the text written so far. *)
Fixpoint buildMarkdown (b : string) (files : list fileData) (prependPath : string)
  : string :=
  match files with
  | [] => b
  | file :: files' =>
    let outputPath := applyPrepend (path file) prependPath in
    let lang := getLanguageHint (path file) in
    let b := b ++ (fence ++ lang ++ " path=" ++ outputPath ++ newline) in
    let b := b ++ content file in
    let b :=
      match lastByte (content file) with
      | Some c => if Ascii.eqb c "010"%char then b else b ++ newline
      | None => b
      end in
    let b := b ++ (fence ++ newline ++ newline) in
    buildMarkdown b files' prependPath
  end.

Definition separator : string :=
  "================================================" ++ newline.

Fixpoint buildStandardText (b : string) (files : list fileData)
         (prependPath : string) : string :=
  match files with
  | [] => b
  | file :: files' =>
    let outputPath := applyPrepend (path file) prependPath in
    let b := b ++ separator in
    let b := b ++ ("FILE: " ++ outputPath ++ newline) in
    let b := b ++ separator in
    let b := b ++ content file in
    let b := b ++ (newline ++ newline) in
    buildStandardText b files' prependPath
  end.

Fixpoint buildClaudeXMLLoop (b : string) (files : list fileData)
         (prependPath : string) : string :=
  match files with
  | [] => b
  | file :: files' =>
    let outputPath := applyPrepend (path file) prependPath in
    let b := b ++ ("  <document path=" ++ GoFmt.dquote) in
    let b := GoXml.EscapeText b outputPath in
    let b := b ++ (GoFmt.dquote ++ ">" ++ newline ++ "    <content>") in
    let b := GoXml.EscapeText b (content file) in
    let b := b ++ ("</content>" ++ newline ++ "  </document>" ++ newline) in
    buildClaudeXMLLoop b files' prependPath
  end.

Definition buildClaudeXML (b : string) (files : list fileData)
           (prependPath : string) : string :=
  let b := b ++ ("<documents>" ++ newline) in
  let b := buildClaudeXMLLoop b files prependPath in
  b ++ ("</documents>" ++ newline).

(** The report of the skipped files on the standard error. *)
Definition reportSkipped (stderr : string) (skipped : list string) : string :=
  match skipped with
  | [] => stderr
  | _ =>
    let sorted := GoSort.Strings skipped in
    let stderr :=
      GoLog.Print stderr ("Skipped " ++ GoFmt.itoa (Z.of_nat (List.length sorted))
                                     ++ " files:" ++ newline) in
    let stderr :=
      fold_left (fun e msg => GoLog.Print e ("- " ++ msg ++ newline)) sorted stderr in
    GoLog.Print stderr newline
  end.

(** The variable [rootDir] of [main]. *)
Definition rootDir (cfg : config) : string :=
  match positionalArgs cfg with
  | [arg] => arg
  | _ => "."
  end.

(** [main], after the flags are parsed. *)
Definition main (cfg : config) (w : world) : process :=
  if useClaudeXML cfg && useMarkdown cfg then
    fatal EmptyString
          "Error: Cannot use -c (Claude XML) and -m (Markdown) flags together."
  else if Nat.ltb 1 (List.length (positionalArgs cfg)) then
    fatal EmptyString "Error: Only one directory path argument is allowed."
  else
    let rootDir := rootDir cfg in
    match Abs w rootDir with
    | inr e =>
      fatal EmptyString
            ("Error getting absolute path for " ++ GoFmt.quote rootDir ++ ": " ++ e)
    | inl absRootDir =>
      match WalkDir (walkFn cfg) (root w absRootDir) initial with
      | (_, Some e) =>
        fatal EmptyString
              ("Error walking directory " ++ GoFmt.quote rootDir ++ ": "
                                          ++ errorText e)
      | (st, None) =>
        let stderr := reportSkipped EmptyString (skippedFiles st) in
        let files := GoSort.Slice less (files st) in
        match files with
        | [] =>
          mkProcess EmptyString
                    (GoLog.Print stderr "No files matched. No output generated.") 0
        | _ =>
          let b :=
            if useClaudeXML cfg then buildClaudeXML EmptyString files (prependPath cfg)
            else if useMarkdown cfg then buildMarkdown EmptyString files (prependPath cfg)
            else buildStandardText EmptyString files (prependPath cfg) in
          mkProcess b
                    (GoLog.Print stderr
                       (checkMark ++ " Ingested "
                                  ++ GoFmt.itoa (Z.of_nat (List.length files))
                                  ++ " files."))
                    0
        end
      end
    end.

End Main.

(** ** [src/unnamed/part_000] *)

Module Part000.

(** The tables are those of [src/main.go]. *)
Definition defaultExtensions : list (string * bool) := Main.defaultExtensions.
Definition languageExtMap : list (string * string) := Main.languageExtMap.

Record config : Type := mkConfig {
  sizeLimitKB : Z;
  useClaudeXML : bool;
  useMarkdown : bool;
  includes : list string;
  excludes : list string;
  positionalArgs : list string
}.

(** The walk function captures [files] only. *)
Record state : Type := mkState {
  files : list fileData;
  syscalls : list syscall
}.

Definition initial : state := mkState [] [].

Definition accept (st : state) (f : fileData) : state :=
  mkState (files st ++ [f]) (syscalls st).

Definition call (st : state) (c : syscall) : state :=
  mkState (files st) (syscalls st ++ [c]).

Definition maxSizeBytes (cfg : config) : Z := wrap64 (sizeLimitKB cfg * 1024).

Definition isIncluded (cfg : config) (relPath : string) : bool :=
  if Nat.ltb 0 (List.length (includes cfg)) then matchAny (includes cfg) relPath
  else lookup false defaultExtensions (GoStrings.ToLower (GoFilepath.Ext relPath)).

Definition walkFn (cfg : config) (relPath : string) (d : option node)
           (err : option string) (st : state) : state * option walkErr :=
  match err, d with
  | Some e, _ => (st, Some (Failure e))
  | None, None => (st, None)
  | None, Some (Dir name _ _) =>
    if isVCSName name then (st, Some SkipDir)
    else if matchAny (excludes cfg) relPath then (st, Some SkipDir)
    else (st, None)
  | None, Some (File _ regular info data) =>
    if negb regular then (st, None)
    else if matchAny (excludes cfg) relPath then (st, None)
    else
      let st := call st (InfoCall relPath) in
      match info with
      | None => (st, None)
      | Some size =>
        if (size >? maxSizeBytes cfg)%Z || (size =? 0)%Z then (st, None)
        else if isIncluded cfg relPath then
          let st := call st (ReadFileCall relPath) in
          match data with
          | None => (st, None)
          | Some bytes =>
            (accept st (mkFileData (GoFilepath.ToSlash relPath) bytes), None)
          end
        else (st, None)
      end
  end.

Definition getLanguageHint (path : string) : string :=
  lookup EmptyString languageExtMap (GoStrings.ToLower (GoFilepath.Ext path)).

Fixpoint buildMarkdown (b : string) (files : list fileData) : string :=
  match files with
  | [] => b
  | file :: files' =>
    let lang := getLanguageHint (path file) in
    let b := b ++ (fence ++ lang ++ " path=" ++ path file ++ newline) in
    let b := b ++ content file in
    let b := b ++ (newline ++ fence ++ newline ++ newline) in
    buildMarkdown b files'
  end.

Fixpoint buildStandardText (b : string) (files : list fileData) : string :=
  match files with
  | [] => b
  | file :: files' =>
    let b := b ++ Main.separator in
    let b := b ++ ("FILE: " ++ path file ++ newline) in
    let b := b ++ Main.separator in
    let b := b ++ content file in
    let b := b ++ (newline ++ newline) in
    buildStandardText b files'
  end.

Fixpoint buildClaudeXMLLoop (b : string) (files : list fileData) : string :=
  match files with
  | [] => b
  | file :: files' =>
    let b := b ++ ("  <document path=" ++ GoFmt.dquote) in
    let b := GoXml.EscapeText b (path file) in
    let b := b ++ (GoFmt.dquote ++ ">" ++ newline ++ "    <content>") in
    let b := GoXml.EscapeText b (content file) in
    let b := b ++ ("</content>" ++ newline ++ "  </document>" ++ newline) in
    buildClaudeXMLLoop b files'
  end.

Definition buildClaudeXML (b : string) (files : list fileData) : string :=
  let b := b ++ ("<documents>" ++ newline) in
  let b := buildClaudeXMLLoop b files in
  b ++ ("</documents>" ++ newline).

(** The variable [rootDir] of [main]. *)
Definition rootDir (cfg : config) : string :=
  match positionalArgs cfg with
  | arg :: _ => arg
  | [] => "."
  end.

(** [main], after [flag.Parse]: [positionalArgs] is [flag.Args()]. *)
Definition main (cfg : config) (w : world) : process :=
  if useClaudeXML cfg && useMarkdown cfg then
    fatal EmptyString
          "Error: Cannot use -c (Claude XML) and -m (Markdown) flags together."
  else
    let rootDir := rootDir cfg in
    match Abs w rootDir with
    | inr e =>
      fatal EmptyString
            ("Error getting absolute path for " ++ GoFmt.quote rootDir ++ ": " ++ e)
    | inl absRootDir =>
      match WalkDir (walkFn cfg) (root w absRootDir) initial with
      | (_, Some e) =>
        fatal EmptyString
              ("Error walking directory " ++ GoFmt.quote rootDir ++ ": "
                                          ++ errorText e)
      | (st, None) =>
        let files := GoSort.Slice less (files st) in
        match files with
        | [] =>
          mkProcess EmptyString
                    (GoLog.Print EmptyString "No files matched. No output generated.") 0
        | _ =>
          let b :=
            if useClaudeXML cfg then buildClaudeXML EmptyString files
            else if useMarkdown cfg then buildMarkdown EmptyString files
            else buildStandardText EmptyString files in
          mkProcess b EmptyString 0
        end
      end
    end.

End Part000.

(** ** [src/unnamed/part_001] *)

Module Part001.

Definition languageExtMap : list (string * string) :=
  [(".go", "go"); (".py", "python"); (".js", "javascript");
   (".ts", "typescript"); (".tsx", "tsx"); (".java", "java"); (".c", "c");
   (".h", "c"); (".cpp", "cpp"); (".cs", "csharp"); (".rs", "rust");
   (".rb", "ruby"); (".php", "php"); (".swift", "swift"); (".kt", "kotlin");
   (".kts", "kotlin"); (".scala", "scala"); (".pl", "perl"); (".sh", "bash");
   (".html", "html"); (".css", "css"); (".scss", "scss"); (".less", "less");
   (".json", "json"); (".yaml", "yaml"); (".yml", "yaml"); (".xml", "xml");
   (".toml", "toml"); (".ini", "ini"); (".md", "markdown"); (".txt", "text");
   (".rst", "rst"); (".sql", "sql")].

(** [_, isLang := languageExtMap[fileExt]] *)
Definition isLang (fileExt : string) : bool :=
  existsb (fun kv => String.eqb (fst kv) fileExt) languageExtMap.

Record config : Type := mkConfig {
  gitignorePath : string;
  langOnly : bool;
  excludeExts : list string;
  sizeLimitKB : Z;
  useMarkdown : bool;
  useClaudeXML : bool;
  prependPath : string;
  verbose : bool;
  positionalArgs : list string
}.

(** The ignore file, which belongs to the module
    [github.com/sabhiram/go-gitignore]: whether [os.Stat] finds the file,
    whether it compiles and, if so, its method [MatchesPath]. *)
Inductive ignoreFile : Type :=
| NoIgnoreFile
| BadIgnoreFile (err : string)
| Ignorer (MatchesPath : string -> bool).

(** [excludedExtsMap], as the list of its keys. *)
Definition excludedExtsMap (cfg : config) : list string :=
  map (fun ext =>
         let ext := GoStrings.ToLower ext in
         if GoStrings.HasPrefix ext "." then ext else "." ++ ext)
      (excludeExts cfg).

Definition isExcludedExt (cfg : config) (fileExt : string) : bool :=
  existsb (String.eqb fileExt) (excludedExtsMap cfg).

Record state : Type := mkState {
  files : list fileData;
  skippedFiles : list string;
  syscalls : list syscall
}.

Definition initial : state := mkState [] [] [].

Definition skip (st : state) (msg : string) : state :=
  mkState (files st) (skippedFiles st ++ [msg]) (syscalls st).

Definition accept (st : state) (f : fileData) : state :=
  mkState (files st ++ [f]) (skippedFiles st) (syscalls st).

Definition call (st : state) (c : syscall) : state :=
  mkState (files st) (skippedFiles st) (syscalls st ++ [c]).

Definition maxSizeBytes (cfg : config) : Z := wrap64 (sizeLimitKB cfg * 1024).

Definition ignored (ignorer : option (string -> bool)) (relPath : string) : bool :=
  match ignorer with
  | Some MatchesPath => MatchesPath relPath
  | None => false
  end.

Definition walkFn (cfg : config) (ignorer : option (string -> bool))
           (relPath : string) (d : option node) (err : option string)
           (st : state) : state * option walkErr :=
  match err, d with
  | Some e, _ => (st, Some (Failure e))
  | None, None => (st, None)
  | None, Some d =>
    if String.eqb relPath "." then (st, None)
    else if IsDir d && isVCSName (Name d) then (st, Some SkipDir)
    else if ignored ignorer relPath then
      if IsDir d then
        (skip st (relPath ++ "/ (excluded by ignore file)"), Some SkipDir)
      else (skip st (relPath ++ " (excluded by ignore file)"), None)
    else
      match d with
      | Dir _ _ _ => (st, None)
      | File _ regular info data =>
        if negb regular then (st, None)
        else
          let fileExt := GoStrings.ToLower (GoFilepath.Ext relPath) in
          if isExcludedExt cfg fileExt then
            (skip st (relPath ++ " (extension excluded by -xe)"), None)
          else if langOnly cfg && negb (isLang fileExt) then
            (skip st (relPath ++ " (not a recognized source file with -x)"), None)
          else
            let st := call st (InfoCall relPath) in
            match info with
            | None => (skip st (relPath ++ " (error getting info)"), None)
            | Some size =>
              if (size >? maxSizeBytes cfg)%Z then
                (skip st (relPath ++ " (too large: "
                                  ++ GoFmt.itoa (Z.quot size 1024) ++ "KB > "
                                  ++ GoFmt.itoa (sizeLimitKB cfg) ++ "KB)"),
                 None)
              else if (size =? 0)%Z then (skip st (relPath ++ " (empty)"), None)
              else
                let st := call st (ReadFileCall relPath) in
                match data with
                | None => (skip st (relPath ++ " (unreadable)"), None)
                | Some bytes =>
                  (accept st (mkFileData (GoFilepath.ToSlash relPath) bytes), None)
                end
            end
      end
  end.

Definition getLanguageHint (path : string) : string :=
  lookup EmptyString languageExtMap (GoStrings.ToLower (GoFilepath.Ext path)).

(** [applyPrepend], [buildStandardText] and [buildClaudeXML] are, word
    for word, those of [src/main.go]. *)
Definition applyPrepend := Main.applyPrepend.
Definition buildStandardText := Main.buildStandardText.
Definition buildClaudeXML := Main.buildClaudeXML.

Fixpoint buildMarkdown (b : string) (files : list fileData) (prependPath : string)
  : string :=
  match files with
  | [] => b
  | file :: files' =>
    let outputPath := applyPrepend (path file) prependPath in
    let lang := getLanguageHint (path file) in
    let b := b ++ (fence ++ lang ++ " path=" ++ outputPath ++ newline) in
    let b := b ++ content file in
    let b :=
      match lastByte (content file) with
      | Some c => if Ascii.eqb c "010"%char then b else b ++ newline
      | None => b
      end in
    let b := b ++ (fence ++ newline ++ newline) in
    buildMarkdown b files' prependPath
  end.

Definition reportSkipped (stderr : string) (skipped : list string) : string :=
  match skipped with
  | [] => stderr
  | _ =>
    let sorted := GoSort.Strings skipped in
    let stderr :=
      GoLog.Print stderr ("Skipped " ++ GoFmt.itoa (Z.of_nat (List.length sorted))
                                     ++ " files/dirs:" ++ newline) in
    let stderr :=
      fold_left (fun e msg => GoLog.Print e ("- " ++ msg ++ newline)) sorted stderr in
    GoLog.Print stderr newline
  end.

Definition reportCopied (stderr : string) (files : list fileData) : string :=
  let stderr :=
    GoLog.Print stderr ("Copied " ++ GoFmt.itoa (Z.of_nat (List.length files))
                                  ++ " files:" ++ newline) in
  let stderr :=
    fold_left (fun e f => GoLog.Print e ("- " ++ path f ++ newline)) files stderr in
  GoLog.Print stderr newline.

(** The ignore file is looked for at the path of [-g], by default
    [.gitignore] in the root: the result is what has been logged with the
    parser, if there is one, or the fatal error of a file that does not
    compile. *)
Definition loadIgnore (cfg : config) (absRootDir : string)
           (ignoreAt : string -> ignoreFile)
  : string * option (string -> bool) + process :=
  let gitignorePath :=
    match gitignorePath cfg with
    | EmptyString => GoFilepath.Join absRootDir ".gitignore"
    | p => p
    end in
  match ignoreAt gitignorePath with
  | Ignorer m =>
    inl (GoLog.Print EmptyString ("Using ignore file: " ++ gitignorePath), Some m)
  | BadIgnoreFile e =>
    inr (fatal EmptyString
               ("Error compiling ignore file " ++ GoFmt.quote gitignorePath
                                               ++ ": " ++ e))
  | NoIgnoreFile =>
    inl (GoLog.Print EmptyString
           "No .gitignore file found or specified. Proceeding with basic filters.",
         None)
  end.

(** The variable [rootDir] of [main]. *)
Definition rootDir (cfg : config) : string :=
  match positionalArgs cfg with
  | [arg] => arg
  | _ => "."
  end.

(** [main], after the flags are parsed.  [ignoreAt] is what the run
    finds at the path of the ignore file. *)
Definition main (cfg : config) (w : world) (ignoreAt : string -> ignoreFile)
  : process :=
  if useClaudeXML cfg && useMarkdown cfg then
    fatal EmptyString
          "Error: Cannot use -c (Claude XML) and -m (Markdown) flags together."
  else if Nat.ltb 1 (List.length (positionalArgs cfg)) then
    fatal EmptyString "Error: Only one directory path argument is allowed."
  else
    let rootDir := rootDir cfg in
    match Abs w rootDir with
    | inr e =>
      fatal EmptyString
            ("Error getting absolute path for " ++ GoFmt.quote rootDir ++ ": " ++ e)
    | inl absRootDir =>
      match loadIgnore cfg absRootDir ignoreAt with
      | inr p => p
      | inl (stderr, ignorer) =>
        match WalkDir (walkFn cfg ignorer) (root w absRootDir) initial with
        | (_, Some e) =>
          fatal stderr
                ("Error walking directory " ++ GoFmt.quote rootDir ++ ": "
                                            ++ errorText e)
        | (st, None) =>
          let files := GoSort.Slice less (files st) in
          let stderr := reportSkipped stderr (skippedFiles st) in
          let stderr :=
            if verbose cfg && Nat.ltb 0 (List.length files)
            then reportCopied stderr files else stderr in
          match files with
          | [] =>
            mkProcess EmptyString
                      (GoLog.Print stderr "No files matched. No output generated.") 0
          | _ =>
            let b :=
              if useClaudeXML cfg then buildClaudeXML EmptyString files (prependPath cfg)
              else if useMarkdown cfg then buildMarkdown EmptyString files (prependPath cfg)
              else buildStandardText EmptyString files (prependPath cfg) in
            mkProcess b
                      (GoLog.Print stderr
                         (checkMark ++ " Ingested "
                                    ++ GoFmt.itoa (Z.of_nat (List.length files))
                                    ++ " files."))
                      0
          end
        end
      end
    end.

End Part001.

(** ** Trees and configurations for the examples *)

Module Sample.

(** A world in which [dir] resolves to [/work/dir] and holds [d]. *)
Definition worldOf (d : node) : world :=
  mkWorld (fun dir => inl ("/work/" ++ dir)) (fun _ => Found d).

(** The defaults of the flags. *)
Definition main_defaults : Main.config :=
  Main.mkConfig 25 false false EmptyString [] [] [].

Definition part000_defaults : Part000.config :=
  Part000.mkConfig 25 false false [] [] [].

Definition part001_defaults : Part001.config :=
  Part001.mkConfig EmptyString false [] 25 false false EmptyString false [].

Definition noIgnoreFile : string -> Part001.ignoreFile :=
  fun _ => Part001.NoIgnoreFile.

(** A directory with one file that no default rule selects. *)
Definition onlyBinary : node :=
  Dir "work" None [File "a.bin" true (Some 5%Z) (Some "hello")].

(** The tree of a scenario of the specification: two sources and a
    dependency directory. *)
Definition scenario : node :=
  Dir "work" None
      [File "README.md" true (Some 5%Z) (Some "# hi" );
       File "a.go" true (Some 10%Z) (Some "package a");
       Dir "node_modules" None [File "x.js" true (Some 10%Z) (Some "let x = 1")]].

(** A source next to a directory that cannot be listed. *)
Definition withUnreadableDir : node :=
  Dir "work" None
      [File "a.go" true (Some 9%Z) (Some "package a");
       Dir "secret" (Some "open secret: permission denied") []].

(** A source and a text file, for a run with [-i "*.go"]. *)
Definition goAndText : node :=
  Dir "work" None
      [File "a.go" true (Some 9%Z) (Some "package a");
       File "notes.txt" true (Some 5%Z) (Some "notes")].

Definition main_onlyGo : Main.config :=
  Main.mkConfig 25 false false EmptyString ["*.go"] [] [].

(** A file of 30000 bytes that no default rule selects. *)
Definition bigBinary : node :=
  Dir "work" None [File "big.bin" true (Some 30000%Z) None].

End Sample.

(** ** Notions used to state the properties of a walk *)

(** The loop of [walkDir] over the entries of a directory, by itself. *)
Section WalkEntries.
Context {St : Type}.
Variable fn : string -> option node -> option string -> St -> St * option walkErr.
Variable rel : string.

Fixpoint walkEntries (ds : list node) (st : St) : St * option walkErr :=
  match ds with
  | [] => (st, None)
  | d1 :: ds' =>
    let (st', err1) := walkDir fn (relJoin rel (Name d1)) d1 st in
    match err1 with
    | None => walkEntries ds' st'
    | Some SkipDir => (st', None)
    | Some e => (st', Some e)
    end
  end.

End WalkEntries.

(** The names a directory listing can hold. *)
Definition validName (name : string) : bool :=
  negb (isEmpty name) && negb (String.eqb name ".") && negb (String.eqb name "..")
  && negb (GoStrings.ContainsByte name GoFilepath.Separator).

(** Every entry below [d] has a name that [good] accepts. *)
Fixpoint namedEntries (good : string -> bool) (d : node) : bool :=
  match d with
  | File _ _ _ _ => true
  | Dir _ _ entries =>
    forallb (fun d1 => good (Name d1) && namedEntries good d1) entries
  end.

Definition validEntries (d : node) : bool := namedEntries validName d.

(** No directory in [d] fails to be read. *)
Fixpoint readable (d : node) : bool :=
  match d with
  | File _ _ _ _ => true
  | Dir _ readErr entries =>
    match readErr with
    | Some _ => false
    | None => forallb readable entries
    end
  end.

(** The tree [d], found at [rel], with every directory that [prunes]
    selects emptied. *)
Fixpoint erasePruned (prunes : string -> string -> bool) (rel : string) (d : node)
  : node :=
  match d with
  | File _ _ _ _ => d
  | Dir name readErr entries =>
    if prunes rel name then Dir name None []
    else Dir name readErr
             (map (fun d1 => erasePruned prunes (relJoin rel (Name d1)) d1) entries)
  end.

(** The relative paths of the regular files of [d], found at [rel], that
    are in no directory that [prunes] selects. *)
Fixpoint regularFiles (prunes : string -> string -> bool) (rel : string) (d : node)
  : list string :=
  match d with
  | File _ regular _ _ => if regular then [rel] else []
  | Dir name _ entries =>
    if prunes rel name then []
    else flat_map (fun d1 => regularFiles prunes (relJoin rel (Name d1)) d1) entries
  end.

(** The same, for the entries of the root only (the root itself, when it
    is a file, is left out). *)
Definition regularFilesBelow (prunes : string -> string -> bool) (d : node)
  : list string :=
  match d with
  | File _ _ _ _ => []
  | Dir _ _ _ => regularFiles prunes "." d
  end.

(** A path is accounted for by the collected files, or by a message
    [path (reason)] among the skipped ones. *)
Definition accountedFor (files : list fileData) (skippedFiles : list string)
           (relPath : string) : Prop :=
  (exists bytes, In (mkFileData relPath bytes) files)
  \/ (exists reason, In (relPath ++ " (" ++ reason ++ ")") skippedFiles).

(** The directories the walk function of [src/main.go] answers with
    [SkipDir]. *)
Definition main_prunes (cfg : Main.config) (rel name : string) : bool :=
  isVCSName name || matchAny (Main.excludes cfg) rel.

(** The directories the walk function of [src/unnamed/part_001] answers
    with [SkipDir]. *)
Definition part001_prunes (ignorer : option (string -> bool)) (rel name : string)
  : bool :=
  negb (String.eqb rel ".") && (isVCSName name || Part001.ignored ignorer rel).

(** Bytes other than the separator, and other than the bracket that opens
    a character class. *)
Definition notSeparator (c : ascii) : bool := negb (GoFilepath.IsPathSeparator c).
Definition notClass (c : ascii) : bool := negb (Ascii.eqb c "["%char).

(** ** Notions used to state the properties of the output *)

(** The texts of the files, one after the other. *)
Definition joinBlocks (blocks : list string) : string :=
  fold_right String.append EmptyString blocks.

(** What [buildMarkdown] of [src/main.go] (and of [src/unnamed/part_001],
    up to the table of languages) writes for one file: the opening fence
    line, the content, a newline if the content is not empty and does not
    end in one, and the closing fence with a blank line. *)
Definition markdownHeader (lang outputPath : string) : string :=
  fence ++ lang ++ " path=" ++ outputPath ++ newline.

Definition forcedNewline (content : string) : string :=
  match lastByte content with
  | Some c => if Ascii.eqb c "010"%char then EmptyString else newline
  | None => EmptyString
  end.

Definition markdownBody (content : string) : string :=
  content ++ forcedNewline content.

Definition markdownClose : string := fence ++ newline ++ newline.

Definition main_markdownBlock (prependPath : string) (file : fileData) : string :=
  markdownHeader (Main.getLanguageHint (path file))
                 (Main.applyPrepend (path file) prependPath)
  ++ markdownBody (content file) ++ markdownClose.

(** What [buildMarkdown] of [src/unnamed/part_001] writes for one file:
    as in [src/main.go], with the language table of its own. *)
Definition part001_markdownBlock (prependPath : string) (file : fileData) : string :=
  markdownHeader (Part001.getLanguageHint (path file))
                 (Part001.applyPrepend (path file) prependPath)
  ++ markdownBody (content file) ++ markdownClose.

(** What [buildMarkdown] of [src/unnamed/part_000] writes for one file:
    the newline before the closing fence is always written. *)
Definition part000_markdownBlock (file : fileData) : string :=
  markdownHeader (Part000.getLanguageHint (path file)) (path file)
  ++ (content file ++ newline) ++ markdownClose.

Definition main_textBlock (prependPath : string) (file : fileData) : string :=
  Main.separator
  ++ ("FILE: " ++ Main.applyPrepend (path file) prependPath ++ newline)
  ++ Main.separator ++ content file ++ (newline ++ newline).

(** The escaped form of a text: [EscapeText] on an empty builder. *)
Definition escaped (s : string) : string := GoXml.EscapeText EmptyString s.

Definition main_documentBlock (prependPath : string) (file : fileData) : string :=
  ("  <document path=" ++ GoFmt.dquote)
  ++ escaped (Main.applyPrepend (path file) prependPath)
  ++ (GoFmt.dquote ++ ">" ++ newline ++ "    <content>")
  ++ escaped (content file)
  ++ ("</content>" ++ newline ++ "  </document>" ++ newline).

(** Removing one final newline, if there is one. *)
Fixpoint stripNewline (s : string) : string :=
  match s with
  | EmptyString => EmptyString
  | String c EmptyString => if Ascii.eqb c "010"%char then EmptyString else s
  | String c s' => String c (stripNewline s')
  end.

(** The reverse of the escapes of [EscapeText]: each of the eight
    references it writes stands for one byte. *)
Definition xmlEntities : list (string * ascii) :=
  [("&#34;", "034"%char); ("&#39;", "'"%char); ("&amp;", "&"%char);
   ("&lt;", "<"%char); ("&gt;", ">"%char); ("&#x9;", "009"%char);
   ("&#xA;", "010"%char); ("&#xD;", "013"%char)].

Fixpoint entityAt (table : list (string * ascii)) (s : string) : option (ascii * nat) :=
  match table with
  | [] => None
  | (ref, c) :: table' =>
    if GoStrings.HasPrefix s ref then Some (c, String.length ref)
    else entityAt table' s
  end.

Fixpoint unescapeFrom (skip : nat) (s : string) : string :=
  match s with
  | EmptyString => EmptyString
  | String c s' =>
    match skip with
    | S skip' => unescapeFrom skip' s'
    | O =>
      match entityAt xmlEntities s with
      | Some (char, len) => String char (unescapeFrom (len - 1) s')
      | None => String c (unescapeFrom 0 s')
      end
    end
  end.

Definition unescape (s : string) : string := unescapeFrom 0 s.

(** A text that [EscapeText] writes without replacing anything: valid
    UTF-8, made of characters in the character range of XML. *)
Fixpoint xmlTextLoop (fuel : nat) (s : string) : bool :=
  match fuel with
  | O => isEmpty s
  | S fuel' =>
    match s with
    | EmptyString => true
    | _ =>
      let (r, width) := GoUtf8.DecodeRuneInString s in
      GoXml.isInCharacterRange r
      && negb ((r =? GoUtf8.RuneError)%N && Nat.eqb width 1)
      && xmlTextLoop fuel' (drop width s)
    end
  end.

Definition xmlText (s : string) : bool := xmlTextLoop (String.length s) s.

(** ** The arguments of the command line *)

(** The loop of [main] in [src/main.go] and [src/unnamed/part_001] that
    separates the flags from the positional arguments.  [flags] is the
    flag set, as the names defined with, for each, whether the value is a
    boolean one ([IsBoolFlag]); [flagSet.Lookup] is [lookupFlag]. *)
Fixpoint lookupFlag (flags : list (string * bool)) (name : string) : option bool :=
  match flags with
  | [] => None
  | (n, isBool) :: flags' =>
    if String.eqb n name then Some isBool else lookupFlag flags' name
  end.

(** The test under which the loop takes the next argument as the value
    of the flag [arg], but for the look at that next argument. *)
Definition expectsValue (flags : list (string * bool)) (arg : string) : bool :=
  negb (GoStrings.ContainsByte arg "="%char)
  && match lookupFlag flags (GoStrings.TrimLeftByte arg "-"%char) with
     | Some isBool => negb isBool
     | None => false
     end.

(** The pair ([flagArgs], [positionalArgs]) after the loop. *)
Fixpoint splitArgs (flags : list (string * bool)) (args : list string)
  : list string * list string :=
  match args with
  | [] => ([], [])
  | arg :: rest =>
    if negb (GoStrings.HasPrefix arg "-") then
      let (flagArgs, positionalArgs) := splitArgs flags rest in
      (flagArgs, arg :: positionalArgs)
    else
      match rest with
      | next :: rest' =>
        if expectsValue flags arg && negb (GoStrings.HasPrefix next "-") then
          let (flagArgs, positionalArgs) := splitArgs flags rest' in
          (arg :: next :: flagArgs, positionalArgs)
        else
          let (flagArgs, positionalArgs) := splitArgs flags rest in
          (arg :: flagArgs, positionalArgs)
      | [] => ([arg], [])
      end
  end.

(** The flag sets of [src/main.go] and of [src/unnamed/part_001]. *)
Definition main_flagSet : list (string * bool) :=
  [("s", false); ("c", true); ("m", true); ("p", false); ("i", false); ("e", false)].

Definition part001_flagSet : list (string * bool) :=
  [("g", false); ("x", true); ("xe", false); ("s", false); ("m", true);
   ("c", true); ("p", false); ("v", true)].

(** [Interleave l1 l2 l]: the list [l] is made of the elements of [l1]
    and of [l2], each list in its order. *)
Inductive Interleave {A : Type} : list A -> list A -> list A -> Prop :=
| Interleave_nil : Interleave [] [] []
| Interleave_left x l1 l2 l : Interleave l1 l2 l -> Interleave (x :: l1) l2 (x :: l)
| Interleave_right x l1 l2 l : Interleave l1 l2 l -> Interleave l1 (x :: l2) (x :: l).

(** A byte that is none of the four that delimit markup in XML: the
    angle brackets and the two quotes. *)
Definition markupFree (c : ascii) : bool :=
  negb (Ascii.eqb c "<"%char) && negb (Ascii.eqb c ">"%char)
  && negb (Ascii.eqb c "034"%char) && negb (Ascii.eqb c "'"%char).

(** A byte that [filepath.Match] reads as itself in a pattern: none of
    the star, the question mark, the opening bracket and the backslash. *)
Definition literalByte (c : ascii) : bool :=
  negb (Ascii.eqb c "*"%char) && negb (Ascii.eqb c "?"%char)
  && negb (Ascii.eqb c "["%char) && negb (Ascii.eqb c "\"%char).

(** What a walk collects from the tree [d], found at [rel]: what [leaf]
    gives for each file that is in no directory that [prunes] selects, in
    the order of the walk. *)
Fixpoint collected {B : Type} (prunes : string -> string -> bool)
         (leaf : string -> node -> list B) (rel : string) (d : node) : list B :=
  match d with
  | File _ _ _ _ => leaf rel d
  | Dir name _ entries =>
    if prunes rel name then []
    else flat_map (fun d1 => collected prunes leaf (relJoin rel (Name d1)) d1) entries
  end.

(** The size of a file passes the checks of the walk functions. *)
Definition sizeFits (maxSizeBytes size : Z) : bool :=
  negb (size >? maxSizeBytes)%Z && negb (size =? 0)%Z.

(** What [src/main.go] and [src/unnamed/part_000] keep of an entry that is
    not a directory: a regular file that no [-e] pattern matches, whose
    size is known and fits, that is included and that can be read, with
    its content. *)
Definition main_keeps (cfg : Main.config) (rel : string) (d : node) : list fileData :=
  match d with
  | File _ true (Some size) (Some bytes) =>
    if negb (matchAny (Main.excludes cfg) rel)
       && sizeFits (Main.maxSizeBytes cfg) size
       && Main.isIncluded cfg rel
    then [mkFileData (GoFilepath.ToSlash rel) bytes]
    else []
  | _ => []
  end.

Definition main_selected (cfg : Main.config) (d : node) : list fileData :=
  collected (main_prunes cfg) (main_keeps cfg) "." d.

(** The options of [src/unnamed/part_000], given to [src/main.go] with no
    [-p]. *)
Definition part000_as_main (cfg : Part000.config) : Main.config :=
  Main.mkConfig (Part000.sizeLimitKB cfg) (Part000.useClaudeXML cfg)
                (Part000.useMarkdown cfg) EmptyString
                (Part000.includes cfg) (Part000.excludes cfg)
                (Part000.positionalArgs cfg).

(** What [src/unnamed/part_001] keeps of an entry that is not a
    directory: a regular file below the root that the ignore file and
    [-xe] let pass, with a known language under [-x], whose size is known
    and fits, and that can be read. *)
Definition part001_keeps (cfg : Part001.config) (ignorer : option (string -> bool))
           (rel : string) (d : node) : list fileData :=
  match d with
  | File _ true (Some size) (Some bytes) =>
    let fileExt := GoStrings.ToLower (GoFilepath.Ext rel) in
    if negb (String.eqb rel ".")
       && negb (Part001.ignored ignorer rel)
       && negb (Part001.isExcludedExt cfg fileExt)
       && (negb (Part001.langOnly cfg) || Part001.isLang fileExt)
       && sizeFits (Part001.maxSizeBytes cfg) size
    then [mkFileData (GoFilepath.ToSlash rel) bytes]
    else []
  | _ => []
  end.

Definition part001_selected (cfg : Part001.config) (ignorer : option (string -> bool))
           (d : node) : list fileData :=
  collected (part001_prunes ignorer) (part001_keeps cfg ignorer) "." d.

(** A state of [src/main.go] and one of [src/unnamed/part_000] hold the same files and the same calls. *)
Definition sameCollection (st1 : Main.state) (st0 : Part000.state) : Prop :=
  Main.files st1 = Part000.files st0 /\ Main.syscalls st1 = Part000.syscalls st0.

(** The calls [src/main.go] makes for an entry that is not a directory:
    [d.Info()] for a regular file that no [-e] pattern matches, and then
    [os.ReadFile] if the size is known and fits and the file is
    included. *)
Definition main_calls (cfg : Main.config) (rel : string) (d : node) : list syscall :=
  match d with
  | File _ true info _ =>
    if matchAny (Main.excludes cfg) rel then []
    else
      InfoCall rel
      :: match info with
         | Some size =>
           if sizeFits (Main.maxSizeBytes cfg) size && Main.isIncluded cfg rel
           then [ReadFileCall rel] else []
         | None => []
         end
  | _ => []
  end.

(** No call in [calls] is for a path that [bad] selects. *)
Definition neverCalled (bad : string -> bool) (calls : list syscall) : Prop :=
  forall c, In c calls ->
            match c with
            | InfoCall rel | ReadFileCall rel => bad rel = false
            end.

(** Every [os.ReadFile] in [calls] comes right after the [d.Info()] for
    the same path. *)
Fixpoint readAfterInfo (calls : list syscall) : bool :=
  match calls with
  | [] => true
  | InfoCall rel :: ReadFileCall rel' :: calls' =>
    String.eqb rel rel' && readAfterInfo calls'
  | InfoCall _ :: calls' => readAfterInfo calls'
  | ReadFileCall _ :: _ => false
  end.

(** No name occurs twice in a directory listing, in [d] and below. *)
Fixpoint distinct (names : list string) : bool :=
  match names with
  | [] => true
  | name :: names' => negb (existsb (String.eqb name) names') && distinct names'
  end.

Fixpoint distinctNames (d : node) : bool :=
  match d with
  | File _ _ _ _ => true
  | Dir _ _ entries => distinct (map Name entries) && forallb distinctNames entries
  end.

(** No file of [d] has a negative size, as on every file system. *)
Fixpoint nonNegativeSizes (d : node) : bool :=
  match d with
  | File _ _ info _ =>
    match info with
    | Some size => (0 <=? size)%Z
    | None => true
    end
  | Dir _ _ entries => forallb nonNegativeSizes entries
  end.

(** The names of the entries below [d] are ASCII text. *)
Definition asciiNames (d : node) : bool := namedEntries asciiOnly d.

(** The texts that [src/unnamed/part_001] gives to [strings.ToLower] for
    the entry at [rel] are ASCII: the extension of the path and the
    arguments of [-xe]. *)
Definition part001_asciiExtensions (cfg : Part001.config) (rel : string) : bool :=
  asciiOnly (GoFilepath.Ext rel) && forallb asciiOnly (Part001.excludeExts cfg).

(** The tests of [src/unnamed/part_001] on the extension are embedded
    exactly: none is made (neither [-xe] nor [-x] is given), or the texts
    are ASCII. *)
Definition part001_extensionTestsExact (cfg : Part001.config) (rel : string) : bool :=
  (match Part001.excludeExts cfg with [] => true | _ => false end
   && negb (Part001.langOnly cfg))
  || part001_asciiExtensions cfg rel.

(** What [src/main.go] and [src/unnamed/part_000] keep of an entry that is
    not a directory when [-i] is given: as [main_keeps], with the match
    against the include patterns in the place of [isIncluded]. *)
Definition main_keepsMatching (cfg : Main.config) (rel : string) (d : node)
  : list fileData :=
  match d with
  | File _ true (Some size) (Some bytes) =>
    if matchAny (Main.includes cfg) rel
       && negb (matchAny (Main.excludes cfg) rel)
       && sizeFits (Main.maxSizeBytes cfg) size
    then [mkFileData (GoFilepath.ToSlash rel) bytes]
    else []
  | _ => []
  end.

(** The options of [src/main.go] without its [-e] patterns. *)
Definition main_withoutExcludes (cfg : Main.config) : Main.config :=
  Main.mkConfig (Main.sizeLimitKB cfg) (Main.useClaudeXML cfg) (Main.useMarkdown cfg)
                (Main.prependPath cfg) (Main.includes cfg) []
                (Main.positionalArgs cfg).

(** A pattern without separator and without character class. *)
Definition plainPattern (pattern : string) : Prop :=
  GoStrings.ContainsByte pattern GoFilepath.Separator = false
  /\ GoStrings.ContainsByte pattern "["%char = false.

(** The options of [src/unnamed/part_000] without its [-e] patterns. *)
Definition part000_withoutExcludes (cfg : Part000.config) : Part000.config :=
  Part000.mkConfig (Part000.sizeLimitKB cfg) (Part000.useClaudeXML cfg)
                   (Part000.useMarkdown cfg) (Part000.includes cfg) []
                   (Part000.positionalArgs cfg).

(** * Properties *)

Example clean1 : GoFilepath.Clean "a//b/./c/.." = "a/b". Proof. vm_compute. reflexivity. Qed.
Example clean2 : GoFilepath.Clean "../../a/../.." = "../../..". Proof. vm_compute. reflexivity. Qed.
Example clean3 : GoFilepath.Clean "/../a/b/../c/" = "/a/c". Proof. vm_compute. reflexivity. Qed.
Example clean4 : GoFilepath.Clean "a/.." = ".". Proof. vm_compute. reflexivity. Qed.
Example clean5 : GoFilepath.Clean "abc/def/../../.." = "..". Proof. vm_compute. reflexivity. Qed.
Example join1 : GoFilepath.Join "my-project/" "src/a.go" = "my-project/src/a.go". Proof. vm_compute. reflexivity. Qed.
Example match1 : GoFilepath.Match "*.log" "a.log" = (true, false). Proof. vm_compute. reflexivity. Qed.
Example match2 : GoFilepath.Match "*.log" "sub/a.log" = (false, false). Proof. vm_compute. reflexivity. Qed.
Example match3 : GoFilepath.Match "a[^b]c" "a/c" = (true, false). Proof. vm_compute. reflexivity. Qed.
Example match4 : GoFilepath.Match "a[" "a/c" = (false, true). Proof. vm_compute. reflexivity. Qed.
Example match5 : GoFilepath.Match "a*b*c?" "axxbyycz" = (true, false). Proof. vm_compute. reflexivity. Qed.
Example match6 : GoFilepath.Match "a\*b" "a*b" = (true, false). Proof. vm_compute. reflexivity. Qed.
Example match7 : GoFilepath.Match "[a-c]*" "bzz" = (true, false). Proof. vm_compute. reflexivity. Qed.
Example ext1 : GoFilepath.Ext "a/b.c/d.tar.gz" = ".gz". Proof. vm_compute. reflexivity. Qed.
Example ext2 : GoFilepath.Ext "a/b.c/d" = EmptyString. Proof. vm_compute. reflexivity. Qed.
Example base1 : GoFilepath.Base "a/b.c/README.md" = "README.md". Proof. vm_compute. reflexivity. Qed.
Example base2 : GoFilepath.Base "///" = "/". Proof. vm_compute. reflexivity. Qed.
Example base3 : GoFilepath.Base "a/b//" = "b". Proof. vm_compute. reflexivity. Qed.

(** ** Strings *)

Lemma append_nil_r (s : string) : s ++ EmptyString = s.
Proof. induction s; simpl; congruence. Qed.

Lemma append_assoc (s t u : string) : (s ++ t) ++ u = s ++ (t ++ u).
Proof. induction s; simpl; congruence. Qed.

Lemma length_append (s t : string) :
  String.length (s ++ t) = String.length s + String.length t.
Proof. induction s; simpl; congruence. Qed.

Lemma take_drop (n : nat) (s : string) : take n s ++ drop n s = s.
Proof.
  revert s; induction n as [|n IH]; intros [|c s]; simpl; try reflexivity.
  now rewrite IH.
Qed.

Lemma length_drop (n : nat) (s : string) :
  String.length (drop n s) = String.length s - n.
Proof.
  revert s; induction n as [|n IH]; intros [|c s]; simpl; auto with arith.
Qed.

(** ** The run with no file accepted *)

(** C9 (confirmed).  In each of the three files: when the flags pass the
    checks, the root resolves and the walk returns without error and with
    no file collected, [main] returns with status 0, has written nothing
    to the standard output, and the last thing on the standard error is
    the line [No files matched. No output generated.] *)
Theorem no_file_is_success_without_output :
  (forall cfg w absRoot st,
      Main.useClaudeXML cfg && Main.useMarkdown cfg = false ->
      (List.length (Main.positionalArgs cfg) <= 1)%nat ->
      Abs w (Main.rootDir cfg) = inl absRoot ->
      WalkDir (Main.walkFn cfg) (root w absRoot) Main.initial = (st, None) ->
      Main.files st = [] ->
      Main.main cfg w =
      mkProcess EmptyString
                (Main.reportSkipped EmptyString (Main.skippedFiles st)
                 ++ "No files matched. No output generated." ++ newline)
                0)
  /\ (forall cfg w absRoot st,
         Part000.useClaudeXML cfg && Part000.useMarkdown cfg = false ->
         Abs w (Part000.rootDir cfg) = inl absRoot ->
         WalkDir (Part000.walkFn cfg) (root w absRoot) Part000.initial = (st, None) ->
         Part000.files st = [] ->
         Part000.main cfg w =
         mkProcess EmptyString
                   ("No files matched. No output generated." ++ newline) 0)
  /\ (forall cfg w ignoreAt absRoot log ignorer st,
         Part001.useClaudeXML cfg && Part001.useMarkdown cfg = false ->
         (List.length (Part001.positionalArgs cfg) <= 1)%nat ->
         Abs w (Part001.rootDir cfg) = inl absRoot ->
         Part001.loadIgnore cfg absRoot ignoreAt = inl (log, ignorer) ->
         WalkDir (Part001.walkFn cfg ignorer) (root w absRoot) Part001.initial
         = (st, None) ->
         Part001.files st = [] ->
         Part001.main cfg w ignoreAt =
         mkProcess EmptyString
                   (Part001.reportSkipped log (Part001.skippedFiles st)
                    ++ "No files matched. No output generated." ++ newline)
                   0).
Proof.
  split; [|split].
  - intros cfg w absRoot st Hfmt Hargs Habs Hwalk Hfiles.
    unfold Main.main. rewrite Hfmt.
    destruct (Nat.ltb_spec 1 (List.length (Main.positionalArgs cfg))); [lia|].
    cbv zeta. rewrite Habs, Hwalk, Hfiles. reflexivity.
  - intros cfg w absRoot st Hfmt Habs Hwalk Hfiles.
    unfold Part000.main. rewrite Hfmt.
    cbv zeta. rewrite Habs, Hwalk, Hfiles. reflexivity.
  - intros cfg w ignoreAt absRoot log ignorer st Hfmt Hargs Habs Hign Hwalk Hfiles.
    unfold Part001.main. rewrite Hfmt.
    destruct (Nat.ltb_spec 1 (List.length (Part001.positionalArgs cfg))); [lia|].
    cbv zeta. rewrite Habs, Hign, Hwalk, Hfiles. simpl.
    rewrite Bool.andb_false_r. reflexivity.
Qed.

Lemma no_file_is_success_without_output_witness :
  Main.main Sample.main_defaults (Sample.worldOf Sample.onlyBinary)
  = mkProcess EmptyString
              ("Skipped 1 files:" ++ newline
               ++ "- a.bin (unsupported extension)" ++ newline ++ newline
               ++ "No files matched. No output generated." ++ newline) 0
  /\ Part000.main Sample.part000_defaults (Sample.worldOf Sample.onlyBinary)
     = mkProcess EmptyString ("No files matched. No output generated." ++ newline) 0
  /\ exitCode (Part001.main (Part001.mkConfig EmptyString true [] 25 false false
                                              EmptyString false [])
                            (Sample.worldOf Sample.onlyBinary) Sample.noIgnoreFile)
     = 0%Z.
Proof.
  destruct no_file_is_success_without_output as [H1 [H2 H3]].
  split; [|split].
  - rewrite (H1 Sample.main_defaults (Sample.worldOf Sample.onlyBinary) "/work/."
                (Main.mkState [] ["a.bin (unsupported extension)"]
                              [InfoCall "a.bin"]));
      try reflexivity.
    simpl. lia.
  - apply (H2 Sample.part000_defaults (Sample.worldOf Sample.onlyBinary) "/work/."
              (Part000.mkState [] [InfoCall "a.bin"])); reflexivity.
  - erewrite (H3 _ (Sample.worldOf Sample.onlyBinary) Sample.noIgnoreFile "/work/."
                 _ None
                 (Part001.mkState
                    [] ["a.bin (not a recognized source file with -x)"] []));
      try reflexivity.
    simpl. lia.
Defined.

(** ** The walk functions on a single file *)

Ltac break_if :=
  match goal with
  | |- context [if ?b then _ else _] => destruct b eqn:?
  end.

Ltac break_match :=
  match goal with
  | |- context [match ?x with _ => _ end] => destruct x eqn:?
  end.

Lemma matchAny_exists (patterns : list string) (relPath : string) :
  matchAny patterns relPath = true <->
  exists pattern, In pattern patterns /\ fst (GoFilepath.Match pattern relPath) = true.
Proof. unfold matchAny. apply existsb_exists. Qed.

Lemma length_pos_nonempty {A : Type} (l : list A) :
  l <> [] -> Nat.ltb 0 (List.length l) = true /\ Nat.eqb (List.length l) 0 = false.
Proof. destruct l; [congruence | intros _; split; reflexivity]. Qed.

Lemma gtb_succ_self (z : Z) : (z + 1 >? z)%Z = true.
Proof. apply Z.gtb_lt. lia. Qed.

Lemma gtb_self (z : Z) : (z >? z)%Z = false.
Proof. rewrite Z.gtb_ltb. apply Z.ltb_irrefl. Qed.

Lemma eqb_zero_false (z : Z) : z <> 0%Z -> (z =? 0)%Z = false.
Proof. intros H. now apply Z.eqb_neq. Qed.

(** C8 (confirmed).  With [L] the limit in bytes ([maxSizeBytes]), in
    [src/main.go] and in [src/unnamed/part_001]: a regular file of size
    exactly [L] that passes the other checks, the check for emptiness
    among them, is read and collected; a file of size [L+1] is never
    collected and, where the walk function gets as far as its size, is
    recorded as too large; a file of size 0 is never collected, whatever
    its name, the patterns and the other flags.  In
    [src/unnamed/part_001] the other checks include two on the extension
    in lower case: they are stated where they are embedded exactly, that
    is, where neither [-xe] nor [-x] is given or the extension and the
    arguments of [-xe] are ASCII text. *)
Theorem size_limit_boundary :
  (forall cfg relPath name bytes st,
      Main.maxSizeBytes cfg <> 0%Z ->
      matchAny (Main.excludes cfg) relPath = false ->
      Main.isIncluded cfg relPath = true ->
      Main.walkFn cfg relPath
                  (Some (File name true (Some (Main.maxSizeBytes cfg)) (Some bytes)))
                  None st
      = (Main.accept
           (Main.call (Main.call st (InfoCall relPath)) (ReadFileCall relPath))
           (mkFileData (GoFilepath.ToSlash relPath) bytes), None))
  /\ (forall cfg relPath name regular data st,
         let d := File name regular (Some (Main.maxSizeBytes cfg + 1)%Z) data in
         Main.files (fst (Main.walkFn cfg relPath (Some d) None st)) = Main.files st
         /\ (regular = true ->
             matchAny (Main.excludes cfg) relPath = false ->
             Main.walkFn cfg relPath (Some d) None st
             = (Main.skip (Main.call st (InfoCall relPath))
                          (relPath ++ " (too large: "
                                   ++ GoFmt.itoa (Z.quot (Main.maxSizeBytes cfg + 1) 1024)
                                   ++ "KB > " ++ GoFmt.itoa (Main.sizeLimitKB cfg)
                                   ++ "KB)"), None)))
  /\ (forall cfg relPath name regular data st,
         Main.files (fst (Main.walkFn cfg relPath
                                      (Some (File name regular (Some 0%Z) data)) None st))
         = Main.files st)
  /\ (forall cfg ignorer relPath name bytes st,
         Part001.maxSizeBytes cfg <> 0%Z ->
         relPath <> "." ->
         Part001.ignored ignorer relPath = false ->
         part001_extensionTestsExact cfg relPath = true ->
         Part001.isExcludedExt cfg (GoStrings.ToLower (GoFilepath.Ext relPath)) = false ->
         Part001.langOnly cfg
         && negb (Part001.isLang (GoStrings.ToLower (GoFilepath.Ext relPath))) = false ->
         Part001.walkFn cfg ignorer relPath
                        (Some (File name true (Some (Part001.maxSizeBytes cfg))
                                    (Some bytes)))
                        None st
         = (Part001.accept
              (Part001.call (Part001.call st (InfoCall relPath)) (ReadFileCall relPath))
              (mkFileData (GoFilepath.ToSlash relPath) bytes), None))
  /\ (forall cfg ignorer relPath name regular data st,
         let d := File name regular (Some (Part001.maxSizeBytes cfg + 1)%Z) data in
         Part001.files (fst (Part001.walkFn cfg ignorer relPath (Some d) None st))
         = Part001.files st
         /\ (regular = true ->
             relPath <> "." ->
             Part001.ignored ignorer relPath = false ->
             part001_extensionTestsExact cfg relPath = true ->
             Part001.isExcludedExt cfg (GoStrings.ToLower (GoFilepath.Ext relPath))
             = false ->
             Part001.langOnly cfg
             && negb (Part001.isLang (GoStrings.ToLower (GoFilepath.Ext relPath)))
             = false ->
             Part001.walkFn cfg ignorer relPath (Some d) None st
             = (Part001.skip (Part001.call st (InfoCall relPath))
                             (relPath ++ " (too large: "
                                      ++ GoFmt.itoa (Z.quot (Part001.maxSizeBytes cfg + 1) 1024)
                                      ++ "KB > " ++ GoFmt.itoa (Part001.sizeLimitKB cfg)
                                      ++ "KB)"), None)))
  /\ (forall cfg ignorer relPath name regular data st,
         Part001.files (fst (Part001.walkFn cfg ignorer relPath
                                            (Some (File name regular (Some 0%Z) data))
                                            None st))
         = Part001.files st).
Proof.
  repeat split.
  - intros cfg relPath name bytes st HL Hex Hin. unfold Main.walkFn. simpl negb.
    cbv iota. rewrite Hex, gtb_self, (eqb_zero_false _ HL), Hin. reflexivity.
  - unfold Main.walkFn.
    repeat break_if; try reflexivity; rewrite gtb_succ_self in *; discriminate.
  - intros Hreg Hex. subst regular. unfold Main.walkFn. simpl negb. cbv iota.
    rewrite Hex, gtb_succ_self. reflexivity.
  - intros cfg relPath name regular data st. unfold Main.walkFn.
    repeat break_if; try reflexivity; discriminate.
  - intros cfg ignorer relPath name bytes st HL Hroot Hign _ Hxe Hx.
    unfold Part001.walkFn. apply String.eqb_neq in Hroot. rewrite Hroot.
    simpl IsDir. cbv iota. simpl andb. cbv iota. rewrite Hign. simpl negb. cbv iota.
    cbv zeta. rewrite Hxe, Hx, gtb_self, (eqb_zero_false _ HL). reflexivity.
  - unfold Part001.walkFn. simpl IsDir. simpl andb. cbv iota zeta.
    repeat break_if; try reflexivity; rewrite gtb_succ_self in *; discriminate.
  - intros Hreg Hroot Hign _ Hxe Hx. subst regular.
    unfold Part001.walkFn. apply String.eqb_neq in Hroot. rewrite Hroot.
    simpl IsDir. simpl andb. cbv iota. rewrite Hign. simpl negb. cbv iota zeta.
    rewrite Hxe, Hx, gtb_succ_self. reflexivity.
  - intros cfg ignorer relPath name regular data st. unfold Part001.walkFn.
    simpl IsDir. simpl andb. cbv iota zeta.
    repeat break_if; try reflexivity; discriminate.
Qed.

Lemma size_limit_boundary_witness :
  Main.walkFn Sample.main_defaults "a.go"
              (Some (File "a.go" true (Some 25600%Z) (Some "package a"))) None
              Main.initial
  = (Main.mkState [mkFileData "a.go" "package a"] []
                  [InfoCall "a.go"; ReadFileCall "a.go"], None)
  /\ Main.walkFn Sample.main_defaults "a.go"
                 (Some (File "a.go" true (Some 25601%Z) (Some "package a"))) None
                 Main.initial
     = (Main.mkState [] ["a.go (too large: 25KB > 25KB)"] [InfoCall "a.go"], None)
  /\ Part001.walkFn Sample.part001_defaults None "a.go"
                    (Some (File "a.go" true (Some 25600%Z) (Some "package a"))) None
                    Part001.initial
     = (Part001.mkState [mkFileData "a.go" "package a"] []
                        [InfoCall "a.go"; ReadFileCall "a.go"], None)
  /\ Part001.walkFn Sample.part001_defaults None "a.go"
                    (Some (File "a.go" true (Some 25601%Z) (Some "package a"))) None
                    Part001.initial
     = (Part001.mkState [] ["a.go (too large: 25KB > 25KB)"] [InfoCall "a.go"], None).
Proof.
  destruct size_limit_boundary as [H1 [H2 [_ [H4 [H5 _]]]]].
  split; [|split; [|split]].
  - apply (H1 Sample.main_defaults "a.go" "a.go" "package a" Main.initial);
      [discriminate | reflexivity | reflexivity].
  - apply (proj2 (H2 Sample.main_defaults "a.go" "a.go" true (Some "package a")
                     Main.initial)); reflexivity.
  - apply (H4 Sample.part001_defaults None "a.go" "a.go" "package a" Part001.initial);
      [discriminate | discriminate | reflexivity | reflexivity | reflexivity
       | reflexivity].
  - apply (proj2 (H5 Sample.part001_defaults None "a.go" "a.go" true (Some "package a")
                     Part001.initial));
      [reflexivity | discriminate | reflexivity | reflexivity | reflexivity
       | reflexivity].
Defined.

(** ** Walks *)

Section NodeInduction.
Variable P : node -> Prop.
Hypothesis Pfile : forall name regular info data, P (File name regular info data).
Hypothesis Pdir : forall name readErr entries,
    Forall P entries -> P (Dir name readErr entries).

Lemma node_induction : forall d, P d.
Proof.
  fix IH 1. intros [name regular info data | name readErr entries].
  - apply Pfile.
  - apply Pdir. induction entries as [|d ds IHds]; constructor.
    + apply IH.
    + exact IHds.
Qed.

End NodeInduction.

Section WalkFacts.
Context {St : Type}.
Variable fn : string -> option node -> option string -> St -> St * option walkErr.

Lemma walkDir_File rel name regular info data st :
  walkDir fn rel (File name regular info data) st
  = fn rel (Some (File name regular info data)) None st.
Proof. simpl. now destruct (fn _ _ _ _). Qed.

Lemma walkDir_Dir rel name readErr entries st :
  walkDir fn rel (Dir name readErr entries) st
  = let (st1, err) := fn rel (Some (Dir name readErr entries)) None st in
    match err with
    | Some SkipDir => (st1, None)
    | Some e => (st1, Some e)
    | None =>
      let (st2, err2) :=
        match readErr with
        | Some e => fn rel (Some (Dir name readErr entries)) (Some e) st1
        | None => (st1, None)
        end in
      match err2 with
      | Some SkipDir => (st2, None)
      | Some e => (st2, Some e)
      | None => walkEntries fn rel entries st2
      end
    end.
Proof. reflexivity. Qed.

(** A property of the state that the walk function keeps is kept by the
    walk. *)
Section Invariant.
Variable Inv : St -> Prop.
Hypothesis fn_keeps : forall rel d err st, Inv st -> Inv (fst (fn rel d err st)).

Lemma walkDir_keeps : forall d rel st, Inv st -> Inv (fst (walkDir fn rel d st)).
Proof.
  induction d as [name regular info data | name readErr entries IH]
    using node_induction; intros rel st Hst.
  - rewrite walkDir_File. now apply fn_keeps.
  - rewrite walkDir_Dir.
    pose proof (fn_keeps rel (Some (Dir name readErr entries)) None st Hst) as H1.
    destruct (fn rel (Some (Dir name readErr entries)) None st) as [st1 err].
    simpl in H1. destruct err as [[]|]; try exact H1.
    assert (H2 : Inv (fst (match readErr with
                           | Some e => fn rel (Some (Dir name readErr entries)) (Some e) st1
                           | None => (st1, None)
                           end))).
    { destruct readErr; [now apply fn_keeps | exact H1]. }
    destruct (match readErr with Some _ => _ | None => _ end) as [st2 err2].
    simpl in H2. destruct err2 as [[]|]; try exact H2.
    clear H1 Hst. revert st2 H2.
    induction IH as [|d ds Hd _ IHds]; intros st2 H2; simpl; [exact H2|].
    specialize (Hd (relJoin rel (Name d)) st2 H2).
    destruct (walkDir fn (relJoin rel (Name d)) d st2) as [st' err1].
    simpl in Hd. destruct err1 as [[]|]; try exact Hd. now apply IHds.
Qed.

Lemma WalkDir_keeps root st : Inv st -> Inv (fst (WalkDir fn root st)).
Proof.
  intros Hst. unfold WalkDir.
  assert (H : Inv (fst (match root with
                        | Missing e => fn "." None (Some e) st
                        | Found d => walkDir fn "." d st
                        end))).
  { destruct root; [now apply walkDir_keeps | now apply fn_keeps]. }
  destruct (match root with Missing _ => _ | Found _ => _ end) as [st' err].
  destruct err as [[]|]; exact H.
Qed.

End Invariant.

End WalkFacts.

Section WalkGeneric.
Context {St : Type}.
Variable fn : string -> option node -> option string -> St -> St * option walkErr.

Lemma walkEntries_keeps (Inv : St -> Prop) :
  (forall rel d err st, Inv st -> Inv (fst (fn rel d err st))) ->
  forall rel ds st, Inv st -> Inv (fst (walkEntries fn rel ds st)).
Proof.
  intros Hfn rel ds. induction ds as [|d ds IH]; intros st Hst; simpl; [exact Hst|].
  pose proof (walkDir_keeps fn Inv Hfn d (relJoin rel (Name d)) st Hst) as Hd.
  destruct (walkDir fn (relJoin rel (Name d)) d st) as [st' err1]. simpl in Hd.
  destruct err1 as [[]|]; try exact Hd. now apply IH.
Qed.

(** *** A walk function that only fails on the error it is given *)

Section NoFailure.
Hypothesis fn_no_failure : forall rel d st,
    snd (fn rel (Some d) None st) = None \/ snd (fn rel (Some d) None st) = Some SkipDir.

Lemma walkDir_readable : forall d rel st,
    readable d = true ->
    snd (walkDir fn rel d st) = None \/ snd (walkDir fn rel d st) = Some SkipDir.
Proof.
  induction d as [name regular info data | name readErr entries IH]
    using node_induction; intros rel st Hr.
  - rewrite walkDir_File. apply fn_no_failure.
  - rewrite walkDir_Dir.
    pose proof (fn_no_failure rel (Dir name readErr entries) st) as H1.
    destruct (fn rel (Some (Dir name readErr entries)) None st) as [st1 err].
    simpl in H1. destruct H1 as [-> | ->]; [|left; reflexivity].
    simpl in Hr. destruct readErr; [discriminate|].
    clear st. revert st1. induction IH as [|d ds Hd _ IHds]; intros st1; simpl.
    + left; reflexivity.
    + simpl in Hr. apply andb_prop in Hr. destruct Hr as [Hr1 Hr2].
      specialize (Hd (relJoin rel (Name d)) st1 Hr1).
      destruct (walkDir fn (relJoin rel (Name d)) d st1) as [st' err1].
      simpl in Hd. destruct Hd as [-> | ->]; [now apply IHds | left; reflexivity].
Qed.

Lemma WalkDir_readable d st :
  readable d = true -> snd (WalkDir fn (Found d) st) = None.
Proof.
  intros Hr. unfold WalkDir.
  pose proof (walkDir_readable d "." st Hr) as H.
  destruct (walkDir fn "." d st) as [st' err]. simpl in H.
  destruct H as [-> | ->]; reflexivity.
Qed.

End NoFailure.

(** *** What is below a pruned directory does not count *)

Lemma Name_erasePruned prunes rel d : Name (erasePruned prunes rel d) = Name d.
Proof. destruct d; simpl; [reflexivity|]. now destruct (prunes rel name). Qed.

Section Pruning.
Variable prunes : string -> string -> bool.
Hypothesis fn_dir_blind : forall rel name e ds e' ds' err st,
    fn rel (Some (Dir name e ds)) err st = fn rel (Some (Dir name e' ds')) err st.
Hypothesis fn_prunes : forall rel name e ds st,
    prunes rel name = true ->
    snd (fn rel (Some (Dir name e ds)) None st) = Some SkipDir.

Lemma walkDir_erasePruned : forall d rel st,
    walkDir fn rel (erasePruned prunes rel d) st = walkDir fn rel d st.
Proof.
  induction d as [name regular info data | name readErr entries IH]
    using node_induction; intros rel st; [reflexivity|].
  simpl erasePruned. destruct (prunes rel name) eqn:Hp.
  - rewrite !walkDir_Dir.
    rewrite (fn_dir_blind rel name None [] readErr entries None st).
    pose proof (fn_prunes rel name readErr entries st Hp) as H.
    destruct (fn rel (Some (Dir name readErr entries)) None st) as [st1 err].
    simpl in H. subst err. reflexivity.
  - rewrite !walkDir_Dir.
    set (entries' := map _ entries).
    rewrite (fn_dir_blind rel name readErr entries' readErr entries None st).
    destruct (fn rel (Some (Dir name readErr entries)) None st) as [st1 err].
    destruct err as [e|]; [reflexivity|].
    assert (E : match readErr with
                | Some e => fn rel (Some (Dir name readErr entries')) (Some e) st1
                | None => (st1, None)
                end
                = match readErr with
                  | Some e => fn rel (Some (Dir name readErr entries)) (Some e) st1
                  | None => (st1, None)
                  end).
    { destruct readErr; [apply fn_dir_blind | reflexivity]. }
    rewrite E. clear E.
    match goal with
    | |- context [let (_, _) := ?x in _] => destruct x as [st2 err2]
    end.
    destruct err2 as [e|]; [reflexivity|].
    subst entries'. clear st st1. revert st2.
    induction IH as [|d ds Hd _ IHds]; intros st2; simpl; [reflexivity|].
    rewrite Name_erasePruned, Hd.
    destruct (walkDir fn (relJoin rel (Name d)) d st2) as [st' err1].
    destruct err1 as [e|]; [reflexivity | apply IHds].
Qed.

Lemma WalkDir_erasePruned d st :
  WalkDir fn (Found (erasePruned prunes "." d)) st = WalkDir fn (Found d) st.
Proof. unfold WalkDir. now rewrite walkDir_erasePruned. Qed.

End Pruning.

(** *** Every regular file that is reached is accounted for *)

Section Coverage.
Variable prunes : string -> string -> bool.
Variable covered : string -> St -> Prop.
Variable okRel : string -> Prop.
Variable good : string -> bool.
Hypothesis okRel_below : forall rel name, good name = true -> okRel (relJoin rel name).
Hypothesis fn_mono : forall r rel d err st, covered r st -> covered r (fst (fn rel d err st)).
Hypothesis fn_file : forall rel name regular info data st,
    okRel rel ->
    snd (fn rel (Some (File name regular info data)) None st) = None
    /\ (regular = true ->
        covered rel (fst (fn rel (Some (File name regular info data)) None st))).
Hypothesis fn_dir : forall rel name e ds st,
    snd (fn rel (Some (Dir name e ds)) None st)
    = if prunes rel name then Some SkipDir else None.
Hypothesis fn_err : forall rel d e st, snd (fn rel d (Some e) st) = Some (Failure e).

Lemma walkDir_result : forall d rel st,
    namedEntries good d = true -> IsDir d = true \/ okRel rel ->
    snd (walkDir fn rel d st) = None
    \/ exists e, snd (walkDir fn rel d st) = Some (Failure e).
Proof.
  induction d as [name regular info data | name readErr entries IH]
    using node_induction; intros rel st Hv Hok.
  - rewrite walkDir_File. left. apply fn_file.
    destruct Hok as [Hok|Hok]; [discriminate | exact Hok].
  - rewrite walkDir_Dir.
    pose proof (fn_dir rel name readErr entries st) as H1.
    destruct (fn rel (Some (Dir name readErr entries)) None st) as [st1 err].
    simpl in H1. subst err. destruct (prunes rel name); [left; reflexivity|].
    destruct readErr as [e|].
    + pose proof (fn_err rel (Some (Dir name (Some e) entries)) e st1) as H2.
      destruct (fn rel (Some (Dir name (Some e) entries)) (Some e) st1) as [st2 err2].
      simpl in H2. subst err2. right. now exists e.
    + clear st Hok. revert st1. simpl in Hv.
      induction IH as [|d ds Hd _ IHds]; intros st1; simpl; [left; reflexivity|].
      simpl in Hv. apply andb_prop in Hv. destruct Hv as [Hv1 Hv2].
      apply andb_prop in Hv1. destruct Hv1 as [Hn Hvd].
      specialize (Hd (relJoin rel (Name d)) st1 Hvd (or_intror (okRel_below _ _ Hn))).
      destruct (walkDir fn (relJoin rel (Name d)) d st1) as [st' err1].
      simpl in Hd. destruct Hd as [-> | [e ->]]; [now apply IHds|].
      right. now exists e.
Qed.

Lemma walkDir_covers : forall d rel st st',
    namedEntries good d = true -> IsDir d = true \/ okRel rel ->
    walkDir fn rel d st = (st', None) ->
    forall r, In r (regularFiles prunes rel d) -> covered r st'.
Proof.
  induction d as [name regular info data | name readErr entries IH]
    using node_induction; intros rel st st' Hv Hok Hwalk r Hr.
  - rewrite walkDir_File in Hwalk. simpl in Hr.
    destruct regular; [|contradiction]. destruct Hr as [<-|[]].
    destruct Hok as [Hok|Hok]; [discriminate|].
    pose proof (proj2 (fn_file rel name true info data st Hok) eq_refl) as H.
    now rewrite Hwalk in H.
  - rewrite walkDir_Dir in Hwalk. simpl in Hr.
    pose proof (fn_dir rel name readErr entries st) as H1.
    destruct (fn rel (Some (Dir name readErr entries)) None st) as [st1 err].
    simpl in H1. subst err. destruct (prunes rel name); [contradiction|].
    destruct readErr as [e|].
    + pose proof (fn_err rel (Some (Dir name (Some e) entries)) e st1) as H2.
      destruct (fn rel (Some (Dir name (Some e) entries)) (Some e) st1) as [st2 err2].
      simpl in H2. subst err2. discriminate.
    + clear st Hok. revert st1 Hwalk. simpl in Hv.
      induction IH as [|d ds Hd _ IHds]; intros st1 Hwalk; [contradiction|].
      simpl in Hv. apply andb_prop in Hv. destruct Hv as [Hv1 Hv2].
      apply andb_prop in Hv1. destruct Hv1 as [Hn Hvd].
      simpl in Hwalk, Hr.
      pose proof (walkDir_result d (relJoin rel (Name d)) st1 Hvd
                                 (or_intror (okRel_below _ _ Hn))) as Hres.
      specialize (Hd (relJoin rel (Name d)) st1).
      destruct (walkDir fn (relJoin rel (Name d)) d st1) as [st1' err1].
      simpl in Hres. destruct Hres as [-> | [e ->]]; [|discriminate].
      apply in_app_or in Hr. destruct Hr as [Hr|Hr].
      * specialize (Hd st1' Hvd (or_intror (okRel_below _ _ Hn)) eq_refl r Hr).
        pose proof (walkEntries_keeps (covered r) (fn_mono r) rel ds st1' Hd) as Hk.
        now rewrite Hwalk in Hk.
      * apply (IHds Hv2 Hr st1' Hwalk).
Qed.

End Coverage.

End WalkGeneric.

(** ** The walk as a selection *)

Section WalkCollect.
Context {St B : Type}.
Variable fn : string -> option node -> option string -> St -> St * option walkErr.
Variable out : St -> list B.
Variable prunes : string -> string -> bool.
Variable leaf : string -> node -> list B.
Hypothesis fn_file : forall rel name regular info data st,
    snd (fn rel (Some (File name regular info data)) None st) = None
    /\ out (fst (fn rel (Some (File name regular info data)) None st))
       = (out st ++ leaf rel (File name regular info data))%list.
Hypothesis fn_dir : forall rel name e ds st,
    snd (fn rel (Some (Dir name e ds)) None st)
    = (if prunes rel name then Some SkipDir else None)
    /\ out (fst (fn rel (Some (Dir name e ds)) None st)) = out st.

Lemma walkDir_collects : forall d rel st,
    readable (erasePruned prunes rel d) = true ->
    snd (walkDir fn rel d st) = None
    /\ out (fst (walkDir fn rel d st))
       = (out st ++ collected prunes leaf rel d)%list.
Proof.
  induction d as [name regular info data | name readErr entries IH]
    using node_induction; intros rel st Hr.
  - rewrite walkDir_File. apply fn_file.
  - rewrite walkDir_Dir.
    pose proof (fn_dir rel name readErr entries st) as H.
    destruct (fn rel (Some (Dir name readErr entries)) None st) as [st1 err].
    cbn [fst snd] in H. destruct H as [H1 H2]. subst err.
    cbn [erasePruned collected] in *.
    destruct (prunes rel name).
    + cbn [fst snd]. split; [reflexivity|]. now rewrite H2, app_nil_r.
    + cbn [readable] in Hr. destruct readErr; [discriminate|].
      rewrite <- H2. clear st H2. revert st1.
      induction IH as [|d ds Hd _ IHds]; intros st1.
      * cbn. split; [reflexivity|]. now rewrite app_nil_r.
      * cbn [map forallb] in Hr. apply andb_prop in Hr. destruct Hr as [Hr1 Hr2].
        cbn [walkEntries flat_map].
        specialize (Hd (relJoin rel (Name d)) st1 Hr1).
        destruct (walkDir fn (relJoin rel (Name d)) d st1) as [st' err1].
        cbn [fst snd] in Hd. destruct Hd as [-> Hout].
        destruct (IHds Hr2 st') as [E1 E2]. split; [exact E1|].
        now rewrite E2, Hout, app_assoc.
Qed.

Lemma WalkDir_collects d st :
  readable (erasePruned prunes "." d) = true ->
  snd (WalkDir fn (Found d) st) = None
  /\ out (fst (WalkDir fn (Found d) st))
     = (out st ++ collected prunes leaf "." d)%list.
Proof.
  intros Hr. unfold WalkDir.
  destruct (walkDir_collects d "." st Hr) as [E1 E2].
  destruct (walkDir fn "." d st) as [st' err]. cbn [fst snd] in *. now subst err.
Qed.

End WalkCollect.

Lemma main_walkFn_keeps cfg rel name regular info data st :
  snd (Main.walkFn cfg rel (Some (File name regular info data)) None st) = None
  /\ Main.files (fst (Main.walkFn cfg rel (Some (File name regular info data)) None st))
     = (Main.files st ++ main_keeps cfg rel (File name regular info data))%list.
Proof.
  unfold Main.walkFn, main_keeps, sizeFits.
  destruct regular; cbn [negb]; [|now rewrite app_nil_r].
  destruct (matchAny (Main.excludes cfg) rel); cbn [negb andb].
  { destruct info, data; now rewrite app_nil_r. }
  destruct info as [size|]; [|cbn; now rewrite app_nil_r].
  destruct (size >? Main.maxSizeBytes cfg)%Z; cbn [negb andb].
  { destruct data; cbn; now rewrite app_nil_r. }
  destruct (size =? 0)%Z; cbn [negb andb].
  { destruct data; cbn; now rewrite app_nil_r. }
  destruct (Main.isIncluded cfg rel).
  - destruct data; cbn; [auto | now rewrite app_nil_r].
  - destruct (Nat.eqb _ 0), data; cbn; now rewrite app_nil_r.
Qed.

Lemma main_walkFn_prunes cfg rel name e ds st :
  snd (Main.walkFn cfg rel (Some (Dir name e ds)) None st)
  = (if main_prunes cfg rel name then Some SkipDir else None)
  /\ Main.files (fst (Main.walkFn cfg rel (Some (Dir name e ds)) None st))
     = Main.files st.
Proof.
  unfold Main.walkFn, main_prunes.
  destruct (isVCSName name); [now split|].
  destruct (matchAny (Main.excludes cfg) rel); now split.
Qed.

(** ** The three walk functions *)

Lemma ToSlash_id (s : string) : GoFilepath.ToSlash s = s.
Proof.
  induction s as [|c s IH]; simpl; [reflexivity|]. rewrite IH.
  unfold GoFilepath.IsPathSeparator, GoFilepath.Separator.
  destruct (Ascii.eqb_spec c "/"%char); congruence.
Qed.

Lemma namedEntries_any : forall d, namedEntries (fun _ => true) d = true.
Proof.
  induction d as [name regular info data | name readErr entries IH]
    using node_induction; [reflexivity|].
  simpl. induction IH as [|d ds Hd _ IHds]; simpl; [reflexivity|].
  now rewrite Hd, IHds.
Qed.

Lemma relJoin_not_root rel name : validName name = true -> relJoin rel name <> ".".
Proof.
  unfold validName, relJoin. intros Hv.
  repeat (apply andb_prop in Hv; destruct Hv as [Hv ?]).
  destruct (String.eqb_spec rel ".") as [->|Hrel].
  - intros ->. discriminate.
  - destruct rel as [|c rel]; simpl.
    + intros E. discriminate E.
    + destruct rel; simpl; intros E; inversion E.
Qed.

Lemma main_walkFn_dir cfg rel name readErr entries st :
  Main.walkFn cfg rel (Some (Dir name readErr entries)) None st
  = (st, if main_prunes cfg rel name then Some SkipDir else None).
Proof.
  unfold Main.walkFn, main_prunes.
  destruct (isVCSName name); [reflexivity|].
  now destruct (matchAny (Main.excludes cfg) rel).
Qed.

Lemma main_walkFn_err cfg rel d e st :
  Main.walkFn cfg rel d (Some e) st = (st, Some (Failure e)).
Proof. reflexivity. Qed.

Lemma main_walkFn_file_result cfg rel name regular info data st :
  snd (Main.walkFn cfg rel (Some (File name regular info data)) None st) = None.
Proof. unfold Main.walkFn. repeat break_match; reflexivity. Qed.

Lemma main_walkFn_grows cfg rel d err st :
  (forall f, In f (Main.files st) ->
             In f (Main.files (fst (Main.walkFn cfg rel d err st))))
  /\ (forall m, In m (Main.skippedFiles st) ->
                In m (Main.skippedFiles (fst (Main.walkFn cfg rel d err st)))).
Proof.
  unfold Main.walkFn.
  repeat break_match; simpl; split; intros x Hx;
    try apply in_or_app; auto.
Qed.

Lemma part001_walkFn_dir cfg ignorer rel name readErr entries st :
  snd (Part001.walkFn cfg ignorer rel (Some (Dir name readErr entries)) None st)
  = if part001_prunes ignorer rel name then Some SkipDir else None.
Proof.
  unfold Part001.walkFn, part001_prunes. simpl IsDir. simpl Name.
  destruct (String.eqb rel "."); [reflexivity|]. simpl andb at 1.
  destruct (isVCSName name); [reflexivity|]. simpl.
  now destruct (Part001.ignored ignorer rel).
Qed.

Lemma part001_walkFn_blind cfg ignorer rel name e ds e' ds' err st :
  Part001.walkFn cfg ignorer rel (Some (Dir name e ds)) err st
  = Part001.walkFn cfg ignorer rel (Some (Dir name e' ds')) err st.
Proof. reflexivity. Qed.

Lemma part001_walkFn_file_result cfg ignorer rel name regular info data st :
  snd (Part001.walkFn cfg ignorer rel (Some (File name regular info data)) None st)
  = None.
Proof.
  unfold Part001.walkFn. simpl IsDir. cbn [andb].
  repeat break_match; reflexivity.
Qed.

Lemma part001_walkFn_grows cfg ignorer rel d err st :
  (forall f, In f (Part001.files st) ->
             In f (Part001.files (fst (Part001.walkFn cfg ignorer rel d err st))))
  /\ (forall m, In m (Part001.skippedFiles st) ->
                In m (Part001.skippedFiles
                        (fst (Part001.walkFn cfg ignorer rel d err st)))).
Proof.
  unfold Part001.walkFn.
  repeat break_match; simpl; split; intros x Hx;
    try apply in_or_app; auto.
Qed.

(** ** Pruned directories *)

(** C3 (confirmed).  In [src/main.go], and in [src/unnamed/part_001] for
    every entry below the root: on a directory named [.git], [.hg],
    [.svn] or [node_modules] the walk function answers [SkipDir] at
    once, whatever the patterns, the ignore file and the other flags are,
    and the walk of that directory leaves the collected files, the
    skipped files and the recorded calls as they were, whatever the
    directory holds.  For every directory the walk function prunes, by
    name or by a rule of the user, the walk gives the same result as on
    the tree in which that directory is empty. *)
Theorem pruned_directories_are_final :
  (forall cfg rel name readErr entries st,
      isVCSName name = true ->
      Main.walkFn cfg rel (Some (Dir name readErr entries)) None st = (st, Some SkipDir)
      /\ walkDir (Main.walkFn cfg) rel (Dir name readErr entries) st = (st, None))
  /\ (forall cfg ignorer rel name readErr entries st,
         isVCSName name = true ->
         rel <> "." ->
         Part001.walkFn cfg ignorer rel (Some (Dir name readErr entries)) None st
         = (st, Some SkipDir)
         /\ walkDir (Part001.walkFn cfg ignorer) rel (Dir name readErr entries) st
            = (st, None))
  /\ (forall cfg d st,
         WalkDir (Main.walkFn cfg) (Found (erasePruned (main_prunes cfg) "." d)) st
         = WalkDir (Main.walkFn cfg) (Found d) st)
  /\ (forall cfg ignorer d st,
         WalkDir (Part001.walkFn cfg ignorer)
                 (Found (erasePruned (part001_prunes ignorer) "." d)) st
         = WalkDir (Part001.walkFn cfg ignorer) (Found d) st).
Proof.
  split; [|split; [|split]].
  - intros cfg rel name readErr entries st Hvcs.
    assert (E : Main.walkFn cfg rel (Some (Dir name readErr entries)) None st
                = (st, Some SkipDir)).
    { unfold Main.walkFn. now rewrite Hvcs. }
    split; [exact E|]. rewrite walkDir_Dir, E. reflexivity.
  - intros cfg ignorer rel name readErr entries st Hvcs Hrel.
    assert (E : Part001.walkFn cfg ignorer rel (Some (Dir name readErr entries)) None st
                = (st, Some SkipDir)).
    { unfold Part001.walkFn. apply String.eqb_neq in Hrel. rewrite Hrel.
      simpl IsDir. simpl Name. now rewrite Hvcs. }
    split; [exact E|]. rewrite walkDir_Dir, E. reflexivity.
  - intros cfg d st. apply WalkDir_erasePruned.
    + reflexivity.
    + intros rel name e ds st' Hp. rewrite main_walkFn_dir. simpl. now rewrite Hp.
  - intros cfg ignorer d st. apply WalkDir_erasePruned.
    + intros. apply part001_walkFn_blind.
    + intros rel name e ds st' Hp. rewrite part001_walkFn_dir. now rewrite Hp.
Qed.

Lemma pruned_directories_are_final_witness :
  walkDir (Main.walkFn Sample.main_onlyGo) "node_modules"
          (Dir "node_modules" None [File "x.go" true (Some 10%Z) (Some "package x")])
          Main.initial
  = (Main.initial, None)
  /\ walkDir (Part001.walkFn Sample.part001_defaults None) "node_modules"
             (Dir "node_modules" None [File "x.go" true (Some 10%Z) (Some "package x")])
             Part001.initial
     = (Part001.initial, None).
Proof.
  destruct pruned_directories_are_final as [H1 [H2 _]]. split.
  - apply (H1 Sample.main_onlyGo "node_modules" "node_modules" None
              [File "x.go" true (Some 10%Z) (Some "package x")] Main.initial).
    reflexivity.
  - apply (H2 Sample.part001_defaults None "node_modules" "node_modules" None
              [File "x.go" true (Some 10%Z) (Some "package x")] Part001.initial).
    + reflexivity.
    + discriminate.
Defined.

(** ** Files that are neither collected nor reported *)

Ltac skipped_for reason :=
  right; exists reason; apply in_or_app; right; left;
  rewrite ?append_assoc; reflexivity.

Ltac account :=
  match goal with
  | |- accountedFor (_ ++ [mkFileData _ ?b])%list _ _ =>
    left; exists b; apply in_or_app; right; left; rewrite ?ToSlash_id; reflexivity
  | |- context [String.append " (too large: "
                              (String.append ?a
                                 (String.append "KB > " (String.append ?b "KB)")))] =>
    skipped_for ("too large: " ++ a ++ "KB > " ++ b ++ "KB")
  | |- _ =>
    first [ skipped_for "excluded by pattern"
          | skipped_for "error getting info"
          | skipped_for "empty"
          | skipped_for "unreadable"
          | skipped_for "unsupported extension"
          | skipped_for "excluded by ignore file"
          | skipped_for "extension excluded by -xe"
          | skipped_for "not a recognized source file with -x" ]
  end.

Lemma main_walkFn_accounts cfg rel name info data st :
  Main.includes cfg = [] ->
  let st' := fst (Main.walkFn cfg rel (Some (File name true info data)) None st) in
  accountedFor (Main.files st') (Main.skippedFiles st') rel.
Proof.
  intros Hinc. unfold Main.walkFn, Main.isIncluded. rewrite Hinc.
  cbn [negb List.length Nat.ltb Nat.leb Nat.eqb].
  repeat break_match;
    cbn [fst Main.files Main.skippedFiles Main.skip Main.accept Main.call];
    account.
Qed.

Lemma part001_walkFn_accounts cfg ignorer rel name info data st :
  rel <> "." ->
  let st' := fst (Part001.walkFn cfg ignorer rel (Some (File name true info data))
                                 None st) in
  accountedFor (Part001.files st') (Part001.skippedFiles st') rel.
Proof.
  intros Hrel. apply String.eqb_neq in Hrel. unfold Part001.walkFn. rewrite Hrel.
  cbn [negb IsDir andb].
  repeat break_match;
    cbn [fst Part001.files Part001.skippedFiles Part001.skip Part001.accept
             Part001.call];
    account.
Qed.

Lemma accountedFor_grows (files files' : list fileData) (skipped skipped' : list string) r :
  (forall f, In f files -> In f files') ->
  (forall m, In m skipped -> In m skipped') ->
  accountedFor files skipped r -> accountedFor files' skipped' r.
Proof.
  intros Hf Hs [[b Hb]|[reason Hr]]; [left; exists b | right; exists reason]; auto.
Qed.

(** C4 (corrected).  When the walk returns without error: in
    [src/main.go] run without [-i] pattern, every regular file that is in
    no pruned directory is among the collected files or has a message
    [path (reason)] among the skipped ones; so has, in
    [src/unnamed/part_001], every regular file below the root that is in
    no pruned directory.  With [-i] patterns, a file that passes the
    exclude patterns and the size checks of [src/main.go] and matches
    none of the [-i] patterns is left out of both lists. *)
Theorem regular_files_are_accounted_for :
  (forall cfg d st,
      Main.includes cfg = [] ->
      WalkDir (Main.walkFn cfg) (Found d) Main.initial = (st, None) ->
      forall r, In r (regularFiles (main_prunes cfg) "." d) ->
                accountedFor (Main.files st) (Main.skippedFiles st) r)
  /\ (forall cfg ignorer d st,
         validEntries d = true ->
         WalkDir (Part001.walkFn cfg ignorer) (Found d) Part001.initial = (st, None) ->
         forall r, In r (regularFilesBelow (part001_prunes ignorer) d) ->
                   accountedFor (Part001.files st) (Part001.skippedFiles st) r)
  /\ (forall cfg rel name size data st,
         Main.includes cfg <> [] ->
         matchAny (Main.excludes cfg) rel = false ->
         (0 < size <= Main.maxSizeBytes cfg)%Z ->
         Main.isIncluded cfg rel = false ->
         Main.walkFn cfg rel (Some (File name true (Some size) data)) None st
         = (Main.call st (InfoCall rel), None)).
Proof.
  split; [|split].
  - intros cfg d st Hinc Hwalk r Hr.
    set (covered := fun r (st : Main.state) =>
                      accountedFor (Main.files st) (Main.skippedFiles st) r).
    assert (Hmono : forall r rel d err st,
               covered r st -> covered r (fst (Main.walkFn cfg rel d err st))).
    { intros r0 rel d0 err st0. apply accountedFor_grows;
        apply main_walkFn_grows. }
    assert (Hfile : forall rel name regular info data st,
               True ->
               snd (Main.walkFn cfg rel (Some (File name regular info data)) None st)
               = None
               /\ (regular = true ->
                   covered rel (fst (Main.walkFn cfg rel
                                                 (Some (File name regular info data))
                                                 None st)))).
    { intros rel name regular info data st0 _. split.
      - apply main_walkFn_file_result.
      - intros ->. now apply main_walkFn_accounts. }
    assert (Hdir : forall rel name e ds st,
               snd (Main.walkFn cfg rel (Some (Dir name e ds)) None st)
               = if main_prunes cfg rel name then Some SkipDir else None).
    { intros. now rewrite main_walkFn_dir. }
    assert (Herr : forall rel d e st,
               snd (Main.walkFn cfg rel d (Some e) st) = Some (Failure e))
      by reflexivity.
    unfold WalkDir in Hwalk.
    pose proof (walkDir_result (Main.walkFn cfg) (main_prunes cfg) covered
                               (fun _ => True) (fun _ => true) (fun _ _ _ => I)
                               Hfile Hdir Herr d "." Main.initial
                               (namedEntries_any d) (or_intror I)) as Hres.
    pose proof (walkDir_covers (Main.walkFn cfg) (main_prunes cfg) covered
                               (fun _ => True) (fun _ => true) (fun _ _ _ => I)
                               Hmono Hfile Hdir Herr d "." Main.initial) as Hcov.
    destruct (walkDir (Main.walkFn cfg) "." d Main.initial) as [st' err].
    simpl in Hres. destruct Hres as [-> | [e ->]]; [|discriminate].
    inversion Hwalk; subst st'.
    apply (Hcov st (namedEntries_any d) (or_intror I) eq_refl r Hr).
  - intros cfg ignorer d st Hv Hwalk r Hr.
    destruct d as [name regular info data | name readErr entries]; [contradiction|].
    set (d := Dir name readErr entries) in *.
    set (covered := fun r (st : Part001.state) =>
                      accountedFor (Part001.files st) (Part001.skippedFiles st) r).
    assert (Hmono : forall r rel d err st,
               covered r st -> covered r (fst (Part001.walkFn cfg ignorer rel d err st))).
    { intros r0 rel d0 err st0. apply accountedFor_grows;
        apply part001_walkFn_grows. }
    assert (Hfile : forall rel name regular info data st,
               rel <> "." ->
               snd (Part001.walkFn cfg ignorer rel
                                   (Some (File name regular info data)) None st)
               = None
               /\ (regular = true ->
                   covered rel (fst (Part001.walkFn cfg ignorer rel
                                                    (Some (File name regular info data))
                                                    None st)))).
    { intros rel name0 regular info data st0 Hrel. split.
      - apply part001_walkFn_file_result.
      - intros ->. now apply part001_walkFn_accounts. }
    assert (Herr : forall rel d e st,
               snd (Part001.walkFn cfg ignorer rel d (Some e) st) = Some (Failure e))
      by reflexivity.
    unfold WalkDir in Hwalk.
    pose proof (walkDir_result (Part001.walkFn cfg ignorer) (part001_prunes ignorer)
                               covered (fun rel => rel <> ".") validName
                               relJoin_not_root Hfile
                               (part001_walkFn_dir cfg ignorer) Herr d "."
                               Part001.initial Hv (or_introl eq_refl)) as Hres.
    pose proof (walkDir_covers (Part001.walkFn cfg ignorer) (part001_prunes ignorer)
                               covered (fun rel => rel <> ".") validName
                               relJoin_not_root Hmono Hfile
                               (part001_walkFn_dir cfg ignorer) Herr d "."
                               Part001.initial) as Hcov.
    destruct (walkDir (Part001.walkFn cfg ignorer) "." d Part001.initial) as [st' err].
    simpl in Hres. destruct Hres as [-> | [e ->]]; [|discriminate].
    inversion Hwalk; subst st'.
    apply (Hcov st Hv (or_introl eq_refl) eq_refl r Hr).
  - intros cfg rel name size data st Hne Hex Hsize Hin.
    unfold Main.walkFn. simpl negb. cbv iota. rewrite Hex. cbv zeta.
    replace (size >? Main.maxSizeBytes cfg)%Z with false
      by (symmetry; rewrite Z.gtb_ltb; apply Z.ltb_ge; lia).
    rewrite (eqb_zero_false size) by lia.
    rewrite Hin, (proj2 (length_pos_nonempty _ Hne)). reflexivity.
Qed.

(** With [-i "*.go"] the file [notes.txt] is regular and in no pruned
    directory, and is neither collected nor recorded as skipped. *)
Lemma silently_dropped_with_include_patterns :
  ~ (forall cfg d st,
        WalkDir (Main.walkFn cfg) (Found d) Main.initial = (st, None) ->
        forall r, In r (regularFiles (main_prunes cfg) "." d) ->
                  accountedFor (Main.files st) (Main.skippedFiles st) r).
Proof.
  intros H.
  specialize (H Sample.main_onlyGo Sample.goAndText
                (Main.mkState [mkFileData "a.go" "package a"] []
                              [InfoCall "a.go"; ReadFileCall "a.go";
                               InfoCall "notes.txt"])
                eq_refl "notes.txt").
  destruct H as [[b Hb]|[reason Hr]].
  - right. left. reflexivity.
  - destruct Hb as [Hb|[]]. discriminate Hb.
  - destruct Hr.
Qed.

Lemma regular_files_are_accounted_for_witness :
  accountedFor [mkFileData "README.md" "# hi"; mkFileData "a.go" "package a"] []
               "a.go"
  /\ accountedFor [mkFileData "README.md" "# hi"; mkFileData "a.go" "package a"] []
                  "README.md"
  /\ Main.walkFn Sample.main_onlyGo "notes.txt"
                 (Some (File "notes.txt" true (Some 5%Z) (Some "notes"))) None
                 Main.initial
     = (Main.mkState [] [] [InfoCall "notes.txt"], None).
Proof.
  destruct regular_files_are_accounted_for as [H1 [H2 H3]]. split; [|split].
  - apply (H1 Sample.main_defaults Sample.scenario
              (Main.mkState [mkFileData "README.md" "# hi"; mkFileData "a.go" "package a"]
                            []
                            [InfoCall "README.md"; ReadFileCall "README.md";
                             InfoCall "a.go"; ReadFileCall "a.go"])
              eq_refl eq_refl).
    right. left. reflexivity.
  - apply (H2 Sample.part001_defaults None Sample.scenario
              (Part001.mkState
                 [mkFileData "README.md" "# hi"; mkFileData "a.go" "package a"]
                 []
                 [InfoCall "README.md"; ReadFileCall "README.md";
                  InfoCall "a.go"; ReadFileCall "a.go"])
              eq_refl eq_refl).
    left. reflexivity.
  - apply (H3 Sample.main_onlyGo "notes.txt" "notes.txt" 5%Z (Some "notes")
              Main.initial);
      [discriminate | reflexivity | split; [reflexivity | discriminate] | reflexivity].
Defined.

(** ** Errors on single entries *)

Lemma main_walkFn_no_failure cfg rel d st :
  snd (Main.walkFn cfg rel (Some d) None st) = None
  \/ snd (Main.walkFn cfg rel (Some d) None st) = Some SkipDir.
Proof.
  destruct d as [name regular info data | name readErr entries].
  - left. apply main_walkFn_file_result.
  - rewrite main_walkFn_dir. simpl. destruct (main_prunes cfg rel name); auto.
Qed.

Lemma part000_walkFn_no_failure cfg rel d st :
  snd (Part000.walkFn cfg rel (Some d) None st) = None
  \/ snd (Part000.walkFn cfg rel (Some d) None st) = Some SkipDir.
Proof.
  unfold Part000.walkFn. repeat break_match; simpl; auto.
Qed.

Lemma part001_walkFn_no_failure cfg ignorer rel d st :
  snd (Part001.walkFn cfg ignorer rel (Some d) None st) = None
  \/ snd (Part001.walkFn cfg ignorer rel (Some d) None st) = Some SkipDir.
Proof.
  destruct d as [name regular info data | name readErr entries].
  - left. apply part001_walkFn_file_result.
  - rewrite part001_walkFn_dir. destruct (part001_prunes ignorer rel name); auto.
Qed.

(** C5 (corrected).  In [src/main.go] a failure of [d.Info()] or of
    [os.ReadFile] on a file makes the walk function record that one file
    as skipped and return [nil], so that the walk goes on; where every
    directory of the tree can be listed the walk returns no error, in
    each of the three files, and [main] of [src/main.go] ends with status
    0.  An error that the walk hands to the walk function, such as that
    of a directory that cannot be listed, is returned as it is, and a
    walk that returns an error ends [main] with status 1 and without
    output. *)
Theorem file_errors_are_absorbed :
  (forall cfg rel name data st,
      matchAny (Main.excludes cfg) rel = false ->
      Main.walkFn cfg rel (Some (File name true None data)) None st
      = (Main.skip (Main.call st (InfoCall rel)) (rel ++ " (error getting info)"),
         None))
  /\ (forall cfg rel name size st,
         matchAny (Main.excludes cfg) rel = false ->
         (0 < size <= Main.maxSizeBytes cfg)%Z ->
         Main.isIncluded cfg rel = true ->
         Main.walkFn cfg rel (Some (File name true (Some size) None)) None st
         = (Main.skip (Main.call (Main.call st (InfoCall rel)) (ReadFileCall rel))
                      (rel ++ " (unreadable)"), None))
  /\ (forall d, readable d = true ->
                (forall cfg st, snd (WalkDir (Main.walkFn cfg) (Found d) st) = None)
                /\ (forall cfg st, snd (WalkDir (Part000.walkFn cfg) (Found d) st) = None)
                /\ (forall cfg ignorer st,
                       snd (WalkDir (Part001.walkFn cfg ignorer) (Found d) st) = None))
  /\ (forall cfg w absRoot d,
         Main.useClaudeXML cfg && Main.useMarkdown cfg = false ->
         (List.length (Main.positionalArgs cfg) <= 1)%nat ->
         Abs w (Main.rootDir cfg) = inl absRoot ->
         root w absRoot = Found d ->
         readable d = true ->
         exitCode (Main.main cfg w) = 0%Z)
  /\ (forall cfg rel d e st,
         Main.walkFn cfg rel d (Some e) st = (st, Some (Failure e)))
  /\ (forall cfg w absRoot st e,
         Main.useClaudeXML cfg && Main.useMarkdown cfg = false ->
         (List.length (Main.positionalArgs cfg) <= 1)%nat ->
         Abs w (Main.rootDir cfg) = inl absRoot ->
         WalkDir (Main.walkFn cfg) (root w absRoot) Main.initial = (st, Some e) ->
         exitCode (Main.main cfg w) = 1%Z /\ stdout (Main.main cfg w) = EmptyString).
Proof.
  split; [|split; [|split; [|split; [|split]]]].
  - intros cfg rel name data st Hex. unfold Main.walkFn. simpl negb. cbv iota.
    now rewrite Hex.
  - intros cfg rel name size st Hex Hsize Hin. unfold Main.walkFn. simpl negb.
    cbv iota. rewrite Hex. cbv zeta.
    replace (size >? Main.maxSizeBytes cfg)%Z with false
      by (symmetry; rewrite Z.gtb_ltb; apply Z.ltb_ge; lia).
    rewrite (eqb_zero_false size) by lia. now rewrite Hin.
  - intros d Hr. split; [|split]; intros.
    + apply WalkDir_readable; [apply main_walkFn_no_failure | exact Hr].
    + apply WalkDir_readable; [apply part000_walkFn_no_failure | exact Hr].
    + apply WalkDir_readable; [apply part001_walkFn_no_failure | exact Hr].
  - intros cfg w absRoot d Hfmt Hargs Habs Hroot Hr. unfold Main.main.
    rewrite Hfmt.
    destruct (Nat.ltb_spec 1 (List.length (Main.positionalArgs cfg))); [lia|].
    cbv zeta. rewrite Habs, Hroot.
    pose proof (WalkDir_readable (Main.walkFn cfg) (main_walkFn_no_failure cfg)
                                 d Main.initial Hr) as Hw.
    destruct (WalkDir (Main.walkFn cfg) (Found d) Main.initial) as [st err].
    simpl in Hw. subst err.
    destruct (GoSort.Slice less (Main.files st)); reflexivity.
  - reflexivity.
  - intros cfg w absRoot st e Hfmt Hargs Habs Hwalk. unfold Main.main.
    rewrite Hfmt.
    destruct (Nat.ltb_spec 1 (List.length (Main.positionalArgs cfg))); [lia|].
    cbv zeta. rewrite Habs, Hwalk. split; reflexivity.
Qed.

(** The directory [secret] cannot be listed: the run ends with status 1,
    and the file [a.go], though collected, is not printed. *)
Lemma unreadable_directory_aborts_the_run :
  Main.main Sample.main_defaults (Sample.worldOf Sample.withUnreadableDir)
  = mkProcess EmptyString
              ("Error walking directory " ++ GoFmt.quote "."
                 ++ ": open secret: permission denied" ++ newline)
              1.
Proof. vm_compute. reflexivity. Qed.

Lemma file_errors_are_absorbed_witness :
  Main.walkFn Sample.main_defaults "a.go" (Some (File "a.go" true None None)) None
              Main.initial
  = (Main.mkState [] ["a.go (error getting info)"] [InfoCall "a.go"], None)
  /\ Main.walkFn Sample.main_defaults "a.go"
                 (Some (File "a.go" true (Some 9%Z) None)) None Main.initial
     = (Main.mkState [] ["a.go (unreadable)"] [InfoCall "a.go"; ReadFileCall "a.go"],
        None)
  /\ snd (WalkDir (Main.walkFn Sample.main_defaults) (Found Sample.scenario)
                  Main.initial) = None
  /\ exitCode (Main.main Sample.main_defaults (Sample.worldOf Sample.scenario)) = 0%Z
  /\ exitCode (Main.main Sample.main_defaults
                         (Sample.worldOf Sample.withUnreadableDir)) = 1%Z.
Proof.
  destruct file_errors_are_absorbed as [H1 [H2 [H3 [H4 [_ H6]]]]].
  split; [|split; [|split; [|split]]].
  - apply (H1 Sample.main_defaults "a.go" "a.go" None Main.initial). reflexivity.
  - apply (H2 Sample.main_defaults "a.go" "a.go" 9%Z Main.initial);
      [reflexivity | split; [reflexivity | discriminate] | reflexivity].
  - apply (proj1 (H3 Sample.scenario eq_refl)).
  - apply (H4 Sample.main_defaults (Sample.worldOf Sample.scenario) "/work/."
              Sample.scenario); try reflexivity.
    simpl. lia.
  - apply (H6 Sample.main_defaults (Sample.worldOf Sample.withUnreadableDir) "/work/."
              (Main.mkState [mkFileData "a.go" "package a"] []
                            [InfoCall "a.go"; ReadFileCall "a.go"])
              (Failure "open secret: permission denied")); try reflexivity.
    simpl. lia.
Defined.

(** ** The place of the size check *)




(** ** Include patterns and the default extensions *)

Lemma main_keeps_matching cfg rel d :
  Main.includes cfg <> [] -> main_keeps cfg rel d = main_keepsMatching cfg rel d.
Proof.
  intros H. unfold main_keeps, main_keepsMatching, Main.isIncluded.
  rewrite (proj1 (length_pos_nonempty _ H)).
  destruct d as [name [] [size|] [bytes|] | ]; try reflexivity.
  destruct (matchAny (Main.includes cfg) rel), (matchAny (Main.excludes cfg) rel),
    (sizeFits (Main.maxSizeBytes cfg) size); reflexivity.
Qed.

Lemma part000_walkFn_keeps cfg rel name regular info data st :
  snd (Part000.walkFn cfg rel (Some (File name regular info data)) None st) = None
  /\ Part000.files
       (fst (Part000.walkFn cfg rel (Some (File name regular info data)) None st))
     = (Part000.files st
          ++ main_keeps (part000_as_main cfg) rel (File name regular info data))%list.
Proof.
  unfold Part000.walkFn, main_keeps, sizeFits.
  change (Main.excludes (part000_as_main cfg)) with (Part000.excludes cfg).
  change (Main.maxSizeBytes (part000_as_main cfg)) with (Part000.maxSizeBytes cfg).
  change (Main.isIncluded (part000_as_main cfg) rel)
    with (Part000.isIncluded cfg rel).
  destruct regular; cbn [negb]; [|now rewrite app_nil_r].
  destruct (matchAny (Part000.excludes cfg) rel); cbn [negb andb].
  { destruct info, data; now rewrite app_nil_r. }
  destruct info as [size|]; [|cbn; now rewrite app_nil_r].
  destruct (size >? Part000.maxSizeBytes cfg)%Z; cbn [negb andb orb].
  { destruct data; cbn; now rewrite app_nil_r. }
  destruct (size =? 0)%Z; cbn [negb andb].
  { destruct data; cbn; now rewrite app_nil_r. }
  destruct (Part000.isIncluded cfg rel).
  - destruct data; cbn; [auto | now rewrite app_nil_r].
  - destruct data; cbn; now rewrite app_nil_r.
Qed.

Lemma part000_walkFn_prunes cfg rel name e ds st :
  snd (Part000.walkFn cfg rel (Some (Dir name e ds)) None st)
  = (if main_prunes (part000_as_main cfg) rel name then Some SkipDir else None)
  /\ Part000.files (fst (Part000.walkFn cfg rel (Some (Dir name e ds)) None st))
     = Part000.files st.
Proof.
  unfold Part000.walkFn, main_prunes.
  change (Main.excludes (part000_as_main cfg)) with (Part000.excludes cfg).
  destruct (isVCSName name); [now split|].
  destruct (matchAny (Part000.excludes cfg) rel); now split.
Qed.

(** C2 (corrected).  In [src/main.go] and [src/unnamed/part_000], when
    at least one [-i] pattern is given: [isIncluded] is true exactly for
    the relative paths that match one of the patterns, and the table of
    default extensions is not consulted; a file is collected only if
    its path matches a pattern, and a regular file that passes the other
    checks (exclude patterns, size, emptiness, reading) is collected if
    its path matches one.  For a run on a tree in which every directory
    that is not pruned can be listed, the files collected are, in the
    order of the walk, exactly the regular files outside the pruned
    directories whose path matches an include pattern and no exclude
    pattern, whose size is known, not zero and at most the limit, and
    that can be read.  (A file that matches is not kept for that alone:
    see [matching_file_is_not_kept].) *)
Theorem include_patterns_replace_default_extensions :
  (forall cfg relPath,
      Main.includes cfg <> [] ->
      (Main.isIncluded cfg relPath = true <->
       exists pattern, In pattern (Main.includes cfg)
                       /\ fst (GoFilepath.Match pattern relPath) = true))
  /\ (forall cfg relPath name regular info data st,
         Main.includes cfg <> [] ->
         Main.files (fst (Main.walkFn cfg relPath (Some (File name regular info data))
                                      None st))
         <> Main.files st ->
         exists pattern, In pattern (Main.includes cfg)
                         /\ fst (GoFilepath.Match pattern relPath) = true)
  /\ (forall cfg relPath name size bytes st pattern,
         In pattern (Main.includes cfg) ->
         fst (GoFilepath.Match pattern relPath) = true ->
         matchAny (Main.excludes cfg) relPath = false ->
         (0 < size <= Main.maxSizeBytes cfg)%Z ->
         Main.files (fst (Main.walkFn cfg relPath
                                      (Some (File name true (Some size) (Some bytes)))
                                      None st))
         = (Main.files st ++ [mkFileData (GoFilepath.ToSlash relPath) bytes])%list)
  /\ (forall cfg relPath,
         Part000.includes cfg <> [] ->
         (Part000.isIncluded cfg relPath = true <->
          exists pattern, In pattern (Part000.includes cfg)
                          /\ fst (GoFilepath.Match pattern relPath) = true))
  /\ (forall cfg relPath name regular info data st,
         Part000.includes cfg <> [] ->
         Part000.files (fst (Part000.walkFn cfg relPath
                                            (Some (File name regular info data))
                                            None st))
         <> Part000.files st ->
         exists pattern, In pattern (Part000.includes cfg)
                         /\ fst (GoFilepath.Match pattern relPath) = true)
  /\ (forall cfg relPath name size bytes st pattern,
         In pattern (Part000.includes cfg) ->
         fst (GoFilepath.Match pattern relPath) = true ->
         matchAny (Part000.excludes cfg) relPath = false ->
         (0 < size <= Part000.maxSizeBytes cfg)%Z ->
         Part000.files (fst (Part000.walkFn cfg relPath
                                            (Some (File name true (Some size) (Some bytes)))
                                            None st))
         = (Part000.files st ++ [mkFileData (GoFilepath.ToSlash relPath) bytes])%list)
  /\ (forall cfg root f,
         Main.includes cfg <> [] ->
         In f (Main.files (fst (WalkDir (Main.walkFn cfg) root Main.initial))) ->
         exists pattern, In pattern (Main.includes cfg)
                         /\ fst (GoFilepath.Match pattern (path f)) = true)
  /\ (forall cfg root f,
         Part000.includes cfg <> [] ->
         In f (Part000.files (fst (WalkDir (Part000.walkFn cfg) root Part000.initial))) ->
         exists pattern, In pattern (Part000.includes cfg)
                         /\ fst (GoFilepath.Match pattern (path f)) = true)
  /\ (forall cfg d,
         Main.includes cfg <> [] ->
         readable (erasePruned (main_prunes cfg) "." d) = true ->
         snd (WalkDir (Main.walkFn cfg) (Found d) Main.initial) = None
         /\ Main.files (fst (WalkDir (Main.walkFn cfg) (Found d) Main.initial))
            = collected (main_prunes cfg) (main_keepsMatching cfg) "." d)
  /\ (forall cfg d,
         Part000.includes cfg <> [] ->
         readable (erasePruned (main_prunes (part000_as_main cfg)) "." d) = true ->
         snd (WalkDir (Part000.walkFn cfg) (Found d) Part000.initial) = None
         /\ Part000.files (fst (WalkDir (Part000.walkFn cfg) (Found d) Part000.initial))
            = collected (main_prunes (part000_as_main cfg))
                        (main_keepsMatching (part000_as_main cfg)) "." d).
Proof.
  assert (M : forall cfg relPath, Main.includes cfg <> [] ->
                Main.isIncluded cfg relPath = matchAny (Main.includes cfg) relPath).
  { intros cfg relPath H. unfold Main.isIncluded.
    now rewrite (proj1 (length_pos_nonempty _ H)). }
  assert (P : forall cfg relPath, Part000.includes cfg <> [] ->
                Part000.isIncluded cfg relPath = matchAny (Part000.includes cfg) relPath).
  { intros cfg relPath H. unfold Part000.isIncluded.
    now rewrite (proj1 (length_pos_nonempty _ H)). }
  split; [|split; [|split; [|split; [|split; [|split; [|split; [|split; [|split]]]]]]]].
  - intros cfg relPath H. rewrite (M _ _ H). apply matchAny_exists.
  - intros cfg relPath name regular info data st H Hacc.
    apply matchAny_exists. rewrite <- (M _ _ H).
    destruct (Main.isIncluded cfg relPath) eqn:Hin; [reflexivity|].
    exfalso. apply Hacc. unfold Main.walkFn. rewrite Hin.
    repeat break_match; try reflexivity; discriminate.
  - intros cfg relPath name size bytes st pattern Hp Hm Hex Hsize.
    assert (Hne : Main.includes cfg <> []) by (intros E; rewrite E in Hp; exact Hp).
    unfold Main.walkFn. simpl negb. cbv iota. rewrite Hex. cbv zeta.
    replace (size >? Main.maxSizeBytes cfg)%Z with false
      by (symmetry; rewrite Z.gtb_ltb; apply Z.ltb_ge; lia).
    rewrite (eqb_zero_false size) by lia.
    rewrite (M _ _ Hne).
    rewrite (proj2 (matchAny_exists _ _) (ex_intro _ pattern (conj Hp Hm))).
    reflexivity.
  - intros cfg relPath H. rewrite (P _ _ H). apply matchAny_exists.
  - intros cfg relPath name regular info data st H Hacc.
    apply matchAny_exists. rewrite <- (P _ _ H).
    destruct (Part000.isIncluded cfg relPath) eqn:Hin; [reflexivity|].
    exfalso. apply Hacc. unfold Part000.walkFn. rewrite Hin.
    repeat break_match; try reflexivity; discriminate.
  - intros cfg relPath name size bytes st pattern Hp Hm Hex Hsize.
    assert (Hne : Part000.includes cfg <> []) by (intros E; rewrite E in Hp; exact Hp).
    unfold Part000.walkFn. simpl negb. cbv iota. rewrite Hex. cbv zeta.
    replace (size >? Part000.maxSizeBytes cfg)%Z with false
      by (symmetry; rewrite Z.gtb_ltb; apply Z.ltb_ge; lia).
    rewrite (eqb_zero_false size) by lia.
    rewrite (P _ _ Hne).
    rewrite (proj2 (matchAny_exists _ _) (ex_intro _ pattern (conj Hp Hm))).
    reflexivity.
  - intros cfg root f Hne Hf. apply matchAny_exists.
    revert f Hf.
    apply (WalkDir_keeps (Main.walkFn cfg)
             (fun st => forall f, In f (Main.files st) ->
                                  matchAny (Main.includes cfg) (path f) = true));
      [|intros f []].
    intros rel d err st Hst f. rewrite <- (M cfg (path f) Hne).
    unfold Main.walkFn.
    repeat break_match; simpl; intros Hf;
      try (rewrite (M cfg (path f) Hne); now apply Hst).
    apply in_app_or in Hf. destruct Hf as [Hf|[<-|[]]].
    + rewrite (M cfg (path f) Hne); now apply Hst.
    + simpl. now rewrite ToSlash_id.
  - intros cfg root f Hne Hf. apply matchAny_exists.
    revert f Hf.
    apply (WalkDir_keeps (Part000.walkFn cfg)
             (fun st => forall f, In f (Part000.files st) ->
                                  matchAny (Part000.includes cfg) (path f) = true));
      [|intros f []].
    intros rel d err st Hst f. rewrite <- (P cfg (path f) Hne).
    unfold Part000.walkFn.
    repeat break_match; simpl; intros Hf;
      try (rewrite (P cfg (path f) Hne); now apply Hst).
    apply in_app_or in Hf. destruct Hf as [Hf|[<-|[]]].
    + rewrite (P cfg (path f) Hne); now apply Hst.
    + simpl. now rewrite ToSlash_id.
  - intros cfg d Hne Hr.
    assert (Hk : forall rel name regular info data st,
               snd (Main.walkFn cfg rel (Some (File name regular info data)) None st)
               = None
               /\ Main.files (fst (Main.walkFn cfg rel
                                               (Some (File name regular info data))
                                               None st))
                  = (Main.files st
                       ++ main_keepsMatching cfg rel (File name regular info data))%list).
    { intros. rewrite <- (main_keeps_matching cfg _ _ Hne). apply main_walkFn_keeps. }
    apply (WalkDir_collects (Main.walkFn cfg) Main.files (main_prunes cfg)
                            (main_keepsMatching cfg) Hk (main_walkFn_prunes cfg)
                            d Main.initial Hr).
  - intros cfg d Hne Hr.
    assert (Hk : forall rel name regular info data st,
               snd (Part000.walkFn cfg rel (Some (File name regular info data)) None st)
               = None
               /\ Part000.files (fst (Part000.walkFn cfg rel
                                                     (Some (File name regular info data))
                                                     None st))
                  = (Part000.files st
                       ++ main_keepsMatching (part000_as_main cfg) rel
                                             (File name regular info data))%list).
    { intros. rewrite <- (main_keeps_matching (part000_as_main cfg) _ _ Hne).
      apply part000_walkFn_keeps. }
    apply (WalkDir_collects (Part000.walkFn cfg) Part000.files
                            (main_prunes (part000_as_main cfg))
                            (main_keepsMatching (part000_as_main cfg)) Hk
                            (part000_walkFn_prunes cfg) d Part000.initial Hr).
Qed.

(** With [-i "*.go"] the empty file [a.go] matches the pattern and is
    not kept: it is recorded as empty, and nothing is printed. *)
Lemma matching_file_is_not_kept :
  matchAny (Main.includes Sample.main_onlyGo) "a.go" = true
  /\ WalkDir (Main.walkFn Sample.main_onlyGo)
             (Found (Dir "work" None [File "a.go" true (Some 0%Z) (Some EmptyString)]))
             Main.initial
     = (Main.mkState [] ["a.go (empty)"] [InfoCall "a.go"], None)
  /\ stdout (Main.main Sample.main_onlyGo
                       (Sample.worldOf
                          (Dir "work" None
                               [File "a.go" true (Some 0%Z) (Some EmptyString)])))
     = EmptyString.
Proof. repeat split; vm_compute; reflexivity. Qed.

Lemma include_patterns_replace_default_extensions_witness :
  Main.isIncluded Sample.main_onlyGo "notes.txt" = false
  /\ Main.isIncluded Sample.main_onlyGo "a.go" = true
  /\ Main.files (fst (Main.walkFn Sample.main_onlyGo "a.go"
                                  (Some (File "a.go" true (Some 9%Z) (Some "package a")))
                                  None Main.initial))
     = [mkFileData "a.go" "package a"]
  /\ Part000.isIncluded (Part000.mkConfig 25 false false ["*.go"] [] []) "a.go" = true.
Proof.
  destruct include_patterns_replace_default_extensions
    as [H1 [_ [H3 [H4 _]]]].
  split; [|split; [|split]].
  - destruct (Main.isIncluded Sample.main_onlyGo "notes.txt") eqn:E; [|reflexivity].
    apply (H1 Sample.main_onlyGo "notes.txt") in E; [|discriminate].
    destruct E as [pattern [[<-|[]] Hm]]. discriminate Hm.
  - apply (H1 Sample.main_onlyGo "a.go"); [discriminate|].
    exists "*.go". split; [left; reflexivity | reflexivity].
  - apply (H3 Sample.main_onlyGo "a.go" "a.go" 9%Z "package a" Main.initial "*.go");
      [left; reflexivity | reflexivity | reflexivity | split; [reflexivity|discriminate]].
  - apply (H4 (Part000.mkConfig 25 false false ["*.go"] [] []) "a.go"); [discriminate|].
    exists "*.go". split; [left; reflexivity | reflexivity].
Defined.



(** ** Decoding UTF-8 *)

Lemma byteval_bounded (c : ascii) : (byteval c < 256)%N.
Proof. apply N_ascii_bounded. Qed.

Lemma byteval_inj (a b : ascii) : byteval a = byteval b -> a = b.
Proof.
  unfold byteval. intros H.
  rewrite <- (ascii_N_embedding a), <- (ascii_N_embedding b). now rewrite H.
Qed.

Lemma first_bounds s0 sz lo hi :
  GoUtf8.first s0 = Some (sz, lo, hi) ->
  (0x80 <= lo /\ hi <= 0xBF)%N
  /\ ((sz = 2 /\ (0xC2 <= s0 <= 0xDF)%N)
      \/ (sz = 3 /\ (0xE0 <= s0 <= 0xEF)%N /\ (s0 = 0xE0%N -> lo = 0xA0%N))
      \/ (sz = 4 /\ (0xF0 <= s0 <= 0xF4)%N /\ (s0 = 0xF0%N -> lo = 0x90%N))).
Proof.
  unfold GoUtf8.first.
  repeat match goal with
         | |- context [(?a <? ?b)%N] => destruct (N.ltb_spec a b)
         | |- context [(?a <=? ?b)%N] => destruct (N.leb_spec a b)
         | |- context [(?a =? ?b)%N] => destruct (N.eqb_spec a b)
         end;
    intros Hsome; inversion Hsome; subst; clear Hsome;
      (split; [lia|]);
      first [ left; split; [reflexivity|lia]
            | right; left; split; [reflexivity|split; [lia|intros; (reflexivity||lia)]]
            | right; right; split; [reflexivity|split; [lia|intros; (reflexivity||lia)]] ].
Qed.

Lemma ge64_lor_l (a b : N) : (64 <= a -> 64 <= N.lor a b)%N.
Proof.
  intros Ha. destruct (N.le_gt_cases 64 (N.lor a b)) as [H|H]; [exact H|].
  exfalso.
  assert (H6 : (6 <= N.log2 a)%N) by (apply (N.log2_le_mono 64 a Ha)).
  assert (H5 : (N.log2 (N.lor a b) <= 5)%N).
  { apply (N.log2_le_mono (N.lor a b) 63). lia. }
  rewrite N.log2_lor in H5. lia.
Qed.

Lemma ge64_lor_r (a b : N) : (64 <= b -> 64 <= N.lor a b)%N.
Proof. rewrite N.lor_comm. apply ge64_lor_l. Qed.

Lemma ge64_shiftl (a n : N) : (a <> 0 -> 6 <= n -> 64 <= N.shiftl a n)%N.
Proof.
  intros Ha Hn. rewrite N.shiftl_mul_pow2.
  assert (H : (2 ^ 6 <= 2 ^ n)%N) by (apply N.pow_le_mono_r; lia).
  change (2 ^ 6)%N with 64%N in H. nia.
Qed.

Lemma land_low (s k : N) : N.land s (N.ones k) = (s mod 2 ^ k)%N.
Proof. apply N.land_ones. Qed.

(** What [DecodeRuneInString] returns on a non-empty string: one byte,
    for an ASCII byte or an invalid sequence, or a sequence of two to
    four bytes, all from 0x80 up, for a rune that is at least 64. *)
Lemma DecodeRune_shape c0 t :
  let s := String c0 t in
  let (r, w) := GoUtf8.DecodeRuneInString s in
  (w = 1 /\ (((byteval c0 < 0x80)%N /\ r = byteval c0)
             \/ ((0x80 <= byteval c0)%N /\ r = GoUtf8.RuneError)))
  \/ (2 <= w <= 4 /\ w <= String.length s
      /\ all (fun c => (0x80 <=? byteval c)%N) (take w s) = true
      /\ (64 <= r)%N).
Proof.
  cbv zeta. unfold GoUtf8.DecodeRuneInString.
  destruct (N.ltb_spec (byteval c0) 0x80) as [Hlow|Hhigh].
  { left. split; [reflexivity|]. left. split; [exact Hlow | reflexivity]. }
  assert (Hbad : forall r w, (r, w) = (GoUtf8.RuneError, 1) ->
                             (w = 1 /\ (((byteval c0 < 0x80)%N /\ r = byteval c0)
                                        \/ ((0x80 <= byteval c0)%N
                                            /\ r = GoUtf8.RuneError)))).
  { intros r w E. inversion E. split; [reflexivity|]. right. now split. }
  destruct (GoUtf8.first (byteval c0)) as [[[sz lo] hi]|] eqn:Hfirst;
    [|left; now apply Hbad].
  destruct (first_bounds _ _ _ _ Hfirst) as [[Hlo Hhi] Hsz].
  destruct (Nat.ltb_spec (String.length (String c0 t)) sz) as [Hlen|Hlen];
    [left; now apply Hbad|].
  destruct t as [|c1 t1]; [left; now apply Hbad|].
  destruct (N.ltb_spec (byteval c1) lo) as [H1|H1]; [left; now apply Hbad|].
  destruct (N.ltb_spec hi (byteval c1)) as [H1'|H1']; [left; now apply Hbad|].
  cbn [orb].
  assert (Hc0 : (0x80 <=? byteval c0)%N = true) by (apply N.leb_le; lia).
  assert (Hc1 : (0x80 <=? byteval c1)%N = true) by (apply N.leb_le; lia).
  destruct Hsz as [[-> Hs0] | [[-> [Hs0 He0]] | [-> [Hs0 Hf0]]]].
  - (* two bytes *)
    right. simpl Nat.leb. cbv iota. simpl in Hlen.
    split; [lia|]. split; [simpl; lia|]. split.
    + simpl. now rewrite Hc0, Hc1.
    + apply ge64_lor_l. apply ge64_shiftl; [|lia].
      change 0x1F%N with (N.ones 5). rewrite land_low.
      change (2 ^ 5)%N with 32%N.
      pose proof (N.div_mod (byteval c0) 32). 
      pose proof (N.mod_lt (byteval c0) 32). lia.
  - (* three bytes *)
    simpl Nat.leb. cbv iota.
    destruct t1 as [|c2 t2]; [left; now apply Hbad|].
    unfold GoUtf8.cont, GoUtf8.locb, GoUtf8.hicb.
    destruct (N.leb_spec 0x80 (byteval c2)) as [H2|H2]; [|left; now apply Hbad].
    destruct (N.leb_spec (byteval c2) 0xBF) as [H2'|H2']; [|left; now apply Hbad].
    cbn [andb negb]. right.
    assert (Hc2 : (0x80 <=? byteval c2)%N = true) by (apply N.leb_le; lia).
    split; [lia|]. split; [simpl; lia|]. split.
    + simpl. now rewrite Hc0, Hc1, Hc2.
    + apply ge64_lor_l.
      destruct (N.eq_dec (byteval c0) 0xE0) as [E|E].
      * apply ge64_lor_r. apply ge64_shiftl; [|lia].
        change 0x3F%N with (N.ones 6). rewrite land_low.
        change (2 ^ 6)%N with 64%N. specialize (He0 E).
        pose proof (N.div_mod (byteval c1) 64).
        pose proof (N.mod_lt (byteval c1) 64). lia.
      * apply ge64_lor_l. apply ge64_shiftl; [|lia].
        change 0x0F%N with (N.ones 4). rewrite land_low.
        change (2 ^ 4)%N with 16%N.
        pose proof (N.div_mod (byteval c0) 16).
        pose proof (N.mod_lt (byteval c0) 16). lia.
  - (* four bytes *)
    simpl Nat.leb. cbv iota.
    destruct t1 as [|c2 t2]; [left; now apply Hbad|].
    unfold GoUtf8.cont, GoUtf8.locb, GoUtf8.hicb.
    destruct (N.leb_spec 0x80 (byteval c2)) as [H2|H2]; [|left; now apply Hbad].
    destruct (N.leb_spec (byteval c2) 0xBF) as [H2'|H2']; [|left; now apply Hbad].
    cbn [andb negb].
    destruct t2 as [|c3 t3]; [left; now apply Hbad|].
    destruct (N.leb_spec 0x80 (byteval c3)) as [H3|H3]; [|left; now apply Hbad].
    destruct (N.leb_spec (byteval c3) 0xBF) as [H3'|H3']; [|left; now apply Hbad].
    cbn [andb negb]. right.
    assert (Hc2 : (0x80 <=? byteval c2)%N = true) by (apply N.leb_le; lia).
    assert (Hc3 : (0x80 <=? byteval c3)%N = true) by (apply N.leb_le; lia).
    split; [lia|]. split; [simpl; lia|]. split.
    + simpl. now rewrite Hc0, Hc1, Hc2, Hc3.
    + apply ge64_lor_l. apply ge64_lor_l.
      destruct (N.eq_dec (byteval c0) 0xF0) as [E|E].
      * apply ge64_lor_r. apply ge64_shiftl; [|lia].
        change 0x3F%N with (N.ones 6). rewrite land_low.
        change (2 ^ 6)%N with 64%N. specialize (Hf0 E).
        pose proof (N.div_mod (byteval c1) 64).
        pose proof (N.mod_lt (byteval c1) 64). lia.
      * apply ge64_lor_l. apply ge64_shiftl; [|lia].
        change 0x07%N with (N.ones 3). rewrite land_low.
        change (2 ^ 3)%N with 8%N.
        pose proof (N.div_mod (byteval c0) 8).
        pose proof (N.mod_lt (byteval c0) 8). lia.
Qed.

(** ** [filepath.Match] *)

Lemma all_append p (u t : string) : all p (u ++ t) = all p u && all p t.
Proof. induction u as [|c u IH]; simpl; [reflexivity|]. now rewrite IH, andb_assoc. Qed.

Lemma all_drop p n (s : string) : all p s = true -> all p (drop n s) = true.
Proof.
  revert s. induction n as [|n IH]; intros [|c s]; simpl; auto.
  intros H. apply andb_prop in H. now apply IH.
Qed.

Lemma all_impl (p q : ascii -> bool) (s : string) :
  (forall c, p c = true -> q c = true) -> all p s = true -> all q s = true.
Proof.
  intros Hpq. induction s as [|c s IH]; simpl; [reflexivity|].
  intros H. apply andb_prop in H. destruct H as [H1 H2].
  now rewrite (Hpq c H1), IH.
Qed.

Lemma skipStars_spec pattern :
  (String.length (snd (GoFilepath.skipStars pattern)) <= String.length pattern)%nat
  /\ (fst (GoFilepath.skipStars pattern) = false ->
      snd (GoFilepath.skipStars pattern) = pattern)
  /\ (fst (GoFilepath.skipStars pattern) = true ->
      (String.length (snd (GoFilepath.skipStars pattern)) < String.length pattern)%nat)
  /\ (forall c t, snd (GoFilepath.skipStars pattern) = String c t -> c <> "*"%char)
  /\ (forall p, all p pattern = true -> all p (snd (GoFilepath.skipStars pattern)) = true).
Proof.
  induction pattern as [|c pattern IH].
  - simpl. repeat split; auto; discriminate.
  - destruct IH as [IH1 [IH2 [IH3 [IH4 IH5]]]].
    simpl. destruct (Ascii.eqb_spec c "*"%char) as [->|Hc].
    + simpl. repeat split; try discriminate; try lia; auto.
      intros p H. apply andb_prop in H. now apply IH5.
    + assert (E : GoFilepath.skipStars (String c pattern) = (false, String c pattern)).
      { simpl. destruct c as [[] [] [] [] [] [] [] []]; try reflexivity.
        now contradiction Hc. }
      simpl in E. rewrite E. simpl. repeat split; auto; try discriminate.
      intros c' t E'. inversion E'; subst. exact Hc.
Qed.

Lemma scanSplit_spec : forall n pattern inrange,
    (String.length pattern <= n)%nat ->
    let chunk := fst (GoFilepath.scanSplit pattern inrange) in
    let rest := snd (GoFilepath.scanSplit pattern inrange) in
    pattern = chunk ++ rest
    /\ (forall c t, pattern = String c t -> c <> "*"%char -> chunk <> EmptyString).
Proof.
  induction n as [|n IH]; intros pattern inrange Hlen.
  - destruct pattern; [|simpl in Hlen; lia]. simpl. split; [reflexivity|discriminate].
  - destruct pattern as [|c pattern]; [simpl; split; [reflexivity|discriminate]|].
    simpl in Hlen. cbv zeta. simpl GoFilepath.scanSplit.
    assert (Hkeep : forall ir,
               String c pattern
               = fst (let k := fun p : string * string => (String c (fst p), snd p) in
                      k (GoFilepath.scanSplit pattern ir))
                     ++ snd (let k := fun p : string * string => (String c (fst p), snd p) in
                             k (GoFilepath.scanSplit pattern ir))).
    { intros ir. simpl. f_equal. apply (IH pattern ir). lia. }
    simpl in Hkeep.
    destruct (Ascii.eqb c "\"%char).
    { destruct pattern as [|c' pattern']; simpl.
      - split; [reflexivity|discriminate].
      - split; [|discriminate]. do 2 f_equal. apply (IH pattern' inrange).
        simpl in Hlen. lia. }
    destruct (Ascii.eqb c "["%char); [split; [apply Hkeep|discriminate]|].
    destruct (Ascii.eqb c "]"%char); [split; [apply Hkeep|discriminate]|].
    destruct (Ascii.eqb_spec c "*"%char) as [->|Hc].
    { destruct inrange; [split; [apply Hkeep|discriminate]|].
      simpl. split; [reflexivity|]. intros c t E. inversion E. congruence. }
    split; [apply Hkeep|discriminate].
Qed.

Lemma scanChunk_spec pattern star chunk rest :
  GoFilepath.scanChunk pattern = (star, chunk, rest) ->
  (forall p, all p pattern = true -> all p chunk = true /\ all p rest = true)
  /\ (pattern <> EmptyString ->
      star && isEmpty chunk = true
      \/ (String.length rest < String.length pattern)%nat).
Proof.
  unfold GoFilepath.scanChunk.
  pose proof (skipStars_spec pattern) as [H1 [H2 [H3 [H4 H5]]]].
  destruct (GoFilepath.skipStars pattern) as [st pattern1]. simpl in *.
  pose proof (scanSplit_spec (String.length pattern1) pattern1 false (le_n _))
    as [Hs1 Hs2].
  destruct (GoFilepath.scanSplit pattern1 false) as [ch rs]. simpl in *.
  intros E. inversion E; subst star chunk rest. clear E. split.
  - intros p Hp. specialize (H5 p Hp). rewrite Hs1, all_append in H5.
    now apply andb_prop in H5.
  - intros Hne.
    assert (Hlen : String.length pattern1 = String.length ch + String.length rs).
    { rewrite Hs1 at 1. apply length_append. }
    destruct ch as [|c0 ch'].
    + destruct st.
      * left. reflexivity.
      * right. specialize (H2 eq_refl). subst pattern1.
        destruct pattern as [|c t]; [congruence|].
        exfalso. apply (Hs2 c t eq_refl); [|reflexivity]. apply (H4 c t eq_refl).
    + right. simpl in Hlen. lia.
Qed.

Lemma ContainsByte_false s b :
  GoStrings.ContainsByte s b = false <-> all (fun c => negb (Ascii.eqb c b)) s = true.
Proof. unfold GoStrings.ContainsByte. now destruct (all _ s). Qed.

(** Once [failed] is set the chunk does not match. *)
Lemma matchChunkLoop_failed : forall fuel chunk s t,
    GoFilepath.matchChunkLoop fuel chunk s true <> Some (GoFilepath.ChunkOk t).
Proof.
  induction fuel as [|fuel IH]; intros chunk s t; simpl; [discriminate|].
  destruct chunk as [|c chunk1]; [discriminate|].
  cbn [orb].
  repeat break_match; try discriminate; try apply IH.
Qed.

Lemma take_rune_notSeparator c0 t :
  GoFilepath.IsPathSeparator c0 = false ->
  all notSeparator
      (take (snd (GoUtf8.DecodeRuneInString (String c0 t))) (String c0 t)) = true.
Proof.
  intros Hc0. pose proof (DecodeRune_shape c0 t) as H. cbv zeta in H.
  destruct (GoUtf8.DecodeRuneInString (String c0 t)) as [r w]. simpl snd.
  destruct H as [[-> _] | [_ [_ [Hall _]]]].
  - simpl. unfold notSeparator. now rewrite Hc0.
  - revert Hall. apply all_impl. intros c Hc. apply N.leb_le in Hc.
    unfold notSeparator, GoFilepath.IsPathSeparator, GoFilepath.Separator.
    destruct (Ascii.eqb_spec c "/"%char) as [->|]; [|reflexivity].
    vm_compute in Hc. now contradiction Hc.
Qed.

(** A chunk without separator and without character class only matches
    a prefix of the name that has no separator. *)
Lemma matchChunkLoop_prefix : forall fuel chunk s t,
    all notSeparator chunk = true ->
    all notClass chunk = true ->
    GoFilepath.matchChunkLoop fuel chunk s false = Some (GoFilepath.ChunkOk t) ->
    exists u, s = u ++ t /\ all notSeparator u = true.
Proof.
  induction fuel as [|fuel IH]; intros chunk s t Hsep Hcls; simpl; [discriminate|].
  destruct chunk as [|c chunk1].
  { intros E. inversion E. exists EmptyString. now split. }
  simpl in Hsep, Hcls. apply andb_prop in Hsep. destruct Hsep as [Hc Hsep].
  apply andb_prop in Hcls. destruct Hcls as [Hk Hcls].
  unfold notClass in Hk. apply negb_true_iff in Hk. rewrite Hk.
  cbn [orb].
  assert (Hlit : forall lit chunk',
             notSeparator lit = true ->
             all notSeparator chunk' = true -> all notClass chunk' = true ->
             match s with
             | EmptyString => GoFilepath.matchChunkLoop fuel chunk' s true
             | String c0 s' =>
               if isEmpty s then GoFilepath.matchChunkLoop fuel chunk' s true
               else GoFilepath.matchChunkLoop fuel chunk' s' (negb (Ascii.eqb lit c0))
             end = Some (GoFilepath.ChunkOk t) ->
             exists u, s = u ++ t /\ all notSeparator u = true).
  { intros lit chunk' Hl Hs' Hc' E. destruct s as [|c0 s'].
    - now apply matchChunkLoop_failed in E.
    - simpl in E. destruct (Ascii.eqb_spec lit c0) as [->|Hne]; simpl in E.
      + destruct (IH chunk' s' t Hs' Hc' E) as [u [Hu1 Hu2]].
        exists (String c0 u). simpl. rewrite Hl, Hu2. now rewrite Hu1 at 1.
      + now apply matchChunkLoop_failed in E. }
  destruct (Ascii.eqb c "?"%char).
  { destruct s as [|c0 s']; simpl isEmpty; cbv iota.
    - intros E. now apply matchChunkLoop_failed in E.
    - destruct (GoFilepath.IsPathSeparator c0) eqn:Hc0.
      + intros E. now apply matchChunkLoop_failed in E.
      + intros E. destruct (IH chunk1 _ t Hsep Hcls E) as [u [Hu1 Hu2]].
        exists (take (snd (GoUtf8.DecodeRuneInString (String c0 s'))) (String c0 s') ++ u).
        split.
        * rewrite append_assoc, <- Hu1. now rewrite take_drop.
        * rewrite all_append, Hu2, take_rune_notSeparator by exact Hc0. reflexivity. }
  destruct (Ascii.eqb c "\"%char).
  { destruct chunk1 as [|c' chunk2]; [discriminate|].
    simpl in Hsep, Hcls. apply andb_prop in Hsep. destruct Hsep as [Hc' Hsep].
    apply andb_prop in Hcls. destruct Hcls as [_ Hcls].
    destruct s; apply (Hlit c' chunk2 Hc' Hsep Hcls). }
  destruct s; apply (Hlit c chunk1 Hc Hsep Hcls).
Qed.

Lemma starLoop_prefix chunk pattern : forall name t,
    all notSeparator chunk = true ->
    all notClass chunk = true ->
    GoFilepath.starLoop chunk pattern name = Some (GoFilepath.StarFound t) ->
    exists u, name = u ++ t /\ all notSeparator u = true.
Proof.
  induction name as [|c name IH]; intros t Hsep Hcls; simpl; [discriminate|].
  destruct (GoFilepath.IsPathSeparator c) eqn:Hc; [discriminate|].
  assert (Hrec : GoFilepath.starLoop chunk pattern name = Some (GoFilepath.StarFound t) ->
                 exists u, String c name = u ++ t /\ all notSeparator u = true).
  { intros E. destruct (IH t Hsep Hcls E) as [u [Hu1 Hu2]].
    exists (String c u). simpl. unfold notSeparator at 1. rewrite Hc, Hu2.
    now rewrite Hu1 at 1. }
  unfold GoFilepath.matchChunk.
  destruct (GoFilepath.matchChunkLoop _ chunk name false) as [[t'| |]|] eqn:Hm;
    try discriminate; try exact Hrec.
  destruct (isEmpty pattern && negb (isEmpty t')); [exact Hrec|].
  intros E. inversion E; subst t'.
  destruct (matchChunkLoop_prefix _ _ _ _ Hsep Hcls Hm) as [u [Hu1 Hu2]].
  exists (String c u). simpl. unfold notSeparator at 1. rewrite Hc, Hu2.
  now rewrite Hu1 at 1.
Qed.

Lemma MatchLoop_top_level : forall fuel pattern name err,
    all notSeparator pattern = true ->
    all notClass pattern = true ->
    GoFilepath.MatchLoop fuel pattern name = Some (true, err) ->
    all notSeparator name = true.
Proof.
  induction fuel as [|fuel IH]; intros pattern name err Hsep Hcls; simpl;
    [discriminate|].
  destruct pattern as [|c pattern'].
  { destruct name; simpl; intros E; [reflexivity | discriminate]. }
  set (pattern := String c pattern') in *.
  destruct (GoFilepath.scanChunk pattern) as [[star chunk] pattern1] eqn:Hscan.
  destruct (scanChunk_spec _ _ _ _ Hscan) as [Hparts _].
  destruct (Hparts _ Hsep) as [Hsep1 Hsep2].
  destruct (Hparts _ Hcls) as [Hcls1 Hcls2].
  destruct (star && isEmpty chunk).
  { intros E. injection E as E1 E2. apply negb_true_iff in E1.
    apply ContainsByte_false in E1. exact E1. }
  assert (Hstar : (if star
                   then match GoFilepath.starLoop chunk pattern1 name with
                        | Some (GoFilepath.StarFound t) =>
                          GoFilepath.MatchLoop fuel pattern1 t
                        | Some GoFilepath.StarNone => Some (false, false)
                        | Some GoFilepath.StarBad => Some (false, true)
                        | None => None
                        end
                   else Some (false, false)) = Some (true, err) ->
                  all notSeparator name = true).
  { destruct star; [|discriminate].
    destruct (GoFilepath.starLoop chunk pattern1 name) as [[t| |]|] eqn:Hs;
      try discriminate.
    intros E. destruct (starLoop_prefix _ _ _ _ Hsep1 Hcls1 Hs) as [u [Hu1 Hu2]].
    rewrite Hu1, all_append, Hu2. apply (IH _ _ _ Hsep2 Hcls2 E). }
  unfold GoFilepath.matchChunk.
  destruct (GoFilepath.matchChunkLoop _ chunk name false) as [[t| |]|] eqn:Hm;
    try discriminate; try exact Hstar.
  destruct (isEmpty t || negb (isEmpty pattern1)); [|exact Hstar].
  intros E. destruct (matchChunkLoop_prefix _ _ _ _ Hsep1 Hcls1 Hm) as [u [Hu1 Hu2]].
  rewrite Hu1, all_append, Hu2. apply (IH _ _ _ Hsep2 Hcls2 E).
Qed.

(** *** The loops of [Match] do not run out of fuel *)

Lemma DecodeRune_width c0 t :
  (1 <= snd (GoUtf8.DecodeRuneInString (String c0 t)))%nat.
Proof.
  pose proof (DecodeRune_shape c0 t) as H. cbv zeta in H.
  destruct (GoUtf8.DecodeRuneInString (String c0 t)) as [r w]. simpl.
  destruct H as [[-> _] | [H _]]; lia.
Qed.

Lemma getEsc_shorter chunk r nchunk :
  GoFilepath.getEsc chunk = Some (r, nchunk) ->
  (String.length nchunk < String.length chunk)%nat.
Proof.
  unfold GoFilepath.getEsc. destruct chunk as [|c chunk']; [discriminate|].
  destruct (_ || _); [discriminate|].
  set (chunk1 := if Ascii.eqb c "\"%char then chunk' else String c chunk').
  assert (Hlen : (String.length chunk1 <= String.length (String c chunk'))%nat).
  { subst chunk1. destruct (Ascii.eqb c "\"%char); simpl; lia. }
  destruct chunk1 as [|c1 t1]; [discriminate|].
  pose proof (DecodeRune_width c1 t1) as Hw.
  destruct (GoUtf8.DecodeRuneInString (String c1 t1)) as [r' n]. simpl in Hw.
  destruct (_ && _); [discriminate|].
  pose proof (length_drop n (String c1 t1)) as Hd.
  destruct (drop n (String c1 t1)) as [|c2 t2]; [discriminate|].
  intros E. inversion E; subst. cbn [String.length] in *. lia.
Qed.

Lemma classLoop_total : forall fuel chunk r matched nrange,
    (String.length chunk < fuel)%nat ->
    exists res,
      GoFilepath.classLoop fuel chunk r matched nrange = Some res
      /\ match res with
         | GoFilepath.ClassOk chunk' _ =>
           (String.length chunk' < String.length chunk)%nat
         | GoFilepath.ClassBad => True
         end.
Proof.
  induction fuel as [|fuel IH]; intros chunk r matched nrange Hlen; [lia|].
  cbn [GoFilepath.classLoop].
  destruct (GoStrings.HasPrefix chunk "]" && Nat.ltb 0 nrange) eqn:Hclose.
  - eexists. split; [reflexivity|]. destruct chunk; [discriminate|].
    simpl. lia.
  - destruct (GoFilepath.getEsc chunk) as [[lo chunk1]|] eqn:H1;
      [|eexists; split; [reflexivity|exact I]].
    apply getEsc_shorter in H1.
    destruct (GoStrings.HasPrefix chunk1 "-") eqn:Hdash.
    + destruct (GoFilepath.getEsc (drop 1 chunk1)) as [[hi chunk3]|] eqn:H2;
        [|eexists; split; [reflexivity|exact I]].
      apply getEsc_shorter in H2. rewrite length_drop in H2.
      destruct (IH chunk3 r (matched || ((lo <=? r)%N && (r <=? hi)%N)) (S nrange))
        as [res [Hres Hshort]]; [lia|].
      exists res. split; [exact Hres|]. destruct res; [lia|exact I].
    + destruct (IH chunk1 r (matched || ((lo <=? r)%N && (r <=? lo)%N)) (S nrange))
        as [res [Hres Hshort]]; [lia|].
      exists res. split; [exact Hres|]. destruct res; [lia|exact I].
Qed.

Lemma matchChunkLoop_total : forall fuel chunk s failed,
    (String.length chunk < fuel)%nat ->
    GoFilepath.matchChunkLoop fuel chunk s failed <> None.
Proof.
  induction fuel as [|fuel IH]; intros chunk s failed Hlen; [lia|].
  cbn [GoFilepath.matchChunkLoop].
  destruct chunk as [|c chunk1]; [discriminate|]. simpl in Hlen. cbv zeta.
  assert (Hlit : forall lit chunk' (f : bool),
             (String.length chunk' < fuel)%nat ->
             match s with
             | EmptyString => GoFilepath.matchChunkLoop fuel chunk' s true
             | String c0 s' =>
               if f then GoFilepath.matchChunkLoop fuel chunk' s true
               else GoFilepath.matchChunkLoop fuel chunk' s' (negb (Ascii.eqb lit c0))
             end <> None).
  { intros lit chunk' f H. destruct s; [|destruct f]; now apply IH. }
  destruct (Ascii.eqb c "["%char).
  { match goal with
    | |- context [let (_, _) := ?x in _] => destruct x as [r s1]
    end.
    match goal with
    | |- context [GoFilepath.classLoop ?f ?ch ?r ?m ?n] =>
      destruct (classLoop_total f ch r m n (Nat.lt_succ_diag_r _)) as [res [Hres Hs]];
        rewrite Hres
    end.
    destruct res; [|discriminate]. apply IH.
    destruct (GoStrings.HasPrefix chunk1 "^"); try rewrite length_drop in Hs; lia. }
  destruct (Ascii.eqb c "?"%char).
  { destruct s; [|destruct (failed || isEmpty _)]; apply IH; lia. }
  destruct (Ascii.eqb c "\"%char).
  { destruct chunk1 as [|c' chunk2]; [discriminate|]. apply Hlit. simpl in Hlen. lia. }
  apply Hlit. lia.
Qed.

Lemma matchChunk_total chunk s : GoFilepath.matchChunk chunk s <> None.
Proof. apply matchChunkLoop_total. lia. Qed.

Lemma starLoop_total chunk pattern : forall name,
    GoFilepath.starLoop chunk pattern name <> None.
Proof.
  induction name as [|c name IH]; simpl; [discriminate|].
  destruct (GoFilepath.IsPathSeparator c); [discriminate|].
  pose proof (matchChunk_total chunk name) as H.
  destruct (GoFilepath.matchChunk chunk name) as [[t| |]|];
    try discriminate; try exact IH; [|congruence].
  destruct (isEmpty pattern && negb (isEmpty t)); [exact IH | discriminate].
Qed.

Lemma MatchLoop_total : forall fuel pattern name,
    (String.length pattern < fuel)%nat ->
    GoFilepath.MatchLoop fuel pattern name <> None.
Proof.
  induction fuel as [|fuel IH]; intros pattern name Hlen; [lia|].
  simpl. destruct pattern as [|c pattern']; [discriminate|].
  set (pattern := String c pattern') in *.
  destruct (GoFilepath.scanChunk pattern) as [[star chunk] pattern1] eqn:Hscan.
  destruct (scanChunk_spec _ _ _ _ Hscan) as [_ Hshort].
  destruct (star && isEmpty chunk); [discriminate|].
  destruct (Hshort ltac:(discriminate)) as [Hs|Hs]; [discriminate|].
  assert (Hrec : forall t, GoFilepath.MatchLoop fuel pattern1 t <> None).
  { intros t. apply IH. subst pattern. simpl in *. lia. }
  assert (Hstar : (if star
                   then match GoFilepath.starLoop chunk pattern1 name with
                        | Some (GoFilepath.StarFound t) =>
                          GoFilepath.MatchLoop fuel pattern1 t
                        | Some GoFilepath.StarNone => Some (false, false)
                        | Some GoFilepath.StarBad => Some (false, true)
                        | None => None
                        end
                   else Some (false, false)) <> None).
  { destruct star; [|discriminate].
    pose proof (starLoop_total chunk pattern1 name) as H.
    destruct (GoFilepath.starLoop chunk pattern1 name) as [[t| |]|];
      try discriminate; [apply Hrec | congruence]. }
  pose proof (matchChunk_total chunk name) as H.
  destruct (GoFilepath.matchChunk chunk name) as [[t| |]|];
    try discriminate; try exact Hstar; [|congruence].
  destruct (isEmpty t || negb (isEmpty pattern1)); [apply Hrec | exact Hstar].
Qed.

(** [Match] is the result of its loop: the fuel is never used up. *)
Lemma Match_total pattern name :
  GoFilepath.MatchLoop (S (String.length pattern)) pattern name
  = Some (GoFilepath.Match pattern name).
Proof.
  unfold GoFilepath.Match.
  pose proof (MatchLoop_total (S (String.length pattern)) pattern name
                              (Nat.lt_succ_diag_r _)) as H.
  destruct (GoFilepath.MatchLoop _ pattern name); congruence.
Qed.

Lemma relJoin_nested rel name :
  rel <> "." -> GoStrings.ContainsByte (relJoin rel name) GoFilepath.Separator = true.
Proof.
  intros Hrel. unfold relJoin. apply String.eqb_neq in Hrel. rewrite Hrel.
  unfold GoStrings.ContainsByte. rewrite all_append. simpl.
  now rewrite andb_false_r.
Qed.

Lemma main_collected_matches cfg root f :
  Main.includes cfg <> [] ->
  In f (Main.files (fst (WalkDir (Main.walkFn cfg) root Main.initial))) ->
  matchAny (Main.includes cfg) (path f) = true.
Proof.
  intros Hne. revert f.
  assert (M : forall relPath,
             Main.isIncluded cfg relPath = matchAny (Main.includes cfg) relPath).
  { intros relPath. unfold Main.isIncluded.
    now rewrite (proj1 (length_pos_nonempty _ Hne)). }
  apply (WalkDir_keeps (Main.walkFn cfg)
           (fun st => forall f, In f (Main.files st) ->
                                matchAny (Main.includes cfg) (path f) = true));
    [|intros f []].
  intros rel d err st Hst f. rewrite <- (M (path f)).
  unfold Main.walkFn.
  repeat break_match; simpl; intros Hf;
    try (rewrite (M (path f)); now apply Hst).
  apply in_app_or in Hf. destruct Hf as [Hf|[<-|[]]].
  + rewrite (M (path f)); now apply Hst.
  + simpl. now rewrite ToSlash_id.
Qed.

Lemma part000_collected_matches cfg root f :
  Part000.includes cfg <> [] ->
  In f (Part000.files (fst (WalkDir (Part000.walkFn cfg) root Part000.initial))) ->
  matchAny (Part000.includes cfg) (path f) = true.
Proof.
  intros Hne. revert f.
  assert (M : forall relPath,
             Part000.isIncluded cfg relPath = matchAny (Part000.includes cfg) relPath).
  { intros relPath. unfold Part000.isIncluded.
    now rewrite (proj1 (length_pos_nonempty _ Hne)). }
  apply (WalkDir_keeps (Part000.walkFn cfg)
           (fun st => forall f, In f (Part000.files st) ->
                                matchAny (Part000.includes cfg) (path f) = true));
    [|intros f []].
  intros rel d err st Hst f. rewrite <- (M (path f)).
  unfold Part000.walkFn.
  repeat break_match; simpl; intros Hf;
    try (rewrite (M (path f)); now apply Hst).
  apply in_app_or in Hf. destruct Hf as [Hf|[<-|[]]].
  + rewrite (M (path f)); now apply Hst.
  + simpl. now rewrite ToSlash_id.
Qed.

(** C10 (corrected).  A pattern of [-i] or [-e] that contains no path
    separator and no character class (no bracket) matches only relative
    paths without separator: the root itself, whose relative path is
    [.], and the entries directly under it.  The relative path of an
    entry below a subdirectory is matched by no such pattern.  So, with
    such [-i] patterns, every file a run collects is directly under the
    root; and with such [-e] patterns, the walk function treats an entry
    below a subdirectory as it does with no [-e] pattern at all: the entry
    is not excluded through its own path.  It is lost all the same when a
    directory above it is pruned: a directory whose relative path matches
    an [-e] pattern is left with nothing below it visited, and a pattern
    that matches [.], as the star does, prunes the whole tree. *)
Theorem plain_patterns_match_top_level_only :
  (forall pattern name,
      GoStrings.ContainsByte pattern GoFilepath.Separator = false ->
      GoStrings.ContainsByte pattern "["%char = false ->
      fst (GoFilepath.Match pattern name) = true ->
      GoStrings.ContainsByte name GoFilepath.Separator = false)
  /\ (forall patterns rel name,
         Forall (fun pattern =>
                   GoStrings.ContainsByte pattern GoFilepath.Separator = false
                   /\ GoStrings.ContainsByte pattern "["%char = false) patterns ->
         rel <> "." ->
         matchAny patterns (relJoin rel name) = false)
  /\ (forall cfg rel name,
         Main.includes cfg <> [] ->
         Forall (fun pattern =>
                   GoStrings.ContainsByte pattern GoFilepath.Separator = false
                   /\ GoStrings.ContainsByte pattern "["%char = false)
                (Main.includes cfg) ->
         rel <> "." ->
         Main.isIncluded cfg (relJoin rel name) = false)
  /\ (forall cfg root f,
         Main.includes cfg <> [] -> Forall plainPattern (Main.includes cfg) ->
         In f (Main.files (fst (WalkDir (Main.walkFn cfg) root Main.initial))) ->
         GoStrings.ContainsByte (path f) GoFilepath.Separator = false)
  /\ (forall cfg root f,
         Part000.includes cfg <> [] -> Forall plainPattern (Part000.includes cfg) ->
         In f (Part000.files (fst (WalkDir (Part000.walkFn cfg) root Part000.initial))) ->
         GoStrings.ContainsByte (path f) GoFilepath.Separator = false)
  /\ (forall cfg rel name d err st,
         Forall plainPattern (Main.excludes cfg) -> rel <> "." ->
         Main.walkFn cfg (relJoin rel name) d err st
         = Main.walkFn (main_withoutExcludes cfg) (relJoin rel name) d err st)
  /\ (forall cfg rel name d err st,
         Forall plainPattern (Part000.excludes cfg) -> rel <> "." ->
         Part000.walkFn cfg (relJoin rel name) d err st
         = Part000.walkFn (part000_withoutExcludes cfg) (relJoin rel name) d err st)
  /\ (forall cfg rel name readErr entries st,
         matchAny (Main.excludes cfg) rel = true ->
         walkDir (Main.walkFn cfg) rel (Dir name readErr entries) st = (st, None))
  /\ (forall cfg rel name readErr entries st,
         matchAny (Part000.excludes cfg) rel = true ->
         walkDir (Part000.walkFn cfg) rel (Dir name readErr entries) st = (st, None))
  /\ (forall cfg name readErr entries,
         In "*" (Main.excludes cfg) ->
         WalkDir (Main.walkFn cfg) (Found (Dir name readErr entries)) Main.initial
         = (Main.initial, None)).
Proof.
  assert (H1 : forall pattern name,
             GoStrings.ContainsByte pattern GoFilepath.Separator = false ->
             GoStrings.ContainsByte pattern "["%char = false ->
             fst (GoFilepath.Match pattern name) = true ->
             GoStrings.ContainsByte name GoFilepath.Separator = false).
  { intros pattern name Hsep Hcls Hm.
    apply ContainsByte_false in Hsep. apply ContainsByte_false in Hcls.
    apply ContainsByte_false.
    pose proof (Match_total pattern name) as Hloop.
    destruct (GoFilepath.Match pattern name) as [matched err]. simpl in Hm.
    subst matched.
    exact (MatchLoop_top_level _ _ _ _ Hsep Hcls Hloop). }
  assert (H2 : forall patterns rel name,
             Forall (fun pattern =>
                       GoStrings.ContainsByte pattern GoFilepath.Separator = false
                       /\ GoStrings.ContainsByte pattern "["%char = false) patterns ->
             rel <> "." ->
             matchAny patterns (relJoin rel name) = false).
  { intros patterns rel name Hall Hrel.
    destruct (matchAny patterns (relJoin rel name)) eqn:E; [|reflexivity].
    apply matchAny_exists in E. destruct E as [pattern [Hin Hm]].
    rewrite Forall_forall in Hall. destruct (Hall _ Hin) as [Hsep Hcls].
    pose proof (H1 _ _ Hsep Hcls Hm) as Hno.
    rewrite (relJoin_nested rel name Hrel) in Hno. discriminate. }
  assert (H6 : forall cfg rel name readErr entries st,
             matchAny (Main.excludes cfg) rel = true ->
             walkDir (Main.walkFn cfg) rel (Dir name readErr entries) st = (st, None)).
  { intros cfg rel name readErr entries st Hm. rewrite walkDir_Dir.
    unfold Main.walkFn at 1. rewrite Hm. now destruct (isVCSName name). }
  split; [exact H1 | split; [exact H2|]].
  split; [|split; [|split; [|split; [|split; [|split; [exact H6|split]]]]]].
  - intros cfg rel name Hne Hall Hrel. unfold Main.isIncluded.
    rewrite (proj1 (length_pos_nonempty _ Hne)). now apply H2.
  - intros cfg root f Hne Hall Hf.
    pose proof (main_collected_matches cfg root f Hne Hf) as Hm.
    apply matchAny_exists in Hm. destruct Hm as [pattern [Hin Hm]].
    rewrite Forall_forall in Hall. destruct (Hall _ Hin) as [Hsep Hcls].
    exact (H1 _ _ Hsep Hcls Hm).
  - intros cfg root f Hne Hall Hf.
    pose proof (part000_collected_matches cfg root f Hne Hf) as Hm.
    apply matchAny_exists in Hm. destruct Hm as [pattern [Hin Hm]].
    rewrite Forall_forall in Hall. destruct (Hall _ Hin) as [Hsep Hcls].
    exact (H1 _ _ Hsep Hcls Hm).
  - intros cfg rel name d err st Hall Hrel.
    pose proof (H2 (Main.excludes cfg) rel name Hall Hrel) as Hm.
    unfold Main.walkFn. rewrite Hm. reflexivity.
  - intros cfg rel name d err st Hall Hrel.
    pose proof (H2 (Part000.excludes cfg) rel name Hall Hrel) as Hm.
    unfold Part000.walkFn. rewrite Hm. reflexivity.
  - intros cfg rel name readErr entries st Hm. rewrite walkDir_Dir.
    unfold Part000.walkFn at 1. rewrite Hm. now destruct (isVCSName name).
  - intros cfg name readErr entries Hin. unfold WalkDir.
    rewrite H6; [reflexivity|].
    apply matchAny_exists. exists "*". split; [exact Hin | reflexivity].
Qed.

(** A character class can match the separator: the pattern
    [*[^x]a.log], which contains none, matches [sub/a.log]. *)
Lemma character_class_matches_separator :
  ~ (forall pattern name,
        GoStrings.ContainsByte pattern GoFilepath.Separator = false ->
        fst (GoFilepath.Match pattern name) = true ->
        GoStrings.ContainsByte name GoFilepath.Separator = false).
Proof.
  intros H. specialize (H "*[^x]a.log" "sub/a.log" eq_refl eq_refl).
  discriminate H.
Qed.

Lemma plain_patterns_match_top_level_only_witness :
  GoStrings.ContainsByte "a.log" GoFilepath.Separator = false
  /\ matchAny ["*.log"; "?.txt"] (relJoin "sub" "a.log") = false
  /\ Main.isIncluded (Main.mkConfig 25 false false EmptyString ["*.log"] [] [])
                     (relJoin "sub" "a.log") = false
  /\ Main.walkFn (Main.mkConfig 25 false false EmptyString [] ["*.log"] [])
                 (relJoin "sub" "a.log")
                 (Some (File "a.log" true (Some 5%Z) (Some "hello"))) None
                 Main.initial
     = Main.walkFn (Main.mkConfig 25 false false EmptyString [] [] [])
                   (relJoin "sub" "a.log")
                   (Some (File "a.log" true (Some 5%Z) (Some "hello"))) None
                   Main.initial
  /\ walkDir (Main.walkFn (Main.mkConfig 25 false false EmptyString [] ["s*"] []))
             "sub"
             (Dir "sub" None [File "a.log" true (Some 5%Z) (Some "hello")])
             Main.initial
     = (Main.initial, None).
Proof.
  destruct plain_patterns_match_top_level_only
    as [H1 [H2 [H3 [_ [_ [H6 [_ [H8 _]]]]]]]].
  split; [|split; [|split; [|split]]];
    [| |
     | apply (H6 (Main.mkConfig 25 false false EmptyString [] ["*.log"] []) "sub"
                 "a.log" (Some (File "a.log" true (Some 5%Z) (Some "hello"))) None
                 Main.initial); [repeat constructor | discriminate]
     | apply (H8 (Main.mkConfig 25 false false EmptyString [] ["s*"] []) "sub" "sub"
                 None [File "a.log" true (Some 5%Z) (Some "hello")] Main.initial);
       reflexivity].
  - apply (H1 "*.log" "a.log"); reflexivity.
  - apply (H2 ["*.log"; "?.txt"] "sub" "a.log"); [|discriminate].
    repeat constructor.
  - apply (H3 (Main.mkConfig 25 false false EmptyString ["*.log"] [] []) "sub" "a.log");
      [discriminate | repeat constructor | discriminate].
Defined.

(** ** The order of the output *)

Lemma ascii_compare_refl (a : ascii) : Ascii.compare a a = Eq.
Proof. unfold Ascii.compare. apply N.compare_refl. Qed.

Lemma ascii_compare_lt_trans (a b c : ascii) :
  Ascii.compare a b = Lt -> Ascii.compare b c = Lt -> Ascii.compare a c = Lt.
Proof.
  unfold Ascii.compare. rewrite !N.compare_lt_iff. lia.
Qed.

Lemma string_compare_refl (s : string) : String.compare s s = Eq.
Proof. induction s as [|c s IH]; simpl; [reflexivity|]. now rewrite ascii_compare_refl. Qed.

Lemma string_compare_lt_trans : forall a b c : string,
    String.compare a b = Lt -> String.compare b c = Lt -> String.compare a c = Lt.
Proof.
  induction a as [|x a IH]; intros [|y b] [|z c]; simpl; try discriminate; auto.
  destruct (Ascii.compare x y) eqn:Exy; try discriminate;
    destruct (Ascii.compare y z) eqn:Eyz; try discriminate; intros Hab Hbc.
  - apply Ascii.compare_eq_iff in Exy. apply Ascii.compare_eq_iff in Eyz. subst.
    rewrite ascii_compare_refl. now apply (IH b c).
  - apply Ascii.compare_eq_iff in Exy. subst. now rewrite Eyz.
  - apply Ascii.compare_eq_iff in Eyz. subst. now rewrite Exy.
  - now rewrite (ascii_compare_lt_trans x y z Exy Eyz).
Qed.

Lemma string_leb_trans (a b c : string) :
  String.leb a b = true -> String.leb b c = true -> String.leb a c = true.
Proof.
  unfold String.leb.
  destruct (String.compare a b) eqn:Eab; try discriminate;
    destruct (String.compare b c) eqn:Ebc; try discriminate; intros _ _.
  - apply String.compare_eq_iff in Eab. subst. now rewrite Ebc.
  - apply String.compare_eq_iff in Eab. subst. now rewrite Ebc.
  - apply String.compare_eq_iff in Ebc. subst. now rewrite Eab.
  - now rewrite (string_compare_lt_trans a b c Eab Ebc).
Qed.

Lemma string_ltb_false_leb (a b : string) :
  String.ltb a b = false <-> String.leb b a = true.
Proof.
  unfold String.ltb, String.leb. rewrite (String.compare_antisym a b).
  destruct (String.compare b a); simpl; split; congruence.
Qed.

(** [notBefore a b]: [b] does not have to come before [a]. *)
Lemma less_false_iff (a b : fileData) :
  less b a = false <->
  (isReadme b = true -> isReadme a = true)
  /\ (isReadme a = isReadme b -> String.leb (path a) (path b) = true).
Proof.
  unfold less. rewrite <- string_ltb_false_leb.
  destruct (isReadme a), (isReadme b); simpl; intuition congruence.
Qed.

Lemma less_asym (a b : fileData) : less a b = true -> less b a = false.
Proof.
  unfold less.
  destruct (isReadme a), (isReadme b); simpl; try congruence.
  - intros H. apply string_ltb_false_leb. unfold String.ltb in H. unfold String.leb.
    destruct (String.compare a.(path) b.(path)); congruence.
  - intros H. apply string_ltb_false_leb. unfold String.ltb in H. unfold String.leb.
    destruct (String.compare a.(path) b.(path)); congruence.
Qed.

Lemma less_false_trans (a b c : fileData) :
  less b a = false -> less c b = false -> less c a = false.
Proof.
  rewrite !less_false_iff. intros [H1 H2] [H3 H4]. split.
  - auto.
  - intros E. destruct (isReadme a) eqn:Ea, (isReadme b) eqn:Eb, (isReadme c) eqn:Ec;
      try discriminate; try (discriminate (H1 eq_refl)); try (discriminate (H3 eq_refl));
        apply (string_leb_trans _ (path b)); auto.
Qed.

Section SortFacts.
Context {A : Type}.
Variable lessA : A -> A -> bool.
Hypothesis lessA_asym : forall a b, lessA a b = true -> lessA b a = false.
Hypothesis lessA_false_trans : forall a b c,
    lessA b a = false -> lessA c b = false -> lessA c a = false.

Let notBefore (a b : A) : Prop := lessA b a = false.

Lemma insert_Permutation x l : Permutation (x :: l) (GoSort.insert lessA x l).
Proof.
  induction l as [|y l IH]; simpl; [reflexivity|].
  destruct (lessA x y); [reflexivity|].
  rewrite perm_swap. now constructor.
Qed.

Lemma Slice_Permutation l : Permutation l (GoSort.Slice lessA l).
Proof.
  induction l as [|x l IH]; simpl; [reflexivity|].
  rewrite <- insert_Permutation. now constructor.
Qed.

Lemma insert_sorted x l :
  StronglySorted notBefore l -> StronglySorted notBefore (GoSort.insert lessA x l).
Proof.
  induction 1 as [|y l Hl IH Hy]; simpl.
  - repeat constructor.
  - destruct (lessA x y) eqn:Exy.
    + constructor; [now constructor|].
      constructor; [now apply lessA_asym|].
      rewrite Forall_forall in *. intros z Hz. specialize (Hy z Hz).
      apply (lessA_false_trans x y z); [now apply lessA_asym | exact Hy].
    + constructor; [exact IH|].
      rewrite Forall_forall in *. intros z Hz.
      apply (Permutation_in _ (Permutation_sym (insert_Permutation x l))) in Hz.
      destruct Hz as [<-|Hz]; [exact Exy | now apply Hy].
Qed.

Lemma Slice_sorted l : StronglySorted notBefore (GoSort.Slice lessA l).
Proof.
  induction l as [|x l IH]; simpl; [constructor | now apply insert_sorted].
Qed.


End SortFacts.



(** ** The content in the output *)

Lemma EscapeText_escaped b s : GoXml.EscapeText b s = b ++ escaped s.
Proof. reflexivity. Qed.

Lemma joinBlocks_cons (block : string) (blocks : list string) :
  joinBlocks (block :: blocks) = block ++ joinBlocks blocks.
Proof. reflexivity. Qed.

Lemma main_buildMarkdown_blocks : forall files b prependPath,
    Main.buildMarkdown b files prependPath
    = b ++ joinBlocks (map (main_markdownBlock prependPath) files).
Proof.
  induction files as [|file files IH]; intros b prependPath.
  - simpl. now rewrite append_nil_r.
  - cbn [Main.buildMarkdown map]. rewrite joinBlocks_cons. cbv zeta. rewrite IH.
    generalize (joinBlocks (map (main_markdownBlock prependPath) files)).
    intros rest.
    unfold main_markdownBlock, markdownBody, forcedNewline, markdownHeader,
    markdownClose.
    destruct (lastByte (content file)) as [c|];
      [destruct (Ascii.eqb c "010"%char)|];
      rewrite ?append_assoc; reflexivity.
Qed.

Lemma part000_buildMarkdown_blocks : forall files b,
    Part000.buildMarkdown b files
    = b ++ joinBlocks (map part000_markdownBlock files).
Proof.
  induction files as [|file files IH]; intros b.
  - simpl. now rewrite append_nil_r.
  - cbn [Part000.buildMarkdown map]. rewrite joinBlocks_cons. cbv zeta. rewrite IH.
    generalize (joinBlocks (map part000_markdownBlock files)). intros rest.
    unfold part000_markdownBlock, markdownHeader, markdownClose.
    rewrite ?append_assoc. reflexivity.
Qed.

Lemma main_buildStandardText_blocks : forall files b prependPath,
    Main.buildStandardText b files prependPath
    = b ++ joinBlocks (map (main_textBlock prependPath) files).
Proof.
  induction files as [|file files IH]; intros b prependPath.
  - simpl. now rewrite append_nil_r.
  - cbn [Main.buildStandardText map]. rewrite joinBlocks_cons. cbv zeta. rewrite IH.
    generalize (joinBlocks (map (main_textBlock prependPath) files)). intros rest.
    unfold main_textBlock. rewrite ?append_assoc. reflexivity.
Qed.

Lemma main_buildClaudeXMLLoop_blocks : forall files b prependPath,
    Main.buildClaudeXMLLoop b files prependPath
    = b ++ joinBlocks (map (main_documentBlock prependPath) files).
Proof.
  induction files as [|file files IH]; intros b prependPath.
  - simpl. now rewrite append_nil_r.
  - cbn [Main.buildClaudeXMLLoop map]. rewrite joinBlocks_cons. cbv zeta. rewrite IH.
    generalize (joinBlocks (map (main_documentBlock prependPath) files)). intros rest.
    unfold main_documentBlock. rewrite !EscapeText_escaped.
    rewrite ?append_assoc. reflexivity.
Qed.

Lemma main_buildClaudeXML_blocks files b prependPath :
    Main.buildClaudeXML b files prependPath
    = b ++ ("<documents>" ++ newline)
        ++ joinBlocks (map (main_documentBlock prependPath) files)
        ++ ("</documents>" ++ newline).
Proof.
  unfold Main.buildClaudeXML. rewrite main_buildClaudeXMLLoop_blocks.
  rewrite ?append_assoc. reflexivity.
Qed.

Lemma stripNewline_append (s : string) : stripNewline (s ++ newline) = s.
Proof.
  induction s as [|c s IH]; [reflexivity|].
  simpl. rewrite IH. destruct s; reflexivity.
Qed.

Lemma lastByte_None (s : string) : lastByte s = None -> s = EmptyString.
Proof.
  induction s as [|c s IH]; [reflexivity|]. simpl.
  destruct s; [discriminate|]. intros H. specialize (IH H). discriminate.
Qed.

(** *** Unescaping what [EscapeText] writes *)

Lemma unescapeFrom_skip : forall u skip rest,
    String.length u = skip -> unescapeFrom skip (u ++ rest) = unescapeFrom 0 rest.
Proof.
  induction u as [|c u IH]; intros skip rest Hlen; simpl in *.
  - now subst.
  - subst skip. now apply IH.
Qed.

Lemma unescape_entity ref char rest :
  In (ref, char) xmlEntities -> unescape (ref ++ rest) = String char (unescape rest).
Proof.
  unfold unescape. intros Hin. simpl in Hin.
  repeat (destruct Hin as [Hin|Hin]; [inversion Hin; subst; reflexivity|]).
  contradiction.
Qed.

Lemma entityAt_plain c rest :
  Ascii.eqb c "&"%char = false -> entityAt xmlEntities (String c rest) = None.
Proof.
  intros H. rewrite Ascii.eqb_sym in H. unfold xmlEntities.
  cbn [entityAt GoStrings.HasPrefix]. rewrite !H. reflexivity.
Qed.

Lemma unescape_plain : forall u rest,
    all (fun c => negb (Ascii.eqb c "&"%char)) u = true ->
    unescape (u ++ rest) = u ++ unescape rest.
Proof.
  unfold unescape. induction u as [|c u IH]; intros rest Hu; [reflexivity|].
  simpl in Hu. apply andb_prop in Hu. destruct Hu as [Hc Hu].
  apply negb_true_iff in Hc.
  cbn [String.append unescapeFrom]. rewrite (entityAt_plain c _ Hc).
  now rewrite IH.
Qed.

Ltac entity_in := simpl; repeat (first [left; reflexivity | right]).

Lemma escapeLoop_roundtrip : forall fuel s,
    (String.length s <= fuel)%nat ->
    xmlTextLoop fuel s = true ->
    unescape (GoXml.escapeLoop fuel s) = s.
Proof.
  induction fuel as [|fuel IH]; intros s Hlen Hx.
  - destruct s; [reflexivity | simpl in Hlen; lia].
  - destruct s as [|c0 t]; [reflexivity|].
    cbn [GoXml.escapeLoop xmlTextLoop] in *.
    pose proof (DecodeRune_shape c0 t) as Hshape. cbv zeta in Hshape.
    destruct (GoUtf8.DecodeRuneInString (String c0 t)) as [r w].
    apply andb_prop in Hx. destruct Hx as [Hx Hrest].
    apply andb_prop in Hx. destruct Hx as [Hrange Hvalid].
    assert (Hnext : unescape (GoXml.escapeLoop fuel (drop w (String c0 t)))
                    = drop w (String c0 t)).
    { apply IH; [|exact Hrest]. rewrite length_drop.
      cbn [String.length] in *.
      destruct Hshape as [[-> _] | [Hw _]]; lia. }
    destruct Hshape as [[-> [[Hlow ->] | [Hhigh ->]]] | [Hw [_ [Hall Hge]]]].
    + (* an ASCII byte *)
      unfold GoXml.escapeOf.
      repeat match goal with
             | |- context [(byteval c0 =? ?k)%N] =>
               destruct (N.eqb_spec (byteval c0) k) as [E|?];
                 [erewrite unescape_entity by entity_in; rewrite Hnext;
                  cbn [drop]; f_equal; symmetry; apply byteval_inj; exact E|]
             end.
      rewrite Hrange. apply negb_true_iff in Hvalid.
      rewrite Hvalid. cbn [negb orb].
      rewrite unescape_plain; [rewrite Hnext; apply take_drop|].
      simpl. rewrite andb_true_r. apply negb_true_iff.
      destruct (Ascii.eqb_spec c0 "&"%char) as [->|]; [|reflexivity].
      exfalso.
      match goal with
      | H : byteval _ <> _ |- _ => solve [apply H; reflexivity]
      end.
    + (* an invalid byte *)
      simpl in Hvalid. discriminate.
    + (* a sequence of several bytes *)
      unfold GoXml.escapeOf.
      repeat match goal with
             | |- context [(r =? ?k)%N] =>
               destruct (N.eqb_spec r k) as [?|_]; [exfalso; lia|]
             end.
      rewrite Hrange. apply negb_true_iff in Hvalid.
      rewrite Hvalid. cbn [negb orb].
      rewrite unescape_plain; [rewrite Hnext; apply take_drop|].
      revert Hall. apply all_impl. intros c Hc. apply N.leb_le in Hc.
      apply negb_true_iff.
      destruct (Ascii.eqb_spec c "&"%char) as [->|]; [|reflexivity].
      exfalso. vm_compute in Hc. congruence.
Qed.

Lemma part001_buildMarkdown_blocks : forall files b prependPath,
    Part001.buildMarkdown b files prependPath
    = b ++ joinBlocks (map (part001_markdownBlock prependPath) files).
Proof.
  induction files as [|file files IH]; intros b prependPath.
  - simpl. now rewrite append_nil_r.
  - cbn [Part001.buildMarkdown map]. rewrite joinBlocks_cons. cbv zeta. rewrite IH.
    generalize (joinBlocks (map (part001_markdownBlock prependPath) files)).
    intros rest.
    unfold part001_markdownBlock, markdownBody, forcedNewline, markdownHeader,
    markdownClose.
    destruct (lastByte (content file)) as [c|];
      [destruct (Ascii.eqb c "010"%char)|];
      rewrite ?append_assoc; reflexivity.
Qed.

Lemma escapeLoop_fuel : forall fuel1 fuel2 s,
    (String.length s <= fuel1)%nat -> (String.length s <= fuel2)%nat ->
    GoXml.escapeLoop fuel1 s = GoXml.escapeLoop fuel2 s.
Proof.
  induction fuel1 as [|fuel1 IH]; intros fuel2 s H1 H2.
  - destruct s; [now destruct fuel2 | cbn [String.length] in H1; lia].
  - destruct s as [|c0 t]; [now destruct fuel2|].
    destruct fuel2 as [|fuel2]; [cbn [String.length] in H2; lia|].
    cbn [GoXml.escapeLoop].
    pose proof (DecodeRune_width c0 t) as Hw.
    destruct (GoUtf8.DecodeRuneInString (String c0 t)) as [r w]. cbn [snd] in Hw.
    assert (E : GoXml.escapeLoop fuel1 (drop w (String c0 t))
                = GoXml.escapeLoop fuel2 (drop w (String c0 t))).
    { apply IH; rewrite length_drop; cbn [String.length] in *; lia. }
    now rewrite E.
Qed.

Lemma escaped_step c0 t :
  escaped (String c0 t)
  = (match GoXml.escapeOf (fst (GoUtf8.DecodeRuneInString (String c0 t)))
                          (snd (GoUtf8.DecodeRuneInString (String c0 t))) with
     | Some esc => esc
     | None => take (snd (GoUtf8.DecodeRuneInString (String c0 t))) (String c0 t)
     end)
    ++ escaped (drop (snd (GoUtf8.DecodeRuneInString (String c0 t))) (String c0 t)).
Proof.
  unfold escaped, GoXml.EscapeText. cbn [String.append String.length GoXml.escapeLoop].
  pose proof (DecodeRune_width c0 t) as Hw.
  destruct (GoUtf8.DecodeRuneInString (String c0 t)) as [r w]. cbn [fst snd] in *.
  assert (E : GoXml.escapeLoop (String.length t) (drop w (String c0 t))
              = GoXml.escapeLoop (String.length (drop w (String c0 t)))
                                 (drop w (String c0 t))).
  { apply escapeLoop_fuel; rewrite ?length_drop; cbn [String.length]; lia. }
  rewrite E. now destruct (GoXml.escapeOf r w).
Qed.

Lemma escapeOf_replaced r w :
  GoXml.isInCharacterRange r = false \/ (r = GoUtf8.RuneError /\ w = 1%nat) ->
  GoXml.escapeOf r w = Some GoXml.escFFFD.
Proof.
  intros H. unfold GoXml.escapeOf.
  assert (Hk : forall k, GoXml.isInCharacterRange k = true ->
                         k <> GoUtf8.RuneError -> (r =? k)%N = false).
  { intros k Hk1 Hk2. apply N.eqb_neq. intros ->.
    destruct H as [H|[H _]]; congruence. }
  rewrite !Hk by (try reflexivity; discriminate).
  destruct H as [->|[-> ->]]; reflexivity.
Qed.

(** C7 (corrected).  Each builder writes the files one after the other,
    each as a block of its own.  In the Markdown of
    [src/unnamed/part_000] the text between the fence lines is the
    content and one newline, so that removing that newline gives the
    content back.  In the Markdown of [src/main.go] and of
    [src/unnamed/part_001] the text between the fence lines is the
    content itself when the content is empty or ends in a newline, and
    the content and one newline otherwise; in the second case removing
    that newline gives the content back.  In the XML the character data
    of a file is its escaped content, and unescaping it gives the content
    back when the content is valid UTF-8 made of characters in the range
    of XML; in the place of a byte that is not part of a valid encoding,
    and of a character outside that range, the escaped content holds the
    three bytes of U+FFFD. *)
Theorem content_in_the_output :
  (forall files b prependPath,
      Main.buildMarkdown b files prependPath
      = b ++ joinBlocks (map (main_markdownBlock prependPath) files))
  /\ (forall content,
         content = EmptyString \/ lastByte content = Some "010"%char ->
         markdownBody content = content)
  /\ (forall content,
         content <> EmptyString -> lastByte content <> Some "010"%char ->
         markdownBody content = content ++ newline
         /\ stripNewline (markdownBody content) = content)
  /\ (forall files b,
         Part000.buildMarkdown b files
         = b ++ joinBlocks (map part000_markdownBlock files))
  /\ (forall content, stripNewline (content ++ newline) = content)
  /\ (forall files b prependPath,
         Main.buildClaudeXML b files prependPath
         = b ++ ("<documents>" ++ newline)
             ++ joinBlocks (map (main_documentBlock prependPath) files)
             ++ ("</documents>" ++ newline))
  /\ (forall content, xmlText content = true -> unescape (escaped content) = content)
  /\ (forall files b prependPath,
         Part001.buildMarkdown b files prependPath
         = b ++ joinBlocks (map (part001_markdownBlock prependPath) files))
  /\ (forall c0 t,
         let s := String c0 t in
         let r := fst (GoUtf8.DecodeRuneInString s) in
         let width := snd (GoUtf8.DecodeRuneInString s) in
         GoXml.isInCharacterRange r = false
         \/ (r = GoUtf8.RuneError /\ width = 1%nat) ->
         escaped s = GoXml.escFFFD ++ escaped (drop width s)).
Proof.
  split; [exact main_buildMarkdown_blocks|].
  split; [|split; [|split; [exact part000_buildMarkdown_blocks|]]].
  - intros content [->|H]; [reflexivity|].
    unfold markdownBody, forcedNewline. rewrite H. simpl. apply append_nil_r.
  - intros content Hne Hlast.
    assert (E : markdownBody content = content ++ newline).
    { unfold markdownBody, forcedNewline.
      destruct (lastByte content) as [c|] eqn:Hl.
      - destruct (Ascii.eqb_spec c "010"%char) as [->|]; [congruence|reflexivity].
      - apply lastByte_None in Hl. congruence. }
    split; [exact E|]. rewrite E. apply stripNewline_append.
  - split; [exact stripNewline_append|].
    split; [exact main_buildClaudeXML_blocks|].
    split; [|split; [exact part001_buildMarkdown_blocks|]].
    + intros content Hx. unfold escaped, GoXml.EscapeText. simpl String.append.
      apply escapeLoop_roundtrip; [lia | exact Hx].
    + intros c0 t s r width H. subst s r width.
      rewrite escaped_step at 1. now rewrite (escapeOf_replaced _ _ H).
Qed.

(** The contents [abc] and [abc] with a final newline give the same
    Markdown, and the byte 0 and the bytes of U+FFFD the same escaped
    text: no reversal gives back every content. *)
Lemma output_does_not_determine_content :
  ~ (exists reverse : string -> string,
        forall file, reverse (Main.buildMarkdown EmptyString [file] EmptyString)
                     = content file)
  /\ ~ (exists reverse : string -> string,
           forall content, reverse (GoXml.EscapeText EmptyString content) = content).
Proof.
  split; intros [reverse H].
  - pose proof (H (mkFileData "a.txt" "abc")) as H1.
    pose proof (H (mkFileData "a.txt" ("abc" ++ newline))) as H2.
    assert (E : Main.buildMarkdown EmptyString [mkFileData "a.txt" "abc"] EmptyString
                = Main.buildMarkdown EmptyString [mkFileData "a.txt" ("abc" ++ newline)]
                                     EmptyString) by reflexivity.
    rewrite E, H2 in H1. discriminate H1.
  - pose proof (H (String "000" EmptyString)) as H1.
    pose proof (H GoXml.escFFFD) as H2.
    assert (E : GoXml.EscapeText EmptyString (String "000" EmptyString)
                = GoXml.EscapeText EmptyString GoXml.escFFFD) by reflexivity.
    rewrite E, H2 in H1. discriminate H1.
Qed.

Lemma content_in_the_output_witness :
  markdownBody ("abc" ++ newline) = "abc" ++ newline
  /\ stripNewline (markdownBody "abc") = "abc"
  /\ unescape (escaped "if a < b && c > 0 { s = 'x' }") = "if a < b && c > 0 { s = 'x' }".
Proof.
  destruct content_in_the_output as [_ [H2 [H3 [_ [_ [_ [H7 _]]]]]]].
  split; [|split].
  - apply (H2 ("abc" ++ newline)). right. reflexivity.
  - apply (H3 "abc"); discriminate.
  - apply (H7 "if a < b && c > 0 { s = 'x' }"). reflexivity.
Defined.

(** ** Scenarios *)

(** A source, a readme and a dependency directory, with the default
    flags: the readme and the source are collected, in this order, and
    nothing of [node_modules] is read or reported. *)
Example scenario_defaults :
  let st := fst (WalkDir (Main.walkFn Sample.main_defaults) (Found Sample.scenario)
                         Main.initial) in
  GoSort.Slice less (Main.files st)
  = [mkFileData "README.md" "# hi"; mkFileData "a.go" "package a"]
  /\ Main.skippedFiles st = []
  /\ Main.syscalls st = [InfoCall "README.md"; ReadFileCall "README.md";
                         InfoCall "a.go"; ReadFileCall "a.go"].
Proof. repeat split. Qed.

(** With [-e "*.test.go"] only [a.go] of [a.go] and [a.test.go] is
    collected. *)
Example scenario_exclude :
  let cfg := Main.mkConfig 25 false false EmptyString [] ["*.test.go"] [] in
  let d := Dir "work" None [File "a.go" true (Some 9%Z) (Some "package a");
                            File "a.test.go" true (Some 9%Z) (Some "package a")] in
  let st := fst (WalkDir (Main.walkFn cfg) (Found d) Main.initial) in
  Main.files st = [mkFileData "a.go" "package a"]
  /\ Main.skippedFiles st = ["a.test.go (excluded by pattern)"].
Proof. repeat split. Qed.

(** The Markdown and the XML of one file. *)
Example scenario_markdown :
  Main.buildMarkdown EmptyString [mkFileData "a.go" "package a"] EmptyString
  = "```go path=a.go" ++ newline ++ "package a" ++ newline ++ "```" ++ newline ++ newline.
Proof. reflexivity. Qed.

Example scenario_xml :
  Main.buildClaudeXML EmptyString [mkFileData "a.go" "if a < b {}"] "src/"
  = "<documents>" ++ newline
    ++ "  <document path=" ++ GoFmt.dquote ++ "src/a.go" ++ GoFmt.dquote ++ ">" ++ newline
    ++ "    <content>if a &lt; b {}</content>" ++ newline
    ++ "  </document>" ++ newline
    ++ "</documents>" ++ newline.
Proof. reflexivity. Qed.

(** * Further properties *)

(** ** The arguments of the command line *)

Lemma Interleave_In {A : Type} (l1 l2 l : list A) :
  Interleave l1 l2 l -> forall x, In x l <-> In x l1 \/ In x l2.
Proof.
  induction 1 as [|y l1 l2 l _ IH|y l1 l2 l _ IH]; intros x; simpl.
  - tauto.
  - rewrite IH. tauto.
  - rewrite IH. tauto.
Qed.

Lemma Interleave_length {A : Type} (l1 l2 l : list A) :
  Interleave l1 l2 l -> List.length l = (List.length l1 + List.length l2)%nat.
Proof. induction 1; simpl; lia. Qed.

Lemma splitArgs_spec flags : forall n args,
    (List.length args <= n)%nat ->
    Interleave (fst (splitArgs flags args)) (snd (splitArgs flags args)) args
    /\ Forall (fun arg => GoStrings.HasPrefix arg "-" = false)
              (snd (splitArgs flags args)).
Proof.
  induction n as [|n IH]; intros args Hlen.
  - destruct args; [|simpl in Hlen; lia]. simpl. split; constructor.
  - destruct args as [|arg rest]; [simpl; split; constructor|].
    simpl in Hlen. cbn [splitArgs].
    destruct (GoStrings.HasPrefix arg "-") eqn:Hdash; cbn [negb].
    + destruct rest as [|next rest'].
      * simpl. split; repeat constructor.
      * destruct (expectsValue flags arg && negb (GoStrings.HasPrefix next "-")).
        -- destruct (IH rest') as [Hi Hp]; [simpl in Hlen; lia|].
           destruct (splitArgs flags rest') as [f p]. simpl in *.
           split; [now repeat constructor | exact Hp].
        -- destruct (IH (next :: rest')) as [Hi Hp]; [simpl in *; lia|].
           destruct (splitArgs flags (next :: rest')) as [f p]. simpl in *.
           split; [now constructor | exact Hp].
    + destruct (IH rest) as [Hi Hp]; [lia|].
      destruct (splitArgs flags rest) as [f p]. simpl in *.
      split; [now constructor | now constructor].
Qed.

(** X1.  Whatever the flag set and the arguments: the loop puts every
    argument into exactly one of [flagArgs] and [positionalArgs], and
    keeps the order of the arguments in both; no positional argument
    begins with a dash, so that every argument that does is among the
    flag arguments. *)
Theorem arguments_are_partitioned :
  forall flags args,
    let flagArgs := fst (splitArgs flags args) in
    let positionalArgs := snd (splitArgs flags args) in
    Interleave flagArgs positionalArgs args
    /\ List.length args = (List.length flagArgs + List.length positionalArgs)%nat
    /\ Forall (fun arg => GoStrings.HasPrefix arg "-" = false) positionalArgs
    /\ (forall arg, In arg args -> GoStrings.HasPrefix arg "-" = true ->
                    In arg flagArgs).
Proof.
  intros flags args flagArgs positionalArgs.
  destruct (splitArgs_spec flags (List.length args) args (le_n _)) as [Hi Hp].
  fold flagArgs positionalArgs in Hi, Hp.
  split; [exact Hi|]. split; [now apply Interleave_length|]. split; [exact Hp|].
  intros arg Hin Hdash. apply (Interleave_In _ _ _ Hi) in Hin.
  destruct Hin as [Hin|Hin]; [exact Hin|].
  rewrite Forall_forall in Hp. rewrite (Hp arg Hin) in Hdash. discriminate.
Qed.

Lemma arguments_are_partitioned_witness :
  In "-m" (fst (splitArgs main_flagSet ["dir"; "-s"; "50"; "-m"])).
Proof.
  apply (proj2 (proj2 (proj2 (arguments_are_partitioned
                                main_flagSet ["dir"; "-s"; "50"; "-m"]))) "-m").
  - right. right. right. left. reflexivity.
  - reflexivity.
Defined.

(** X2.  When no argument with a leading dash is a flag that expects a
    value (each is a boolean flag, an unknown one, or of the form
    [-name=value]), the loop is the plain separation by the leading
    dash: the positional arguments are the arguments without dash,
    wherever they stand among the flags and whatever they are called. *)
Theorem arguments_without_value_flags :
  forall flags args,
    Forall (fun arg => GoStrings.HasPrefix arg "-" = true ->
                       expectsValue flags arg = false) args ->
    splitArgs flags args
    = (filter (fun arg => GoStrings.HasPrefix arg "-") args,
       filter (fun arg => negb (GoStrings.HasPrefix arg "-")) args).
Proof.
  intros flags args. induction 1 as [|arg rest Harg _ IH]; [reflexivity|].
  cbn [splitArgs filter].
  destruct (GoStrings.HasPrefix arg "-"); cbn [negb].
  - rewrite (Harg eq_refl). cbn [andb].
    destruct rest as [|next rest']; [reflexivity|]. now rewrite IH.
  - now rewrite IH.
Qed.

Lemma arguments_without_value_flags_witness :
  splitArgs main_flagSet ["-m"; "s"; "-p=out"; "-c"]
  = (["-m"; "-p=out"; "-c"], ["s"]).
Proof.
  apply (arguments_without_value_flags main_flagSet ["-m"; "s"; "-p=out"; "-c"]).
  repeat (apply Forall_cons; [intros H; first [reflexivity | discriminate H]|]).
  apply Forall_nil.
Defined.

Lemma arguments_without_value_flags_aux flags positionalArgs :
  Forall (fun arg => GoStrings.HasPrefix arg "-" = false) positionalArgs ->
  splitArgs flags positionalArgs = ([], positionalArgs).
Proof.
  induction 1 as [|arg rest Harg _ IH]; [reflexivity|].
  cbn [splitArgs]. rewrite Harg. cbn [negb]. now rewrite IH.
Qed.

Lemma splitArgs_dash_first flags arg rest :
  GoStrings.HasPrefix arg "-" = true ->
  exists more, fst (splitArgs flags (arg :: rest)) = arg :: more.
Proof.
  intros Hdash. cbn [splitArgs]. rewrite Hdash. cbn [negb].
  destruct rest as [|next rest']; [now exists []|].
  destruct (expectsValue flags arg && negb (GoStrings.HasPrefix next "-")).
  - destruct (splitArgs flags rest') as [f p]. simpl. now eexists.
  - destruct (splitArgs flags (next :: rest')) as [f p]. simpl. now eexists.
Qed.

Lemma splitArgs_again flags : forall n args,
    (List.length args <= n)%nat ->
    splitArgs flags (fst (splitArgs flags args)) = (fst (splitArgs flags args), []).
Proof.
  induction n as [|n IH]; intros args Hlen.
  - destruct args; [reflexivity | simpl in Hlen; lia].
  - destruct args as [|arg rest]; [reflexivity|].
    simpl in Hlen. cbn [splitArgs].
    destruct (GoStrings.HasPrefix arg "-") eqn:Hdash; cbn [negb].
    + destruct rest as [|next rest'].
      * cbn [fst splitArgs]. now rewrite Hdash.
      * destruct (expectsValue flags arg) eqn:Hval;
          destruct (GoStrings.HasPrefix next "-") eqn:Hnext; cbn [andb negb].
        -- pose proof (IH (next :: rest') ltac:(cbn [List.length] in *; lia)) as Hrec.
           destruct (splitArgs_dash_first flags next rest' Hnext) as [more Hmore].
           destruct (splitArgs flags (next :: rest')) as [f p]. cbn [fst snd] in *.
           subst f. cbn [splitArgs]. rewrite Hdash, Hval, Hnext. cbn [andb negb].
           cbn [splitArgs] in Hrec. rewrite Hnext in Hrec. cbn [negb] in Hrec.
           now rewrite Hrec.
        -- pose proof (IH rest' ltac:(cbn [List.length] in *; lia)) as Hrec.
           destruct (splitArgs flags rest') as [f p]. cbn [fst snd] in *.
           cbn [splitArgs]. rewrite Hdash, Hval, Hnext. cbn [andb negb].
           now rewrite Hrec.
        -- pose proof (IH (next :: rest') ltac:(cbn [List.length] in *; lia)) as Hrec.
           destruct (splitArgs flags (next :: rest')) as [f p]. cbn [fst snd] in *.
           cbn [splitArgs]. rewrite Hdash, Hval. cbn [andb negb].
           destruct f; [reflexivity | now rewrite Hrec].
        -- pose proof (IH (next :: rest') ltac:(cbn [List.length] in *; lia)) as Hrec.
           destruct (splitArgs flags (next :: rest')) as [f p]. cbn [fst snd] in *.
           cbn [splitArgs]. rewrite Hdash, Hval. cbn [andb negb].
           destruct f; [reflexivity | now rewrite Hrec].
    + pose proof (IH rest ltac:(lia)) as Hrec.
      destruct (splitArgs flags rest) as [f p]. exact Hrec.
Qed.

(** X3.  The flag arguments hold nothing but flags and the values the
    loop gave them, each value right after its flag: separating the flag
    arguments again leaves them as they are and finds no positional
    argument among them; separating the positional arguments finds no
    flag. *)
Theorem flag_arguments_hold_no_positional :
  forall flags args,
    let flagArgs := fst (splitArgs flags args) in
    let positionalArgs := snd (splitArgs flags args) in
    splitArgs flags flagArgs = (flagArgs, [])
    /\ splitArgs flags positionalArgs = ([], positionalArgs).
Proof.
  intros flags args flagArgs positionalArgs. split.
  - apply (splitArgs_again flags (List.length args) args (le_n _)).
  - destruct (splitArgs_spec flags (List.length args) args (le_n _)) as [_ Hp].
    fold positionalArgs in Hp. clearbody positionalArgs.
    rewrite arguments_without_value_flags_aux by exact Hp. reflexivity.
Qed.

(** ** The output formats *)

Lemma escapeOf_markupFree r width esc :
  GoXml.escapeOf r width = Some esc -> all markupFree esc = true.
Proof.
  unfold GoXml.escapeOf.
  repeat match goal with
         | |- context [if ?b then _ else _] => destruct b
         end; intros E; inversion E; reflexivity.
Qed.

Lemma high_byte_markupFree (c : ascii) :
  (0x80 <=? byteval c)%N = true -> markupFree c = true.
Proof.
  intros H. apply N.leb_le in H. unfold markupFree.
  repeat match goal with
         | |- context [Ascii.eqb c ?k] =>
           destruct (Ascii.eqb_spec c k) as [->|_];
             [vm_compute in H; now contradiction H|]
         end.
  reflexivity.
Qed.

Lemma escapeLoop_markupFree : forall fuel s,
    all markupFree (GoXml.escapeLoop fuel s) = true.
Proof.
  induction fuel as [|fuel IH]; intros s; [reflexivity|].
  destruct s as [|c0 t]; [reflexivity|]. cbn [GoXml.escapeLoop].
  pose proof (DecodeRune_shape c0 t) as Hshape. cbv zeta in Hshape.
  destruct (GoUtf8.DecodeRuneInString (String c0 t)) as [r w].
  destruct (GoXml.escapeOf r w) as [esc|] eqn:Hesc; rewrite all_append, IH.
  - now rewrite (escapeOf_markupFree _ _ _ Hesc).
  - rewrite andb_true_r.
    destruct Hshape as [[-> [[Hlow ->] | [Hhigh ->]]] | [_ [_ [Hall _]]]].
    + simpl. rewrite andb_true_r. unfold markupFree.
      unfold GoXml.escapeOf in Hesc.
      repeat match goal with
             | |- context [Ascii.eqb c0 ?k] =>
               destruct (Ascii.eqb_spec c0 k) as [->|_]; [discriminate Hesc|]
             end.
      reflexivity.
    + simpl. rewrite andb_true_r. apply high_byte_markupFree. now apply N.leb_le.
    + revert Hall. apply all_impl. exact high_byte_markupFree.
Qed.

(** X4.  Whatever the bytes of a path or of a content are, what
    [buildClaudeXML] writes for them holds no angle bracket and no quote:
    a file cannot end the element or the attribute it is written in.
    Each document is the fixed markup around the escaped path and the
    escaped content. *)
Theorem escaped_text_holds_no_markup :
  (forall s, all markupFree (escaped s) = true)
  /\ (forall b s, GoXml.EscapeText b s = b ++ escaped s)
  /\ (forall files b prependPath,
         Main.buildClaudeXML b files prependPath
         = b ++ ("<documents>" ++ newline)
             ++ joinBlocks (map (main_documentBlock prependPath) files)
             ++ ("</documents>" ++ newline)).
Proof.
  split; [|split].
  - intros s. unfold escaped, GoXml.EscapeText. simpl String.append.
    apply escapeLoop_markupFree.
  - reflexivity.
  - exact main_buildClaudeXML_blocks.
Qed.

Lemma lastByte_append (s t : string) :
  t <> EmptyString -> lastByte (s ++ t) = lastByte t.
Proof.
  intros Ht. induction s as [|c s IH]; [reflexivity|].
  simpl. rewrite IH. destruct (s ++ t) eqn:E; [|reflexivity].
  destruct s; simpl in E; [congruence | discriminate].
Qed.

(** X5.  In the Markdown of [src/main.go] the closing fence of a file is
    always at the beginning of a line: what is written before it, the
    opening fence line and the content with the newline the builder may
    add, ends in a newline, for every content, the empty one included. *)
Theorem closing_fence_starts_a_line :
  forall file prependPath,
    exists before,
      Main.buildMarkdown EmptyString [file] prependPath = before ++ markdownClose
      /\ lastByte before = Some "010"%char.
Proof.
  intros file prependPath.
  exists (markdownHeader (Main.getLanguageHint (path file))
                         (Main.applyPrepend (path file) prependPath)
          ++ markdownBody (content file)).
  split.
  - rewrite main_buildMarkdown_blocks. cbn [map]. rewrite joinBlocks_cons.
    unfold main_markdownBlock. simpl joinBlocks.
    rewrite append_nil_r, append_assoc. reflexivity.
  - unfold markdownBody, forcedNewline.
    destruct (lastByte (content file)) as [c|] eqn:Hl.
    + destruct (Ascii.eqb_spec c "010"%char) as [->|Hc].
      * rewrite append_nil_r, lastByte_append; [exact Hl|].
        intros E. rewrite E in Hl. discriminate.
      * rewrite <- append_assoc. rewrite lastByte_append by discriminate.
        reflexivity.
    + apply lastByte_None in Hl. rewrite Hl. simpl String.append at 2.
      rewrite append_nil_r. unfold markdownHeader.
      rewrite <- !append_assoc. rewrite lastByte_append by discriminate.
      reflexivity.
Qed.

(** X6.  [buildStandardText] only appends to the builder, a block for
    each file in the order of the list, with the content as it is
    between the header and a blank line; the text for a list of files is
    the text for its first part followed by the text for the rest. *)
Theorem plain_text_is_written_blockwise :
  (forall files b prependPath,
      Main.buildStandardText b files prependPath
      = b ++ joinBlocks (map (main_textBlock prependPath) files))
  /\ (forall files1 files2 prependPath,
         Main.buildStandardText EmptyString (files1 ++ files2) prependPath
         = Main.buildStandardText EmptyString files1 prependPath
           ++ Main.buildStandardText EmptyString files2 prependPath)
  /\ (forall files prependPath,
         String.length (Main.buildStandardText EmptyString files prependPath)
         = fold_right
             (fun file n =>
                (2 * String.length Main.separator + 9
                 + String.length (Main.applyPrepend (path file) prependPath)
                 + String.length (content file) + n)%nat)
             0%nat files).
Proof.
  split; [exact main_buildStandardText_blocks|]. split.
  - intros files1 files2 prependPath. rewrite !main_buildStandardText_blocks.
    simpl String.append. rewrite map_app.
    induction files1 as [|file files1 IH]; [reflexivity|].
    cbn [map List.app]. rewrite !joinBlocks_cons, IH. now rewrite append_assoc.
  - intros files prependPath. rewrite main_buildStandardText_blocks.
    simpl String.append.
    induction files as [|file files IH]; [reflexivity|].
    cbn [map fold_right]. rewrite joinBlocks_cons, length_append, IH.
    unfold main_textBlock. rewrite !length_append. simpl. lia.
Qed.

(** ** Extensions *)

Lemma lowerByte_cases (c : ascii) :
  GoStrings.lowerByte c = c
  \/ ((65 <= byteval c <= 90)%N /\ byteval (GoStrings.lowerByte c) = (byteval c + 32)%N).
Proof.
  unfold GoStrings.lowerByte.
  destruct (N.leb_spec 65 (byteval c)); [|now left].
  destruct (N.leb_spec (byteval c) 90); [|now left].
  right. split; [lia|]. unfold byteval at 1. simpl andb. cbv iota.
  rewrite N_ascii_embedding; [reflexivity|]. lia.
Qed.

Lemma lowerByte_idem (c : ascii) :
  GoStrings.lowerByte (GoStrings.lowerByte c) = GoStrings.lowerByte c.
Proof.
  destruct (lowerByte_cases c) as [E|[Hc E]]; [now rewrite E|].
  unfold GoStrings.lowerByte at 1. rewrite E.
  destruct (N.leb_spec 65 (byteval c + 32)); [|reflexivity].
  destruct (N.leb_spec (byteval c + 32) 90); [lia | reflexivity].
Qed.

Lemma lowerByte_eqb (c k : ascii) :
  (byteval k < 65 \/ 122 < byteval k)%N ->
  Ascii.eqb (GoStrings.lowerByte c) k = Ascii.eqb c k.
Proof.
  intros Hk. destruct (lowerByte_cases c) as [E|[Hc E]]; [now rewrite E|].
  destruct (Ascii.eqb_spec (GoStrings.lowerByte c) k) as [E1|_];
    destruct (Ascii.eqb_spec c k) as [E2|_]; try reflexivity; subst; lia.
Qed.

Lemma ToLower_idem (s : string) :
  GoStrings.ToLower (GoStrings.ToLower s) = GoStrings.ToLower s.
Proof. induction s as [|c s IH]; simpl; [reflexivity|]. now rewrite lowerByte_idem, IH. Qed.

Lemma extFrom_ToLower : forall p found,
    GoStrings.ToLower (GoFilepath.extFrom p found)
    = GoFilepath.extFrom (GoStrings.ToLower p) (GoStrings.ToLower found).
Proof.
  induction p as [|c p IH]; intros found; [reflexivity|].
  cbn [GoFilepath.extFrom GoStrings.ToLower].
  unfold GoFilepath.IsPathSeparator, GoFilepath.Separator.
  rewrite !lowerByte_eqb by (vm_compute; left; reflexivity).
  destruct (Ascii.eqb c "/"%char); [apply (IH EmptyString)|].
  destruct (Ascii.eqb c "."%char); [|apply IH].
  apply (IH (String c p)).
Qed.

Lemma Ext_ToLower (p : string) :
  GoStrings.ToLower (GoFilepath.Ext p) = GoFilepath.Ext (GoStrings.ToLower p).
Proof. apply (extFrom_ToLower p EmptyString). Qed.

(** X7.  The extension of a path counts without regard to the case of
    its letters: two relative paths in ASCII that differ in case only
    are selected alike by the default extensions of [src/main.go] when
    no [-i] pattern is given, and get the same language hint. *)
Theorem extension_case_does_not_matter :
  forall cfg path1 path2,
    asciiOnly path1 = true -> asciiOnly path2 = true ->
    GoStrings.ToLower path1 = GoStrings.ToLower path2 ->
    (Main.includes cfg = [] -> Main.isIncluded cfg path1 = Main.isIncluded cfg path2)
    /\ Main.getLanguageHint path1 = Main.getLanguageHint path2.
Proof.
  intros cfg path1 path2 _ _ E.
  assert (Hext : GoStrings.ToLower (GoFilepath.Ext path1)
                 = GoStrings.ToLower (GoFilepath.Ext path2))
    by (now rewrite !Ext_ToLower, E).
  split.
  - intros Hinc. unfold Main.isIncluded. rewrite Hinc. simpl. now rewrite Hext.
  - unfold Main.getLanguageHint. now rewrite Hext.
Qed.

Lemma extension_case_does_not_matter_witness :
  Main.isIncluded Sample.main_defaults "src/Main.GO"
  = Main.isIncluded Sample.main_defaults "SRC/main.go"
  /\ Main.getLanguageHint "src/Main.GO" = Main.getLanguageHint "SRC/main.go".
Proof.
  destruct (extension_case_does_not_matter Sample.main_defaults
                                           "src/Main.GO" "SRC/main.go"
                                           eq_refl eq_refl eq_refl)
    as [H1 H2].
  split; [apply H1; reflexivity | exact H2].
Defined.

Lemma HasPrefix_dot_ToLower (s : string) :
  GoStrings.HasPrefix (GoStrings.ToLower s) "." = GoStrings.HasPrefix s ".".
Proof.
  destruct s as [|c s]; [reflexivity|].
  cbn [GoStrings.HasPrefix GoStrings.ToLower].
  rewrite (Ascii.eqb_sym "."%char (GoStrings.lowerByte c)), (Ascii.eqb_sym "."%char c).
  now rewrite lowerByte_eqb by (vm_compute; left; reflexivity).
Qed.

Lemma isExcludedExt_iff cfg fileExt :
  Part001.isExcludedExt cfg fileExt = true <->
  exists ext, In ext (Part001.excludeExts cfg)
              /\ fileExt = (if GoStrings.HasPrefix (GoStrings.ToLower ext) "."
                            then GoStrings.ToLower ext
                            else "." ++ GoStrings.ToLower ext).
Proof.
  unfold Part001.isExcludedExt, Part001.excludedExtsMap.
  rewrite existsb_exists. split.
  - intros [x [Hin Hx]]. apply String.eqb_eq in Hx. subst x.
    apply in_map_iff in Hin. destruct Hin as [ext [E Hin]].
    exists ext. split; [exact Hin | now symmetry].
  - intros [ext [Hin E]]. exists fileExt. split; [|apply String.eqb_refl].
    apply in_map_iff. exists ext. split; [now symmetry | exact Hin].
Qed.

(** X8.  In [src/unnamed/part_001] an extension given to [-xe] counts
    with or without its dot and without regard to case, for ASCII text
    (the extension of the path and the arguments of [-xe]): if [ext],
    without dot, or [.ext] is given, every regular file below the root
    that the ignore file lets pass and whose extension is [.ext] in any
    case is recorded as excluded by [-xe], without [d.Info()] being
    called.  A file without extension is never excluded by [-xe]. *)
Theorem excluded_extensions_are_normalised :
  (forall cfg ignorer rel name info data st ext,
      part001_asciiExtensions cfg rel = true ->
      GoStrings.HasPrefix ext "." = false ->
      In ext (Part001.excludeExts cfg) \/ In ("." ++ ext) (Part001.excludeExts cfg) ->
      GoStrings.ToLower (GoFilepath.Ext rel) = "." ++ GoStrings.ToLower ext ->
      rel <> "." ->
      Part001.ignored ignorer rel = false ->
      Part001.walkFn cfg ignorer rel (Some (File name true info data)) None st
      = (Part001.skip st (rel ++ " (extension excluded by -xe)"), None))
  /\ (forall cfg, Part001.isExcludedExt cfg EmptyString = false).
Proof.
  split.
  - intros cfg ignorer rel name info data st ext _ Hdot Hin Hext Hrel Hign.
    assert (Hx : Part001.isExcludedExt cfg (GoStrings.ToLower (GoFilepath.Ext rel))
                 = true).
    { apply isExcludedExt_iff. destruct Hin as [Hin|Hin].
      - exists ext. split; [exact Hin|].
        now rewrite HasPrefix_dot_ToLower, Hdot.
      - exists ("." ++ ext). split; [exact Hin|]. exact Hext. }
    apply String.eqb_neq in Hrel. unfold Part001.walkFn. rewrite Hrel.
    cbn [IsDir andb negb]. rewrite Hign. cbv zeta. now rewrite Hx.
  - intros cfg. destruct (Part001.isExcludedExt cfg EmptyString) eqn:E; [|reflexivity].
    apply isExcludedExt_iff in E. destruct E as [ext [_ E]].
    destruct (GoStrings.HasPrefix (GoStrings.ToLower ext) ".") eqn:Hp.
    + rewrite <- E in Hp. discriminate.
    + discriminate.
Qed.

Lemma excluded_extensions_are_normalised_witness :
  Part001.walkFn (Part001.mkConfig EmptyString false ["LOG"] 25 false false
                                   EmptyString false [])
                 None "out/Build.Log"
                 (Some (File "Build.Log" true (Some 9%Z) (Some "some text"))) None
                 Part001.initial
  = (Part001.mkState [] ["out/Build.Log (extension excluded by -xe)"] [], None).
Proof.
  apply (proj1 excluded_extensions_are_normalised
               (Part001.mkConfig EmptyString false ["LOG"] 25 false false
                                 EmptyString false [])
               None "out/Build.Log" "Build.Log" (Some 9%Z) (Some "some text")
               Part001.initial "LOG");
    [reflexivity | reflexivity | left; left; reflexivity | reflexivity | discriminate
     | reflexivity].
Defined.

(** ** Patterns without a class, a question mark or an escape *)

Lemma literalByte_inv c :
  literalByte c = true ->
  Ascii.eqb c "*"%char = false /\ Ascii.eqb c "?"%char = false
  /\ Ascii.eqb c "["%char = false /\ Ascii.eqb c "\"%char = false.
Proof.
  unfold literalByte. intros H.
  repeat (apply andb_prop in H; destruct H as [H ?]).
  repeat split; now apply negb_true_iff.
Qed.

Lemma skipStars_literal lit :
  all literalByte lit = true -> GoFilepath.skipStars lit = (false, lit).
Proof.
  destruct lit as [|c lit]; [reflexivity|]. intros H. cbn [all] in H.
  apply andb_prop in H. destruct H as [H _]. apply literalByte_inv in H.
  destruct H as [H _].
  destruct c as [[] [] [] [] [] [] [] []]; try reflexivity.
  vm_compute in H. discriminate H.
Qed.

Lemma scanSplit_literal : forall lit,
    all literalByte lit = true ->
    GoFilepath.scanSplit lit false = (lit, EmptyString).
Proof.
  induction lit as [|c lit IH]; intros H; [reflexivity|].
  cbn [all] in H. apply andb_prop in H. destruct H as [Hc H].
  apply literalByte_inv in Hc. destruct Hc as [H1 [H2 [H3 H4]]].
  cbn [GoFilepath.scanSplit]. rewrite H4, H3, H1, (IH H).
  now destruct (Ascii.eqb c "]"%char).
Qed.

Lemma scanSplit_literal_star : forall lit rest,
    all literalByte lit = true ->
    GoFilepath.scanSplit (lit ++ String "*" rest) false = (lit, String "*" rest).
Proof.
  induction lit as [|c lit IH]; intros rest H; [reflexivity|].
  cbn [all] in H. apply andb_prop in H. destruct H as [Hc H].
  apply literalByte_inv in Hc. destruct Hc as [H1 [H2 [H3 H4]]].
  cbn [GoFilepath.scanSplit String.append]. rewrite H4, H3, H1, (IH rest H).
  now destruct (Ascii.eqb c "]"%char).
Qed.

Lemma matchChunkLoop_literal_failed : forall lit fuel s,
    all literalByte lit = true -> (String.length lit < fuel)%nat ->
    GoFilepath.matchChunkLoop fuel lit s true = Some GoFilepath.ChunkFail.
Proof.
  induction lit as [|c lit IH]; intros fuel s H Hf;
    (destruct fuel as [|fuel]; [cbn [String.length] in Hf; lia|]); [reflexivity|].
  cbn [all] in H. apply andb_prop in H. destruct H as [Hc H].
  apply literalByte_inv in Hc. destruct Hc as [H1 [H2 [H3 H4]]].
  cbn [String.length] in Hf.
  cbn [GoFilepath.matchChunkLoop orb]. rewrite H3, H2, H4.
  destruct s; apply IH; (exact H || lia).
Qed.

Lemma matchChunkLoop_literal : forall lit fuel s,
    all literalByte lit = true -> (String.length lit < fuel)%nat ->
    GoFilepath.matchChunkLoop fuel lit s false
    = Some (if GoStrings.HasPrefix s lit
            then GoFilepath.ChunkOk (drop (String.length lit) s)
            else GoFilepath.ChunkFail).
Proof.
  induction lit as [|c lit IH]; intros fuel s H Hf;
    (destruct fuel as [|fuel]; [cbn [String.length] in Hf; lia|]); [reflexivity|].
  cbn [all] in H. apply andb_prop in H. destruct H as [Hc H].
  apply literalByte_inv in Hc. destruct Hc as [H1 [H2 [H3 H4]]].
  cbn [String.length] in Hf.
  cbn [GoFilepath.matchChunkLoop orb]. rewrite H3, H2, H4.
  destruct s as [|c0 s].
  - cbn [isEmpty GoStrings.HasPrefix].
    apply matchChunkLoop_literal_failed; [exact H | lia].
  - cbn [isEmpty GoStrings.HasPrefix String.length drop].
    destruct (Ascii.eqb c c0); cbn [negb andb].
    + apply IH; [exact H | lia].
    + apply matchChunkLoop_literal_failed; [exact H | lia].
Qed.

Lemma matchChunk_literal lit s :
  all literalByte lit = true ->
  GoFilepath.matchChunk lit s
  = Some (if GoStrings.HasPrefix s lit
          then GoFilepath.ChunkOk (drop (String.length lit) s)
          else GoFilepath.ChunkFail).
Proof.
  intros H. unfold GoFilepath.matchChunk. apply matchChunkLoop_literal; [exact H | lia].
Qed.

Lemma HasPrefix_split : forall p s,
    GoStrings.HasPrefix s p = true -> s = p ++ drop (String.length p) s.
Proof.
  induction p as [|c p IH]; intros s H; [reflexivity|].
  destruct s as [|c0 s]; [discriminate|].
  cbn [GoStrings.HasPrefix] in H. apply andb_prop in H. destruct H as [Hc H].
  apply Ascii.eqb_eq in Hc. subst c0.
  cbn [String.length drop String.append]. now rewrite <- (IH s H).
Qed.

Lemma HasPrefix_append : forall p t, GoStrings.HasPrefix (p ++ t) p = true.
Proof.
  induction p as [|c p IH]; intros t; [reflexivity|].
  cbn [String.append GoStrings.HasPrefix]. now rewrite Ascii.eqb_refl, IH.
Qed.

Lemma drop_append : forall p t, drop (String.length p) (p ++ t) = t.
Proof. induction p as [|c p IH]; intros t; [reflexivity | apply IH]. Qed.

Lemma append_eq_self : forall p t, p ++ t = p -> t = EmptyString.
Proof.
  induction p as [|c p IH]; intros t H; [exact H|].
  cbn [String.append] in H. injection H as H. now apply IH.
Qed.

Lemma Match_literal pattern name :
  all literalByte pattern = true ->
  GoFilepath.Match pattern name = (String.eqb pattern name, false).
Proof.
  intros H. unfold GoFilepath.Match.
  destruct pattern as [|c lit]; [now destruct name|].
  cbn [GoFilepath.MatchLoop]. unfold GoFilepath.scanChunk.
  rewrite (skipStars_literal _ H), (scanSplit_literal _ H).
  cbn [andb]. rewrite (matchChunk_literal _ name H).
  destruct (GoStrings.HasPrefix name (String c lit)) eqn:Hp.
  - apply HasPrefix_split in Hp.
    destruct (drop (String.length (String c lit)) name) as [|c1 t] eqn:Ht.
    + cbn [isEmpty orb negb String.length GoFilepath.MatchLoop].
      rewrite append_nil_r in Hp. subst name. now rewrite String.eqb_refl.
    + cbn [isEmpty orb negb].
      destruct (String.eqb_spec (String c lit) name) as [E|_]; [|reflexivity].
      rewrite <- E in Hp. symmetry in Hp. apply append_eq_self in Hp. discriminate.
  - destruct (String.eqb_spec (String c lit) name) as [E|_]; [|reflexivity].
    subst name. pose proof (HasPrefix_append (String c lit) EmptyString) as Hq.
    rewrite append_nil_r in Hq. congruence.
Qed.

(** X9.  A pattern of [-i] or [-e] without star, question mark, bracket
    and backslash matches the relative path equal to it and nothing else,
    without error.  So a list of such patterns matches exactly the paths
    it lists. *)
Theorem plain_pattern_matches_itself_only :
  forall patterns name,
    Forall (fun pattern => all literalByte pattern = true) patterns ->
    (forall pattern, In pattern patterns ->
                     GoFilepath.Match pattern name = (String.eqb pattern name, false))
    /\ (matchAny patterns name = true <-> In name patterns).
Proof.
  intros patterns name H. rewrite Forall_forall in H. split.
  - intros pattern Hin. apply Match_literal, H, Hin.
  - rewrite matchAny_exists. split.
    + intros [pattern [Hin Hm]]. rewrite (Match_literal _ _ (H _ Hin)) in Hm.
      cbn [fst] in Hm. apply String.eqb_eq in Hm. now subst name.
    + intros Hin. exists name. split; [exact Hin|].
      rewrite (Match_literal _ _ (H _ Hin)). cbn [fst]. apply String.eqb_refl.
Qed.

Lemma plain_pattern_matches_itself_only_witness :
  matchAny ["Makefile"; "docs/notes.txt"] "docs/notes.txt" = true
  /\ GoFilepath.Match "Makefile" "docs/Makefile" = (false, false).
Proof.
  assert (H : Forall (fun pattern => all literalByte pattern = true)
                     ["Makefile"; "docs/notes.txt"])
    by (repeat constructor).
  split.
  - apply (proj2 (plain_pattern_matches_itself_only
                    ["Makefile"; "docs/notes.txt"] "docs/notes.txt" H)).
    right. left. reflexivity.
  - apply (proj1 (plain_pattern_matches_itself_only
                    ["Makefile"; "docs/notes.txt"] "docs/Makefile" H)).
    left. reflexivity.
Defined.

Lemma starLoop_literal_cases lit : forall name,
    all literalByte lit = true ->
    GoFilepath.starLoop lit EmptyString name = Some (GoFilepath.StarFound EmptyString)
    \/ GoFilepath.starLoop lit EmptyString name = Some GoFilepath.StarNone.
Proof.
  induction name as [|c name IH]; intros H; [now right|].
  cbn [GoFilepath.starLoop].
  destruct (GoFilepath.IsPathSeparator c); [now right|].
  rewrite (matchChunk_literal _ _ H).
  destruct (GoStrings.HasPrefix name lit); [|apply IH, H].
  destruct (drop (String.length lit) name); cbn [isEmpty andb negb];
    [now left | apply IH, H].
Qed.

Lemma starLoop_literal_finds lit : forall u,
    all literalByte lit = true ->
    u <> EmptyString -> all notSeparator u = true ->
    GoFilepath.starLoop lit EmptyString (u ++ lit)
    = Some (GoFilepath.StarFound EmptyString).
Proof.
  induction u as [|c u IH]; intros H Hne Hu; [congruence|].
  cbn [all] in Hu. apply andb_prop in Hu. destruct Hu as [Hc Hu].
  unfold notSeparator in Hc. apply negb_true_iff in Hc.
  cbn [String.append GoFilepath.starLoop]. rewrite Hc.
  rewrite (matchChunk_literal _ _ H).
  destruct u as [|c1 u].
  - cbn [String.append].
    pose proof (HasPrefix_append lit EmptyString) as Hp.
    pose proof (drop_append lit EmptyString) as Hd.
    rewrite append_nil_r in Hp, Hd. now rewrite Hp, Hd.
  - assert (IH' := IH H ltac:(discriminate) Hu).
    destruct (GoStrings.HasPrefix (String c1 u ++ lit) lit); [|exact IH'].
    destruct (drop (String.length lit) (String c1 u ++ lit)); cbn [isEmpty andb negb];
      [reflexivity | exact IH'].
Qed.

Lemma all_notSeparator_ContainsByte s :
  negb (GoStrings.ContainsByte s GoFilepath.Separator) = all notSeparator s.
Proof.
  unfold GoStrings.ContainsByte. rewrite negb_involutive.
  induction s as [|c s IH]; [reflexivity|]. cbn [all]. now rewrite IH.
Qed.

(** X10.  A pattern made of a star and a text without star, question
    mark, bracket and backslash, such as [*.go], matches the relative
    paths that end with the text after a beginning, possibly empty,
    without separator, and no other; it gives no error.  So [-i "*.go"]
    selects Go files of the root directory only. *)
Theorem star_pattern_matches_one_level :
  forall lit name,
    all literalByte lit = true ->
    snd (GoFilepath.Match ("*" ++ lit) name) = false
    /\ (fst (GoFilepath.Match ("*" ++ lit) name) = true <->
        exists u, name = u ++ lit /\ all notSeparator u = true).
Proof.
  intros lit name H. unfold GoFilepath.Match.
  cbn [String.append String.length GoFilepath.MatchLoop].
  unfold GoFilepath.scanChunk. cbn [GoFilepath.skipStars].
  rewrite (skipStars_literal _ H). cbn [snd]. rewrite (scanSplit_literal _ H).
  destruct lit as [|c lit].
  { cbn [isEmpty andb fst snd]. split; [reflexivity|].
    rewrite all_notSeparator_ContainsByte. split.
    - intros Hn. exists name. now rewrite append_nil_r.
    - intros [u [E Hu]]. rewrite append_nil_r in E. now subst u. }
  cbn [isEmpty andb]. rewrite (matchChunk_literal _ name H).
  assert (Hstar :
            match GoFilepath.starLoop (String c lit) EmptyString name with
            | Some (GoFilepath.StarFound t) => Some (isEmpty t, false)
            | Some GoFilepath.StarNone => Some (false, false)
            | Some GoFilepath.StarBad => Some (false, true)
            | None => None
            end
            = Some (match GoFilepath.starLoop (String c lit) EmptyString name with
                    | Some (GoFilepath.StarFound _) => true
                    | _ => false
                    end, false)).
  { destruct (starLoop_literal_cases (String c lit) name H) as [E|E];
      rewrite E; reflexivity. }
  assert (Hiff :
            match GoFilepath.starLoop (String c lit) EmptyString name with
            | Some (GoFilepath.StarFound _) => true
            | _ => false
            end = true <->
            exists u, name = u ++ String c lit /\ all notSeparator u = true
                      /\ u <> EmptyString).
  { split.
    - destruct (GoFilepath.starLoop (String c lit) EmptyString name)
        as [[t| |]|] eqn:E; try discriminate.
      intros _. revert E. clear Hstar. revert t.
      induction name as [|c0 name IH]; intros t; [discriminate|].
      cbn [GoFilepath.starLoop].
      destruct (GoFilepath.IsPathSeparator c0) eqn:Hc; [discriminate|].
      assert (Hrec : GoFilepath.starLoop (String c lit) EmptyString name
                     = Some (GoFilepath.StarFound t) ->
                     exists u, String c0 name = u ++ String c lit
                               /\ all notSeparator u = true /\ u <> EmptyString).
      { intros E. destruct (IH t E) as [u [Hu1 [Hu2 _]]].
        exists (String c0 u). cbn [String.append all]. unfold notSeparator at 1.
        rewrite Hc, Hu2. rewrite Hu1 at 1. repeat split. discriminate. }
      rewrite (matchChunk_literal _ _ H).
      destruct (GoStrings.HasPrefix name (String c lit)) eqn:Hp; [|exact Hrec].
      apply HasPrefix_split in Hp.
      destruct (drop (String.length (String c lit)) name);
        cbn [isEmpty andb negb]; [|exact Hrec].
      intros _. rewrite append_nil_r in Hp. exists (String c0 EmptyString).
      cbn [String.append all]. unfold notSeparator. rewrite Hc.
      rewrite Hp at 1. repeat split. discriminate.
    - intros [u [E [Hu Hne]]]. subst name.
      now rewrite (starLoop_literal_finds _ u H Hne Hu). }
  destruct (GoStrings.HasPrefix name (String c lit)) eqn:Hp.
  - pose proof (HasPrefix_split _ _ Hp) as Hs.
    destruct (drop (String.length (String c lit)) name) as [|c1 t] eqn:Ht.
    + cbn [isEmpty orb negb GoFilepath.MatchLoop fst snd]. split; [reflexivity|].
      split; [|reflexivity]. intros _. exists EmptyString.
      rewrite append_nil_r in Hs. now split.
    + cbn [isEmpty orb negb]. rewrite Hstar. cbn [fst snd]. split; [reflexivity|].
      rewrite Hiff. split.
      * intros [u [E [Hu _]]]. now exists u.
      * intros [u [E Hu]]. exists u. repeat split; try assumption.
        intros ->. cbn [String.append] in E. subst name.
        pose proof (drop_append (String c lit) EmptyString) as Hd.
        rewrite append_nil_r in Hd. congruence.
  - rewrite Hstar. cbn [fst snd]. split; [reflexivity|].
    rewrite Hiff. split.
    + intros [u [E [Hu _]]]. now exists u.
    + intros [u [E Hu]]. exists u. repeat split; try assumption.
      intros ->. cbn [String.append] in E. subst name.
      pose proof (HasPrefix_append (String c lit) EmptyString) as Hq.
      rewrite append_nil_r in Hq. congruence.
Qed.

Lemma star_pattern_matches_one_level_witness :
  fst (GoFilepath.Match "*.go" "main.go") = true
  /\ snd (GoFilepath.Match "*.go" "cmd/main.go") = false.
Proof.
  split.
  - apply (proj2 (star_pattern_matches_one_level ".go" "main.go" eq_refl)).
    exists "main". split; reflexivity.
  - apply (proj1 (star_pattern_matches_one_level ".go" "cmd/main.go" eq_refl)).
Defined.

Lemma skipStars_literal_append lit rest :
  all literalByte lit = true -> lit <> EmptyString ->
  GoFilepath.skipStars (lit ++ rest) = (false, lit ++ rest).
Proof.
  destruct lit as [|c lit]; [congruence|]. intros H _. cbn [all] in H.
  apply andb_prop in H. destruct H as [H _]. apply literalByte_inv in H.
  destruct H as [H _]. cbn [String.append].
  destruct c as [[] [] [] [] [] [] [] []]; try reflexivity.
  vm_compute in H. discriminate H.
Qed.

(** X11.  A pattern made of a text without star, question mark, bracket
    and backslash followed by a star, such as [vendor/*], matches the
    relative paths that begin with the text and go on, possibly with
    nothing, without separator, and no other; it gives no error. *)
Theorem prefix_pattern_matches_one_level :
  forall lit name,
    all literalByte lit = true ->
    GoFilepath.Match (lit ++ "*") name
    = (GoStrings.HasPrefix name lit
       && all notSeparator (drop (String.length lit) name), false).
Proof.
  intros lit name H. unfold GoFilepath.Match.
  destruct lit as [|c lit].
  { cbn. now rewrite all_notSeparator_ContainsByte. }
  replace (S (String.length (String c lit ++ "*")))
    with (S (S (String.length (lit ++ "*"))))
    by (cbn [String.append String.length]; reflexivity).
  assert (Hne : String c lit ++ "*" <> EmptyString) by discriminate.
  destruct (String c lit ++ "*") as [|c0 p0] eqn:Ep; [congruence|].
  rewrite <- Ep. clear Hne.
  assert (Hstep : forall fuel,
             GoFilepath.MatchLoop (S fuel) (String c0 p0) name
             = let '(star, chunk, pattern1) := GoFilepath.scanChunk (String c0 p0) in
               if star && isEmpty chunk then
                 Some (negb (GoStrings.ContainsByte name GoFilepath.Separator), false)
               else
                 let viaStar (_ : unit) :=
                   if star then
                     match GoFilepath.starLoop chunk pattern1 name with
                     | None => None
                     | Some (GoFilepath.StarFound t) =>
                       GoFilepath.MatchLoop fuel pattern1 t
                     | Some GoFilepath.StarBad => Some (false, true)
                     | Some GoFilepath.StarNone => Some (false, false)
                     end
                   else Some (false, false) in
                 match GoFilepath.matchChunk chunk name with
                 | None => None
                 | Some (GoFilepath.ChunkOk t) =>
                   if isEmpty t || negb (isEmpty pattern1)
                   then GoFilepath.MatchLoop fuel pattern1 t
                   else viaStar tt
                 | Some GoFilepath.ChunkBad => Some (false, true)
                 | Some GoFilepath.ChunkFail => viaStar tt
                 end) by reflexivity.
  rewrite Ep at 1. rewrite Hstep. rewrite <- Ep. clear Hstep.
  unfold GoFilepath.scanChunk.
  rewrite (skipStars_literal_append _ _ H) by discriminate.
  rewrite (scanSplit_literal_star _ _ H).
  cbn [andb]. rewrite (matchChunk_literal _ name H).
  destruct (GoStrings.HasPrefix name (String c lit)); [|reflexivity].
  cbn [isEmpty negb andb]. rewrite orb_true_r.
  cbn. now rewrite all_notSeparator_ContainsByte.
Qed.

Lemma prefix_pattern_matches_one_level_witness :
  GoFilepath.Match "vendor/*" "vendor/lib" = (true, false)
  /\ GoFilepath.Match "vendor/*" "vendor/lib/a.go" = (false, false).
Proof.
  split.
  - apply (prefix_pattern_matches_one_level "vendor/" "vendor/lib"). reflexivity.
  - apply (prefix_pattern_matches_one_level "vendor/" "vendor/lib/a.go"). reflexivity.
Defined.

(** X12.  When [src/main.go] walks a tree of entries with ASCII names in
    which every directory that is not pruned can be listed, the walk
    does not fail and collects, in the order of the walk, exactly the regular files outside the pruned
    directories that no [-e] pattern matches, whose size is known, not
    zero and at most the limit, that are included and that can be read:
    each with its relative path and its content.  The standard output of
    the run is then the chosen builder applied to these files, sorted,
    and the exit status is 0. *)
Theorem walk_collects_the_selected_files :
  forall cfg d,
    asciiNames d = true ->
    readable (erasePruned (main_prunes cfg) "." d) = true ->
    (forall st,
        snd (WalkDir (Main.walkFn cfg) (Found d) st) = None
        /\ Main.files (fst (WalkDir (Main.walkFn cfg) (Found d) st))
           = (Main.files st ++ main_selected cfg d)%list)
    /\ (forall w absRoot,
           Main.useClaudeXML cfg && Main.useMarkdown cfg = false ->
           (List.length (Main.positionalArgs cfg) <= 1)%nat ->
           Abs w (Main.rootDir cfg) = inl absRoot ->
           root w absRoot = Found d ->
           exitCode (Main.main cfg w) = 0%Z
           /\ stdout (Main.main cfg w)
              = match GoSort.Slice less (main_selected cfg d) with
                | [] => EmptyString
                | files =>
                  if Main.useClaudeXML cfg
                  then Main.buildClaudeXML EmptyString files (Main.prependPath cfg)
                  else if Main.useMarkdown cfg
                       then Main.buildMarkdown EmptyString files (Main.prependPath cfg)
                       else Main.buildStandardText EmptyString files
                                                   (Main.prependPath cfg)
                end).
Proof.
  intros cfg d _ Hr.
  assert (Hwalk : forall st,
             snd (WalkDir (Main.walkFn cfg) (Found d) st) = None
             /\ Main.files (fst (WalkDir (Main.walkFn cfg) (Found d) st))
                = (Main.files st ++ main_selected cfg d)%list).
  { intros st.
    apply (WalkDir_collects (Main.walkFn cfg) Main.files (main_prunes cfg)
                            (main_keeps cfg) (main_walkFn_keeps cfg)
                            (main_walkFn_prunes cfg) d st Hr). }
  split; [exact Hwalk|].
  intros w absRoot Hflags Hargs Habs Hroot. unfold Main.main.
  rewrite Hflags. apply Nat.ltb_ge in Hargs. rewrite Hargs, Habs, Hroot.
  destruct (Hwalk Main.initial) as [E1 E2].
  destruct (WalkDir (Main.walkFn cfg) (Found d) Main.initial) as [st err].
  cbn [fst snd] in E1, E2. subst err. rewrite E2. cbn [Main.files Main.initial app].
  destruct (GoSort.Slice less (main_selected cfg d)); split; reflexivity.
Qed.

Lemma walk_collects_the_selected_files_witness :
  stdout (Main.main Sample.main_defaults (Sample.worldOf Sample.scenario))
  = Main.buildStandardText
      EmptyString
      [mkFileData "README.md" "# hi"; mkFileData "a.go" "package a"]
      EmptyString.
Proof.
  apply (proj2 (proj2 (walk_collects_the_selected_files
                         Sample.main_defaults Sample.scenario eq_refl eq_refl)
                      (Sample.worldOf Sample.scenario) "/work/."
                      eq_refl (Nat.le_0_l 1) eq_refl eq_refl)).
Defined.

Lemma part001_walkFn_keeps cfg ignorer rel name regular info data st :
  snd (Part001.walkFn cfg ignorer rel (Some (File name regular info data)) None st)
  = None
  /\ Part001.files
       (fst (Part001.walkFn cfg ignorer rel (Some (File name regular info data))
                            None st))
     = (Part001.files st
          ++ part001_keeps cfg ignorer rel (File name regular info data))%list.
Proof.
  unfold Part001.walkFn, part001_keeps, sizeFits. cbn [IsDir andb].
  destruct (String.eqb rel "."); cbn [negb andb].
  { destruct regular, info, data; now rewrite app_nil_r. }
  destruct (Part001.ignored ignorer rel); cbn [negb andb].
  { destruct regular, info, data; now rewrite app_nil_r. }
  destruct regular; cbn [negb]; [|now rewrite app_nil_r].
  cbv zeta.
  destruct (Part001.isExcludedExt cfg _); cbn [negb andb].
  { destruct info, data; now rewrite app_nil_r. }
  destruct (Part001.langOnly cfg); cbn [negb andb orb].
  - destruct (Part001.isLang _); cbn [negb andb].
    + destruct info as [size|]; [|cbn; now rewrite app_nil_r].
      destruct (size >? Part001.maxSizeBytes cfg)%Z; cbn [negb andb];
        [destruct data; cbn; now rewrite app_nil_r|].
      destruct (size =? 0)%Z; cbn [negb andb];
        [destruct data; cbn; now rewrite app_nil_r|].
      destruct data; cbn; [auto | now rewrite app_nil_r].
    + destruct info, data; now rewrite app_nil_r.
  - destruct info as [size|]; [|cbn; now rewrite app_nil_r].
    destruct (size >? Part001.maxSizeBytes cfg)%Z; cbn [negb andb];
      [destruct data; cbn; now rewrite app_nil_r|].
    destruct (size =? 0)%Z; cbn [negb andb];
      [destruct data; cbn; now rewrite app_nil_r|].
    destruct data; cbn; [auto | now rewrite app_nil_r].
Qed.

Lemma part001_walkFn_prunes cfg ignorer rel name e ds st :
  snd (Part001.walkFn cfg ignorer rel (Some (Dir name e ds)) None st)
  = (if part001_prunes ignorer rel name then Some SkipDir else None)
  /\ Part001.files (fst (Part001.walkFn cfg ignorer rel (Some (Dir name e ds)) None st))
     = Part001.files st.
Proof.
  unfold Part001.walkFn, part001_prunes. cbn [IsDir Name andb].
  destruct (String.eqb rel "."); cbn [negb andb]; [now split|].
  destruct (isVCSName name); cbn [orb]; [now split|].
  destruct (Part001.ignored ignorer rel); now split.
Qed.

(** X13.  When [src/unnamed/part_001], with arguments of [-xe] in
    ASCII, walks a tree of entries with ASCII names in which every
    directory that is not pruned can be listed, the walk does not fail
    and collects, in the order of the walk, exactly the regular files
    below the root and outside the pruned directories that the ignore
    file does not match, whose extension is not excluded by [-xe] and,
    under [-x], is a known language, whose size is known, not zero and at
    most the limit, and that can be read: each with its relative path and
    its content.  The standard output of the run is then the chosen
    builder applied to these files, sorted, and the exit status is 0. *)
Theorem part001_walk_collects_the_selected_files :
  forall cfg ignorer d,
    asciiNames d = true ->
    forallb asciiOnly (Part001.excludeExts cfg) = true ->
    readable (erasePruned (part001_prunes ignorer) "." d) = true ->
    (forall st,
        snd (WalkDir (Part001.walkFn cfg ignorer) (Found d) st) = None
        /\ Part001.files (fst (WalkDir (Part001.walkFn cfg ignorer) (Found d) st))
           = (Part001.files st ++ part001_selected cfg ignorer d)%list)
    /\ (forall w ignoreAt absRoot logged,
           Part001.useClaudeXML cfg && Part001.useMarkdown cfg = false ->
           (List.length (Part001.positionalArgs cfg) <= 1)%nat ->
           Abs w (Part001.rootDir cfg) = inl absRoot ->
           Part001.loadIgnore cfg absRoot ignoreAt = inl (logged, ignorer) ->
           root w absRoot = Found d ->
           exitCode (Part001.main cfg w ignoreAt) = 0%Z
           /\ stdout (Part001.main cfg w ignoreAt)
              = match GoSort.Slice less (part001_selected cfg ignorer d) with
                | [] => EmptyString
                | files =>
                  if Part001.useClaudeXML cfg
                  then Part001.buildClaudeXML EmptyString files
                                              (Part001.prependPath cfg)
                  else if Part001.useMarkdown cfg
                       then Part001.buildMarkdown EmptyString files
                                                  (Part001.prependPath cfg)
                       else Part001.buildStandardText EmptyString files
                                                      (Part001.prependPath cfg)
                end).
Proof.
  intros cfg ignorer d _ _ Hr.
  assert (Hwalk : forall st,
             snd (WalkDir (Part001.walkFn cfg ignorer) (Found d) st) = None
             /\ Part001.files (fst (WalkDir (Part001.walkFn cfg ignorer) (Found d) st))
                = (Part001.files st ++ part001_selected cfg ignorer d)%list).
  { intros st.
    apply (WalkDir_collects (Part001.walkFn cfg ignorer) Part001.files
                            (part001_prunes ignorer) (part001_keeps cfg ignorer)
                            (part001_walkFn_keeps cfg ignorer)
                            (part001_walkFn_prunes cfg ignorer) d st Hr). }
  split; [exact Hwalk|].
  intros w ignoreAt absRoot logged Hflags Hargs Habs Hload Hroot.
  unfold Part001.main.
  rewrite Hflags. apply Nat.ltb_ge in Hargs. rewrite Hargs, Habs, Hload, Hroot.
  destruct (Hwalk Part001.initial) as [E1 E2].
  destruct (WalkDir (Part001.walkFn cfg ignorer) (Found d) Part001.initial)
    as [st err].
  cbn [fst snd] in E1, E2. subst err. rewrite E2.
  cbn [Part001.files Part001.initial app].
  destruct (GoSort.Slice less (part001_selected cfg ignorer d)); split; reflexivity.
Qed.

Lemma part001_walk_collects_the_selected_files_witness :
  stdout (Part001.main Sample.part001_defaults (Sample.worldOf Sample.scenario)
                       (fun _ => Part001.Ignorer (fun rel => String.eqb rel "a.go")))
  = Part001.buildStandardText EmptyString [mkFileData "README.md" "# hi"]
                              EmptyString.
Proof.
  apply (proj2 (proj2 (part001_walk_collects_the_selected_files
                         Sample.part001_defaults
                         (Some (fun rel => String.eqb rel "a.go"))
                         Sample.scenario eq_refl eq_refl eq_refl)
                      (Sample.worldOf Sample.scenario)
                      (fun _ => Part001.Ignorer (fun rel => String.eqb rel "a.go"))
                      "/work/."
                      (GoLog.Print EmptyString
                                   ("Using ignore file: "
                                      ++ GoFilepath.Join "/work/." ".gitignore"))
                      eq_refl (Nat.le_0_l 1) eq_refl eq_refl eq_refl)).
Defined.

(** ** Two walk functions that go the same way *)

Section WalkSimulation.
Context {St1 St2 : Type}.
Variable fn1 : string -> option node -> option string -> St1 -> St1 * option walkErr.
Variable fn2 : string -> option node -> option string -> St2 -> St2 * option walkErr.
Variable R : St1 -> St2 -> Prop.
Hypothesis fn_sim : forall rel d err st1 st2,
    R st1 st2 ->
    R (fst (fn1 rel d err st1)) (fst (fn2 rel d err st2))
    /\ snd (fn1 rel d err st1) = snd (fn2 rel d err st2).

Lemma walkDir_sim : forall d rel st1 st2,
    R st1 st2 ->
    R (fst (walkDir fn1 rel d st1)) (fst (walkDir fn2 rel d st2))
    /\ snd (walkDir fn1 rel d st1) = snd (walkDir fn2 rel d st2).
Proof.
  induction d as [name regular info data | name readErr entries IH]
    using node_induction; intros rel st1 st2 HR.
  - rewrite !walkDir_File. now apply fn_sim.
  - rewrite !walkDir_Dir.
    pose proof (fn_sim rel (Some (Dir name readErr entries)) None st1 st2 HR) as H.
    destruct (fn1 rel (Some (Dir name readErr entries)) None st1) as [s1 e1].
    destruct (fn2 rel (Some (Dir name readErr entries)) None st2) as [s2 e2].
    cbn [fst snd] in H. destruct H as [HR1 <-].
    destruct e1 as [[]|]; try (now split).
    assert (H2 : R (fst (match readErr with
                         | Some e => fn1 rel (Some (Dir name readErr entries)) (Some e) s1
                         | None => (s1, None)
                         end))
                   (fst (match readErr with
                         | Some e => fn2 rel (Some (Dir name readErr entries)) (Some e) s2
                         | None => (s2, None)
                         end))
                 /\ snd (match readErr with
                         | Some e => fn1 rel (Some (Dir name readErr entries)) (Some e) s1
                         | None => (s1, None)
                         end)
                    = snd (match readErr with
                           | Some e =>
                             fn2 rel (Some (Dir name readErr entries)) (Some e) s2
                           | None => (s2, None)
                           end)).
    { destruct readErr; [now apply fn_sim | now split]. }
    destruct (match readErr with
              | Some e => fn1 rel (Some (Dir name readErr entries)) (Some e) s1
              | None => (s1, None)
              end) as [t1 e1].
    destruct (match readErr with
              | Some e => fn2 rel (Some (Dir name readErr entries)) (Some e) s2
              | None => (s2, None)
              end) as [t2 e2].
    cbn [fst snd] in H2. destruct H2 as [HR2 <-].
    destruct e1 as [[]|]; try (now split).
    clear HR HR1 st1 st2 s1 s2. revert t1 t2 HR2.
    induction IH as [|d ds Hd _ IHds]; intros t1 t2 HR2; cbn [walkEntries];
      [now split|].
    specialize (Hd (relJoin rel (Name d)) t1 t2 HR2).
    destruct (walkDir fn1 (relJoin rel (Name d)) d t1) as [u1 e1].
    destruct (walkDir fn2 (relJoin rel (Name d)) d t2) as [u2 e2].
    cbn [fst snd] in Hd. destruct Hd as [HR3 <-].
    destruct e1 as [[]|]; try (now split). now apply IHds.
Qed.

Lemma WalkDir_sim root st1 st2 :
  R st1 st2 ->
  R (fst (WalkDir fn1 root st1)) (fst (WalkDir fn2 root st2))
  /\ snd (WalkDir fn1 root st1) = snd (WalkDir fn2 root st2).
Proof.
  intros HR. unfold WalkDir.
  assert (H : R (fst (match root with
                      | Missing e => fn1 "." None (Some e) st1
                      | Found d => walkDir fn1 "." d st1
                      end))
                (fst (match root with
                      | Missing e => fn2 "." None (Some e) st2
                      | Found d => walkDir fn2 "." d st2
                      end))
              /\ snd (match root with
                      | Missing e => fn1 "." None (Some e) st1
                      | Found d => walkDir fn1 "." d st1
                      end)
                 = snd (match root with
                        | Missing e => fn2 "." None (Some e) st2
                        | Found d => walkDir fn2 "." d st2
                        end)).
  { destruct root; [now apply walkDir_sim | now apply fn_sim]. }
  destruct (match root with
            | Missing e => fn1 "." None (Some e) st1
            | Found d => walkDir fn1 "." d st1
            end) as [s1 e1].
  destruct (match root with
            | Missing e => fn2 "." None (Some e) st2
            | Found d => walkDir fn2 "." d st2
            end) as [s2 e2].
  cbn [fst snd] in H. destruct H as [HR1 <-].
  destruct e1 as [[]|]; now split.
Qed.

End WalkSimulation.

Lemma part000_walkFn_sim cfg rel d err st1 st0 :
  sameCollection st1 st0 ->
  sameCollection (fst (Main.walkFn (part000_as_main cfg) rel d err st1))
                 (fst (Part000.walkFn cfg rel d err st0))
  /\ snd (Main.walkFn (part000_as_main cfg) rel d err st1)
     = snd (Part000.walkFn cfg rel d err st0).
Proof.
  intros [Hf Hs]. unfold sameCollection, Main.walkFn, Part000.walkFn.
  destruct err as [e|]; [now repeat split|].
  destruct d as [[name regular info data | name readErr entries]|];
    [| |now repeat split].
  - change (Main.excludes (part000_as_main cfg)) with (Part000.excludes cfg).
    change (Main.maxSizeBytes (part000_as_main cfg)) with (Part000.maxSizeBytes cfg).
    change (Main.isIncluded (part000_as_main cfg) rel)
      with (Part000.isIncluded cfg rel).
    destruct regular; cbn [negb]; [|now repeat split].
    destruct (matchAny (Part000.excludes cfg) rel); [now repeat split|].
    cbv zeta.
    destruct info as [size|]; [|cbn; rewrite Hf, Hs; now repeat split].
    destruct (size >? Part000.maxSizeBytes cfg)%Z; cbn [orb];
      [cbn; rewrite Hf, Hs; now repeat split|].
    destruct (size =? 0)%Z; [cbn; rewrite Hf, Hs; now repeat split|].
    destruct (Part000.isIncluded cfg rel).
    + destruct data; cbn; rewrite Hf, Hs; now repeat split.
    + destruct (Nat.eqb _ 0); cbn; rewrite Hf, Hs; now repeat split.
  - change (Main.excludes (part000_as_main cfg)) with (Part000.excludes cfg).
    destruct (isVCSName name); [now repeat split|].
    destruct (matchAny (Part000.excludes cfg) rel); now repeat split.
Qed.

Lemma buildStandardText_no_prepend : forall files b,
    Main.buildStandardText b files EmptyString = Part000.buildStandardText b files.
Proof.
  induction files as [|file files IH]; intros b; [reflexivity|].
  cbn [Main.buildStandardText Part000.buildStandardText Main.applyPrepend].
  apply IH.
Qed.

Lemma buildClaudeXMLLoop_no_prepend : forall files b,
    Main.buildClaudeXMLLoop b files EmptyString = Part000.buildClaudeXMLLoop b files.
Proof.
  induction files as [|file files IH]; intros b; [reflexivity|].
  cbn [Main.buildClaudeXMLLoop Part000.buildClaudeXMLLoop Main.applyPrepend].
  apply IH.
Qed.

(** X14.  [src/main.go] with no [-p] and [src/unnamed/part_000] walk alike:
    on every tree, readable or not, with the same options they collect
    the same files in the same order, call [d.Info()] and [os.ReadFile]
    for the same paths in the same order, and end the walk with the same
    error or none.  Where Markdown is not asked for and at most one
    directory is given they print the same text and exit alike. *)
Theorem main_walks_like_part000 :
  forall cfg w,
    (forall root,
        sameCollection
          (fst (WalkDir (Main.walkFn (part000_as_main cfg)) root Main.initial))
          (fst (WalkDir (Part000.walkFn cfg) root Part000.initial))
        /\ snd (WalkDir (Main.walkFn (part000_as_main cfg)) root Main.initial)
           = snd (WalkDir (Part000.walkFn cfg) root Part000.initial))
    /\ (Part000.useMarkdown cfg = false ->
        (List.length (Part000.positionalArgs cfg) <= 1)%nat ->
        stdout (Main.main (part000_as_main cfg) w) = stdout (Part000.main cfg w)
        /\ exitCode (Main.main (part000_as_main cfg) w)
           = exitCode (Part000.main cfg w)).
Proof.
  intros cfg w.
  assert (Hwalk : forall root,
             sameCollection
               (fst (WalkDir (Main.walkFn (part000_as_main cfg)) root Main.initial))
               (fst (WalkDir (Part000.walkFn cfg) root Part000.initial))
             /\ snd (WalkDir (Main.walkFn (part000_as_main cfg)) root Main.initial)
                = snd (WalkDir (Part000.walkFn cfg) root Part000.initial)).
  { intros root.
    apply (WalkDir_sim (Main.walkFn (part000_as_main cfg)) (Part000.walkFn cfg)
                       sameCollection (part000_walkFn_sim cfg)).
    now split. }
  split; [exact Hwalk|].
  intros Hmd Hargs. unfold Main.main, Part000.main.
  change (Main.useClaudeXML (part000_as_main cfg)) with (Part000.useClaudeXML cfg).
  change (Main.useMarkdown (part000_as_main cfg)) with (Part000.useMarkdown cfg).
  change (Main.positionalArgs (part000_as_main cfg)) with (Part000.positionalArgs cfg).
  change (Main.prependPath (part000_as_main cfg)) with EmptyString.
  rewrite Hmd, andb_false_r.
  assert (Hroot : Main.rootDir (part000_as_main cfg) = Part000.rootDir cfg).
  { unfold Main.rootDir, Part000.rootDir.
    change (Main.positionalArgs (part000_as_main cfg))
      with (Part000.positionalArgs cfg).
    destruct (Part000.positionalArgs cfg) as [|a [|b l]]; try reflexivity.
    cbn [List.length] in Hargs. lia. }
  apply Nat.ltb_ge in Hargs. rewrite Hargs, Hroot.
  destruct (Abs w (Part000.rootDir cfg)) as [absRoot|e]; [|now split].
  destruct (Hwalk (root w absRoot)) as [[Hf _] He].
  destruct (WalkDir (Main.walkFn (part000_as_main cfg)) (root w absRoot) Main.initial)
    as [st1 e1].
  destruct (WalkDir (Part000.walkFn cfg) (root w absRoot) Part000.initial)
    as [st0 e0].
  cbn [fst snd] in Hf, He. subst e0. rewrite Hf.
  destruct e1; [now split|].
  destruct (GoSort.Slice less (Part000.files st0)) as [|f fs]; [now split|].
  cbn [stdout exitCode]. split; [|reflexivity].
  destruct (Part000.useClaudeXML cfg).
  - unfold Main.buildClaudeXML, Part000.buildClaudeXML.
    now rewrite buildClaudeXMLLoop_no_prepend.
  - apply buildStandardText_no_prepend.
Qed.

Lemma main_walks_like_part000_witness :
  stdout (Main.main (part000_as_main Sample.part000_defaults)
                    (Sample.worldOf Sample.scenario))
  = stdout (Part000.main Sample.part000_defaults (Sample.worldOf Sample.scenario)).
Proof.
  apply (proj2 (main_walks_like_part000 Sample.part000_defaults
                                        (Sample.worldOf Sample.scenario))
               eq_refl (Nat.le_0_l 1)).
Defined.

(** ** The order of the output does not depend on the sorting algorithm *)

Lemma sorted_unique {A : Type} (R : A -> A -> Prop) : forall l1 l2,
    StronglySorted R l1 -> StronglySorted R l2 -> Permutation l1 l2 ->
    (forall a b, In a l1 -> In b l1 -> R a b -> R b a -> a = b) ->
    l1 = l2.
Proof.
  induction l1 as [|a t1 IH]; intros l2 H1 H2 Hp Hanti.
  - apply Permutation_nil in Hp. now subst.
  - destruct l2 as [|b t2].
    { apply Permutation_sym, Permutation_nil in Hp. discriminate. }
    inversion H1 as [|? ? Ht1 Ha]; subst. inversion H2 as [|? ? Ht2 Hb]; subst.
    rewrite Forall_forall in Ha, Hb.
    assert (Hab : a = b).
    { assert (Hina : In a (b :: t2)) by (apply (Permutation_in _ Hp); now left).
      assert (Hinb : In b (a :: t1))
        by (apply (Permutation_in _ (Permutation_sym Hp)); now left).
      destruct Hina as [E|Hina]; [now symmetry|].
      destruct Hinb as [E|Hinb]; [now symmetry|].
      apply Hanti; [now left | now right | now apply Ha | now apply Hb]. }
    subst b. f_equal. apply IH; try assumption.
    + now apply Permutation_cons_inv in Hp.
    + intros x y Hx Hy. apply Hanti; now right.
Qed.

Lemma NoDup_map_injective {A B : Type} (f : A -> B) : forall l a b,
    NoDup (map f l) -> In a l -> In b l -> f a = f b -> a = b.
Proof.
  induction l as [|x l IH]; intros a b Hnd Ha Hb E; [contradiction|].
  cbn [map] in Hnd. inversion Hnd as [|? ? Hx Hl]; subst.
  destruct Ha as [->|Ha], Hb as [->|Hb]; try reflexivity.
  - exfalso. apply Hx. rewrite E. now apply in_map.
  - exfalso. apply Hx. rewrite <- E. now apply in_map.
  - now apply IH.
Qed.

Lemma string_leb_antisym (a b : string) :
  String.leb a b = true -> String.leb b a = true -> a = b.
Proof.
  unfold String.leb. rewrite (String.compare_antisym a b).
  destruct (String.compare b a) eqn:E; cbn; try discriminate.
  intros _ _. apply String.compare_eq_iff in E. now symmetry.
Qed.

Lemma less_both_false (a b : fileData) :
  less b a = false -> less a b = false -> path a = path b.
Proof.
  rewrite !less_false_iff. intros [H1 H2] [H3 H4].
  assert (E : isReadme a = isReadme b).
  { destruct (isReadme a), (isReadme b); try reflexivity.
    - now rewrite H3.
    - now rewrite H1. }
  apply string_leb_antisym; [apply H2, E | apply H4; now symmetry].
Qed.

(** X15.  Where no two collected files have the same path, the order in
    which [sort.Slice] leaves them is determined by the comparison alone:
    every arrangement of the files that the comparison accepts as sorted
    is the one computed here, whatever the sorting algorithm and whatever
    the order in which the walk found the files. *)
Theorem sorted_order_is_unique :
  forall files sorted,
    NoDup (map path files) ->
    Permutation files sorted ->
    StronglySorted (fun a b => less b a = false) sorted ->
    sorted = GoSort.Slice less files.
Proof.
  intros files sorted Hnd Hp Hs.
  apply (sorted_unique (fun a b => less b a = false)).
  - exact Hs.
  - apply (Slice_sorted less less_asym less_false_trans).
  - rewrite <- Hp. apply Slice_Permutation.
  - intros a b Ha Hb Hab Hba.
    apply (NoDup_map_injective path files a b Hnd).
    + apply (Permutation_in _ (Permutation_sym Hp)), Ha.
    + apply (Permutation_in _ (Permutation_sym Hp)), Hb.
    + now apply less_both_false.
Qed.

Lemma sorted_order_is_unique_witness :
  [mkFileData "README.md" "# hi"; mkFileData "a.go" "package a";
   mkFileData "b/c.go" "package c"]
  = GoSort.Slice less [mkFileData "b/c.go" "package c"; mkFileData "a.go" "package a";
                       mkFileData "README.md" "# hi"].
Proof.
  apply (sorted_order_is_unique
           [mkFileData "b/c.go" "package c"; mkFileData "a.go" "package a";
            mkFileData "README.md" "# hi"]).
  - repeat constructor; cbn; intuition discriminate.
  - apply Permutation_rev.
  - repeat constructor.
Defined.

Lemma string_ltb_asym (a b : string) : String.ltb a b = true -> String.ltb b a = false.
Proof.
  unfold String.ltb. rewrite (String.compare_antisym a b).
  now destruct (String.compare b a).
Qed.

Lemma string_ltb_false_trans (a b c : string) :
  String.ltb b a = false -> String.ltb c b = false -> String.ltb c a = false.
Proof.
  rewrite !string_ltb_false_leb. intros H1 H2. now apply (string_leb_trans a b c).
Qed.

Lemma Strings_Permutation (l l' : list string) :
  Permutation l l' -> GoSort.Strings l = GoSort.Strings l'.
Proof.
  intros Hp. unfold GoSort.Strings.
  apply (sorted_unique (fun a b => String.ltb b a = false)).
  - apply (Slice_sorted String.ltb string_ltb_asym string_ltb_false_trans).
  - apply (Slice_sorted String.ltb string_ltb_asym string_ltb_false_trans).
  - rewrite <- (Slice_Permutation String.ltb l), <- (Slice_Permutation String.ltb l').
    exact Hp.
  - intros a b _ _ Hab Hba. apply string_ltb_false_leb in Hab, Hba.
    now apply string_leb_antisym.
Qed.

(** X16.  The report of the skipped files does not depend on the order
    in which the walk recorded them: two lists with the same messages,
    each as often, give the same report, in [src/main.go] and in
    [src/unnamed/part_001]. *)
Theorem skip_report_ignores_the_order :
  forall stderr skipped skipped',
    Permutation skipped skipped' ->
    Main.reportSkipped stderr skipped = Main.reportSkipped stderr skipped'
    /\ Part001.reportSkipped stderr skipped = Part001.reportSkipped stderr skipped'.
Proof.
  intros stderr skipped skipped' Hp.
  pose proof (Strings_Permutation _ _ Hp) as Hs.
  unfold Main.reportSkipped, Part001.reportSkipped.
  destruct skipped as [|m l], skipped' as [|m' l'].
  - now split.
  - apply Permutation_nil in Hp. discriminate.
  - apply Permutation_sym, Permutation_nil in Hp. discriminate.
  - rewrite Hs. now split.
Qed.

Lemma skip_report_ignores_the_order_witness :
  Main.reportSkipped EmptyString ["b.bin (unsupported extension)"; "a.txt (empty)"]
  = Main.reportSkipped EmptyString ["a.txt (empty)"; "b.bin (unsupported extension)"].
Proof.
  apply (proj1 (skip_report_ignores_the_order
                  EmptyString
                  ["b.bin (unsupported extension)"; "a.txt (empty)"]
                  ["a.txt (empty)"; "b.bin (unsupported extension)"]
                  (perm_swap _ _ []))).
Defined.

(** ** The calls to the file system *)

Lemma main_walkFn_calls cfg rel name regular info data st :
  snd (Main.walkFn cfg rel (Some (File name regular info data)) None st) = None
  /\ Main.syscalls
       (fst (Main.walkFn cfg rel (Some (File name regular info data)) None st))
     = (Main.syscalls st ++ main_calls cfg rel (File name regular info data))%list.
Proof.
  unfold Main.walkFn, main_calls, sizeFits.
  destruct regular; cbn [negb]; [|now rewrite app_nil_r].
  destruct (matchAny (Main.excludes cfg) rel); [cbn; now rewrite app_nil_r|].
  destruct info as [size|]; [|now cbn].
  destruct (size >? Main.maxSizeBytes cfg)%Z; cbn [negb andb]; [now cbn|].
  destruct (size =? 0)%Z; cbn [negb andb]; [now cbn|].
  destruct (Main.isIncluded cfg rel).
  - destruct data; cbn; now rewrite <- app_assoc.
  - destruct (Nat.eqb _ 0); now cbn.
Qed.

Lemma main_walkFn_prunes_calls cfg rel name e ds st :
  snd (Main.walkFn cfg rel (Some (Dir name e ds)) None st)
  = (if main_prunes cfg rel name then Some SkipDir else None)
  /\ Main.syscalls (fst (Main.walkFn cfg rel (Some (Dir name e ds)) None st))
     = Main.syscalls st.
Proof.
  unfold Main.walkFn, main_prunes.
  destruct (isVCSName name); [now split|].
  destruct (matchAny (Main.excludes cfg) rel); now split.
Qed.

(** X17.  When [src/main.go] walks a tree of entries with ASCII names in
    which every directory that is not pruned can be listed, its calls for
    single files are, in the order of the walk: [d.Info()] once for every regular file outside the
    pruned directories that no [-e] pattern matches, followed at once by
    [os.ReadFile] for the same file if its size is known, not zero and at
    most the limit and the file is included; and no other. *)
Theorem file_system_calls_of_a_walk :
  forall cfg d st,
    asciiNames d = true ->
    readable (erasePruned (main_prunes cfg) "." d) = true ->
    Main.syscalls (fst (WalkDir (Main.walkFn cfg) (Found d) st))
    = (Main.syscalls st ++ collected (main_prunes cfg) (main_calls cfg) "." d)%list.
Proof.
  intros cfg d st _ Hr.
  apply (WalkDir_collects (Main.walkFn cfg) Main.syscalls (main_prunes cfg)
                          (main_calls cfg) (main_walkFn_calls cfg)
                          (main_walkFn_prunes_calls cfg) d st Hr).
Qed.

Lemma file_system_calls_of_a_walk_witness :
  Main.syscalls (fst (WalkDir (Main.walkFn Sample.main_defaults)
                              (Found Sample.bigBinary) Main.initial))
  = [InfoCall "big.bin"].
Proof.
  apply (file_system_calls_of_a_walk Sample.main_defaults Sample.bigBinary
                                     Main.initial eq_refl eq_refl).
Defined.

Lemma readAfterInfo_app : forall l1 l2,
    readAfterInfo l1 = true -> readAfterInfo l2 = true ->
    readAfterInfo (l1 ++ l2) = true.
Proof.
  intros l1. remember (List.length l1) as n eqn:Hn. revert l1 Hn.
  induction n as [n IH] using lt_wf_ind. intros l1 Hn l2 H1 H2.
  destruct l1 as [|[p|p] l1]; [exact H2 | | discriminate].
  destruct l1 as [|[q|q] l1].
  - cbn [app]. destruct l2 as [|[q|q] l2]; [reflexivity | exact H2 | discriminate].
  - change (readAfterInfo ((InfoCall q :: l1) ++ l2) = true).
    apply (IH (List.length (InfoCall q :: l1))); try reflexivity; try assumption.
    subst n. cbn [List.length]. lia.
  - cbn [readAfterInfo] in H1. apply andb_prop in H1. destruct H1 as [E H1].
    cbn [app readAfterInfo]. rewrite E. cbn [andb].
    apply (IH (List.length l1)); try reflexivity; try assumption.
    subst n. cbn [List.length]. lia.
Qed.

(** X18.  On every tree and whatever the walk ends with,
    [src/unnamed/part_001] calls [os.ReadFile] only right after
    [d.Info()] for the same path; it makes neither call for a path that
    the ignore file matches or, the extension of the path and the
    arguments of [-xe] being ASCII text, whose extension is excluded by
    [-xe] or, under [-x], is not a known language; and every file it
    collects has been read. *)
Theorem part001_touches_no_filtered_file :
  forall cfg ignorer root,
    let st := fst (WalkDir (Part001.walkFn cfg ignorer) root Part001.initial) in
    readAfterInfo (Part001.syscalls st) = true
    /\ neverCalled
         (fun rel =>
            let fileExt := GoStrings.ToLower (GoFilepath.Ext rel) in
            Part001.ignored ignorer rel
            || (part001_asciiExtensions cfg rel
                && (Part001.isExcludedExt cfg fileExt
                    || (Part001.langOnly cfg && negb (Part001.isLang fileExt)))))
         (Part001.syscalls st)
    /\ (forall f, In f (Part001.files st) ->
                  In (ReadFileCall (path f)) (Part001.syscalls st)).
Proof.
  intros cfg ignorer root.
  set (bad := fun rel : string =>
                let fileExt := GoStrings.ToLower (GoFilepath.Ext rel) in
                Part001.ignored ignorer rel
                || (part001_asciiExtensions cfg rel
                    && (Part001.isExcludedExt cfg fileExt
                        || (Part001.langOnly cfg
                            && negb (Part001.isLang fileExt))))).
  set (Inv := fun st : Part001.state =>
                readAfterInfo (Part001.syscalls st) = true
                /\ neverCalled bad (Part001.syscalls st)
                /\ (forall f, In f (Part001.files st) ->
                              In (ReadFileCall (path f)) (Part001.syscalls st))).
  assert (Hinfo : forall st rel,
             Inv st -> bad rel = false -> Inv (Part001.call st (InfoCall rel))).
  { intros st rel [H1 [H2 H3]] Hb. unfold Inv. cbn [Part001.call Part001.syscalls
                                                     Part001.files].
    split; [|split].
    - now apply readAfterInfo_app.
    - intros c Hc. apply in_app_or in Hc. destruct Hc as [Hc|[<-|[]]];
        [now apply H2 | exact Hb].
    - intros f Hf. apply in_or_app. left. now apply H3. }
  assert (Hread : forall st rel,
             Inv st -> bad rel = false ->
             Inv (Part001.call (Part001.call st (InfoCall rel)) (ReadFileCall rel))).
  { intros st rel [H1 [H2 H3]] Hb. unfold Inv. cbn [Part001.call Part001.syscalls
                                                     Part001.files].
    rewrite <- app_assoc. cbn [app]. split; [|split].
    - apply readAfterInfo_app; [exact H1|]. cbn. now rewrite String.eqb_refl.
    - intros c Hc. apply in_app_or in Hc. destruct Hc as [Hc|[<-|[<-|[]]]];
        [now apply H2 | exact Hb | exact Hb].
    - intros f Hf. apply in_or_app. left. now apply H3. }
  assert (Hskip : forall st msg, Inv st -> Inv (Part001.skip st msg)).
  { intros st msg H. exact H. }
  assert (Hfn : forall rel d err st,
             Inv st -> Inv (fst (Part001.walkFn cfg ignorer rel d err st))).
  { intros rel d err st HI. unfold Part001.walkFn.
    destruct err; [exact HI|]. destruct d as [d|]; [|exact HI].
    destruct (String.eqb rel "."); [exact HI|].
    destruct (IsDir d && isVCSName (Name d)); [exact HI|].
    destruct (Part001.ignored ignorer rel) eqn:Hign;
      [destruct (IsDir d); now apply Hskip|].
    destruct d as [name regular info data | name readErr entries]; [|exact HI].
    destruct regular; cbn [negb]; [|exact HI]. cbv zeta.
    destruct (Part001.isExcludedExt cfg _) eqn:Hx; [now apply Hskip|].
    destruct (Part001.langOnly cfg && negb (Part001.isLang _)) eqn:Hl;
      [now apply Hskip|].
    assert (Hb : bad rel = false)
      by (unfold bad; cbv zeta; now rewrite Hign, Hx, Hl, andb_false_r).
    destruct info as [size|]; [|now apply Hskip, Hinfo].
    destruct (size >? Part001.maxSizeBytes cfg)%Z; [now apply Hskip, Hinfo|].
    destruct (size =? 0)%Z; [now apply Hskip, Hinfo|].
    destruct data as [bytes|]; [|now apply Hskip, Hread].
    destruct (Hread st rel HI Hb) as [H1 [H2 H3]].
    cbn [fst]. unfold Inv. cbn [Part001.accept Part001.syscalls Part001.files].
    split; [exact H1|]. split; [exact H2|].
    intros f Hf. apply in_app_or in Hf. destruct Hf as [Hf|[<-|[]]].
    - now apply H3.
    - cbn [path]. rewrite ToSlash_id.
      cbn [Part001.call Part001.syscalls]. apply in_or_app. right. now left. }
  apply (WalkDir_keeps (Part001.walkFn cfg ignorer) Inv Hfn root Part001.initial).
  unfold Inv. cbn. repeat split; [intros c [] | intros f []].
Qed.

Lemma part001_touches_no_filtered_file_witness :
  In (ReadFileCall "a.go")
     (Part001.syscalls
        (fst (WalkDir (Part001.walkFn Sample.part001_defaults None)
                      (Found Sample.goAndText) Part001.initial))).
Proof.
  apply (proj2 (proj2 (part001_touches_no_filtered_file
                         Sample.part001_defaults None (Found Sample.goAndText)))
               (mkFileData "a.go" "package a")).
  left. reflexivity.
Defined.

(** ** No path is collected twice *)

Lemma append_cancel_l : forall p s t : string, p ++ s = p ++ t -> s = t.
Proof.
  induction p as [|c p IH]; intros s t E; [exact E|].
  cbn [String.append] in E. injection E as E. now apply IH.
Qed.

Lemma element_unique : forall n1 n2 r1 r2,
    all notSeparator n1 = true -> all notSeparator n2 = true ->
    GoFilepath.endsElement r1 = true -> GoFilepath.endsElement r2 = true ->
    n1 ++ r1 = n2 ++ r2 -> n1 = n2.
Proof.
  induction n1 as [|c n1 IH]; intros [|c2 n2] r1 r2 H1 H2 E1 E2 E;
    cbn [String.append all] in *.
  - reflexivity.
  - subst r1. cbn [GoFilepath.endsElement] in E1.
    apply andb_prop in H2. destruct H2 as [H2 _].
    unfold notSeparator in H2. rewrite E1 in H2. discriminate.
  - subst r2. cbn [GoFilepath.endsElement] in E2.
    apply andb_prop in H1. destruct H1 as [H1 _].
    unfold notSeparator in H1. rewrite E2 in H1. discriminate.
  - injection E as -> E. f_equal.
    apply andb_prop in H1. apply andb_prop in H2.
    apply (IH n2 r1 r2); tauto.
Qed.

Lemma validName_notSeparator name :
  validName name = true -> all notSeparator name = true.
Proof.
  unfold validName. intros H. apply andb_prop in H. destruct H as [_ H].
  now rewrite <- all_notSeparator_ContainsByte.
Qed.

Lemma relJoin_base rel name :
  relJoin rel name
  = (if String.eqb rel "." then EmptyString else rel ++ "/") ++ name.
Proof.
  unfold relJoin. destruct (String.eqb rel "."); [reflexivity|].
  now rewrite append_assoc.
Qed.

Lemma distinct_not_in : forall names name,
    existsb (String.eqb name) names = false -> ~ In name names.
Proof.
  intros names name H Hin.
  assert (E : existsb (String.eqb name) names = true).
  { apply existsb_exists. exists name. split; [exact Hin | apply String.eqb_refl]. }
  congruence.
Qed.

Section CollectKeys.
Context {B : Type}.
Variable key : B -> string.
Variable prunes : string -> string -> bool.
Variable leaf : string -> node -> list B.
Hypothesis leaf_key : forall rel d b, In b (leaf rel d) -> key b = rel.
Hypothesis leaf_once : forall rel d, NoDup (map key (leaf rel d)).

Lemma collected_below : forall d rel b,
    validEntries d = true -> rel <> "." ->
    In b (collected prunes leaf rel d) ->
    exists rest, key b = rel ++ rest /\ GoFilepath.endsElement rest = true.
Proof.
  induction d as [name regular info data | name readErr entries IH]
    using node_induction; intros rel b Hv Hrel Hin.
  - exists EmptyString. rewrite append_nil_r. split; [|reflexivity].
    apply (leaf_key rel _ b Hin).
  - cbn [collected] in Hin. destruct (prunes rel name); [contradiction|].
    apply in_flat_map in Hin. destruct Hin as [d1 [Hd1 Hin]].
    unfold validEntries in Hv. cbn [namedEntries] in Hv.
    rewrite forallb_forall in Hv. specialize (Hv d1 Hd1).
    apply andb_prop in Hv. destruct Hv as [Hn Hv1].
    rewrite Forall_forall in IH.
    destruct (IH d1 Hd1 (relJoin rel (Name d1)) b Hv1 (relJoin_not_root _ _ Hn) Hin)
      as [rest [E Hrest]].
    exists ("/" ++ Name d1 ++ rest). split; [|reflexivity].
    rewrite E. unfold relJoin. apply String.eqb_neq in Hrel. rewrite Hrel.
    now rewrite !append_assoc.
Qed.

Lemma collected_entry : forall d rel name b,
    validEntries d = true -> validName name = true ->
    In b (collected prunes leaf (relJoin rel name) d) ->
    exists rest,
      key b = (if String.eqb rel "." then EmptyString else rel ++ "/") ++ name ++ rest
      /\ GoFilepath.endsElement rest = true.
Proof.
  intros d rel name b Hv Hn Hin.
  destruct (collected_below d (relJoin rel name) b Hv (relJoin_not_root _ _ Hn) Hin)
    as [rest [E Hrest]].
  exists rest. split; [|exact Hrest].
  now rewrite E, relJoin_base, append_assoc.
Qed.

Lemma collected_NoDup : forall d rel,
    validEntries d = true -> distinctNames d = true ->
    NoDup (map key (collected prunes leaf rel d)).
Proof.
  induction d as [name regular info data | name readErr entries IH]
    using node_induction; intros rel Hv Hd.
  - apply leaf_once.
  - cbn [collected]. destruct (prunes rel name); [constructor|].
    unfold validEntries in Hv. cbn [namedEntries distinctNames] in Hv, Hd.
    apply andb_prop in Hd. destruct Hd as [Hdis Hd].
    induction IH as [|d ds Hd1 _ IHds]; [constructor|].
    cbn [forallb map distinct flat_map] in *.
    apply andb_prop in Hv. destruct Hv as [Hv1 Hv2].
    apply andb_prop in Hv1. destruct Hv1 as [Hn Hvd].
    apply andb_prop in Hd. destruct Hd as [Hdd Hds].
    apply andb_prop in Hdis. destruct Hdis as [Hfresh Hdis].
    apply negb_true_iff in Hfresh.
    rewrite map_app. apply NoDup_app.
    + now apply Hd1.
    + now apply IHds.
    + intros k Hk1 Hk2.
      apply in_map_iff in Hk1. destruct Hk1 as [b1 [E1 Hb1]].
      apply in_map_iff in Hk2. destruct Hk2 as [b2 [E2 Hb2]].
      apply in_flat_map in Hb2. destruct Hb2 as [d2 [Hd2 Hb2]].
      rewrite forallb_forall in Hv2. specialize (Hv2 d2 Hd2).
      apply andb_prop in Hv2. destruct Hv2 as [Hn2 Hvd2].
      destruct (collected_entry d rel (Name d) b1 Hvd Hn Hb1) as [r1 [K1 R1]].
      destruct (collected_entry d2 rel (Name d2) b2 Hvd2 Hn2 Hb2) as [r2 [K2 R2]].
      rewrite E1 in K1. rewrite E2 in K2. rewrite K1 in K2.
      apply append_cancel_l in K2.
      apply element_unique in K2;
        try assumption; try (now apply validName_notSeparator).
      apply (distinct_not_in _ _ Hfresh). rewrite K2. now apply in_map.
Qed.

End CollectKeys.

Lemma main_keeps_key cfg rel d b : In b (main_keeps cfg rel d) -> path b = rel.
Proof.
  unfold main_keeps. destruct d as [name [] [size|] [bytes|] | ]; try contradiction.
  destruct (_ && _); [|contradiction].
  intros [<-|[]]. apply ToSlash_id.
Qed.

Lemma main_keeps_once cfg rel d : NoDup (map path (main_keeps cfg rel d)).
Proof.
  unfold main_keeps. destruct d as [name [] [size|] [bytes|] | ]; try constructor.
  destruct (_ && _); repeat constructor. intros [].
Qed.

Lemma part001_keeps_key cfg ignorer rel d b :
  In b (part001_keeps cfg ignorer rel d) -> path b = rel.
Proof.
  unfold part001_keeps. destruct d as [name [] [size|] [bytes|] | ]; try contradiction.
  cbv zeta. destruct (_ && _); [|contradiction].
  intros [<-|[]]. apply ToSlash_id.
Qed.

Lemma part001_keeps_once cfg ignorer rel d :
  NoDup (map path (part001_keeps cfg ignorer rel d)).
Proof.
  unfold part001_keeps. destruct d as [name [] [size|] [bytes|] | ]; try constructor.
  cbv zeta. destruct (_ && _); repeat constructor. intros [].
Qed.

(** What a walk that may fail has collected is a first part of what the
    walk of the whole tree collects. *)
Section WalkCollectPart.
Context {St B : Type}.
Variable fn : string -> option node -> option string -> St -> St * option walkErr.
Variable out : St -> list B.
Variable prunes : string -> string -> bool.
Variable leaf : string -> node -> list B.
Hypothesis fn_file : forall rel name regular info data st,
    snd (fn rel (Some (File name regular info data)) None st) = None
    /\ out (fst (fn rel (Some (File name regular info data)) None st))
       = (out st ++ leaf rel (File name regular info data))%list.
Hypothesis fn_dir : forall rel name e ds st,
    snd (fn rel (Some (Dir name e ds)) None st)
    = (if prunes rel name then Some SkipDir else None)
    /\ out (fst (fn rel (Some (Dir name e ds)) None st)) = out st.
Hypothesis fn_err : forall rel d e st, fn rel d (Some e) st = (st, Some (Failure e)).

Lemma walkDir_collects_part : forall d rel st,
    snd (walkDir fn rel d st) <> Some SkipDir
    /\ exists l l',
        out (fst (walkDir fn rel d st)) = (out st ++ l)%list
        /\ collected prunes leaf rel d = (l ++ l')%list
        /\ (snd (walkDir fn rel d st) = None -> l' = []).
Proof.
  induction d as [name regular info data | name readErr entries IH]
    using node_induction; intros rel st.
  - rewrite walkDir_File.
    destruct (fn_file rel name regular info data st) as [E1 E2].
    split; [rewrite E1; discriminate|].
    exists (leaf rel (File name regular info data)), [].
    cbn [collected]. rewrite app_nil_r. now repeat split.
  - rewrite walkDir_Dir.
    pose proof (fn_dir rel name readErr entries st) as H.
    destruct (fn rel (Some (Dir name readErr entries)) None st) as [st1 err].
    cbn [fst snd] in H. destruct H as [H1 H2]. subst err. cbn [collected].
    destruct (prunes rel name).
    { cbn [fst snd]. split; [discriminate|]. exists [], [].
      rewrite H2, app_nil_r. now repeat split. }
    destruct readErr as [e|].
    { rewrite fn_err. cbn [fst snd]. split; [discriminate|].
      exists [], (flat_map (fun d1 => collected prunes leaf (relJoin rel (Name d1)) d1)
                           entries).
      rewrite H2, app_nil_r. repeat split. discriminate. }
    rewrite <- H2. clear st H2. revert st1.
    induction IH as [|d ds Hd _ IHds]; intros st1.
    { cbn. split; [discriminate|]. exists [], []. rewrite app_nil_r. now repeat split. }
    cbn [walkEntries flat_map].
    destruct (Hd (relJoin rel (Name d)) st1) as [Hskip [l1 [l1' [E1 [E2 E3]]]]].
    destruct (walkDir fn (relJoin rel (Name d)) d st1) as [st' err1].
    cbn [fst snd] in *. destruct err1 as [e|].
    + destruct e as [| |e]; [congruence| |];
        (cbn [fst snd]; split; [discriminate|];
         exists l1,
         (l1' ++ flat_map (fun d1 => collected prunes leaf (relJoin rel (Name d1)) d1)
                          ds)%list;
         rewrite E1, E2, app_assoc; repeat split; discriminate).
    + rewrite (E3 eq_refl), app_nil_r in E2.
      destruct (IHds st') as [Hskip' [l2 [l2' [F1 [F2 F3]]]]].
      split; [exact Hskip'|]. exists (l1 ++ l2)%list, l2'.
      rewrite F1, E1, E2, F2, !app_assoc. now repeat split.
Qed.

Lemma WalkDir_collects_part root st :
  exists l,
    out (fst (WalkDir fn root st)) = (out st ++ l)%list
    /\ match root with
       | Found d => exists l', collected prunes leaf "." d = (l ++ l')%list
       | Missing _ => l = []
       end.
Proof.
  unfold WalkDir. destruct root as [d|e].
  - destruct (walkDir_collects_part d "." st) as [_ [l [l' [E1 [E2 _]]]]].
    destruct (walkDir fn "." d st) as [st' err]. cbn [fst] in E1.
    exists l. split; [|now exists l'].
    now destruct err as [[]|].
  - rewrite fn_err. exists []. now rewrite app_nil_r.
Qed.

End WalkCollectPart.

Lemma part001_walkFn_err cfg ignorer rel d e st :
  Part001.walkFn cfg ignorer rel d (Some e) st = (st, Some (Failure e)).
Proof. reflexivity. Qed.

(** X19.  In a tree whose directory listings hold file names (not empty,
    without separator, neither [.] nor [..]) and no name twice, the walk
    of [src/main.go] and that of [src/unnamed/part_001] collect no path
    twice, whether the walk ends with an error or not: the files of the
    result of [filepath.WalkDir] have pairwise distinct paths. *)
Theorem no_path_is_collected_twice :
  forall d,
    validEntries d = true -> distinctNames d = true ->
    (forall cfg,
        NoDup (map path
                   (Main.files
                      (fst (WalkDir (Main.walkFn cfg) (Found d) Main.initial)))))
    /\ (forall cfg ignorer,
           NoDup (map path
                      (Part001.files
                         (fst (WalkDir (Part001.walkFn cfg ignorer) (Found d)
                                       Part001.initial))))).
Proof.
  intros d Hv Hd. split.
  - intros cfg.
    destruct (WalkDir_collects_part (Main.walkFn cfg) Main.files (main_prunes cfg)
                                    (main_keeps cfg) (main_walkFn_keeps cfg)
                                    (main_walkFn_prunes cfg) (main_walkFn_err cfg)
                                    (Found d) Main.initial) as [l [E [l' El]]].
    rewrite E. cbn [Main.files Main.initial app].
    pose proof (collected_NoDup path (main_prunes cfg) (main_keeps cfg)
                                (main_keeps_key cfg) (main_keeps_once cfg) d "." Hv Hd)
      as Hnd.
    rewrite El, map_app in Hnd. now apply NoDup_app_remove_r in Hnd.
  - intros cfg ignorer.
    destruct (WalkDir_collects_part (Part001.walkFn cfg ignorer) Part001.files
                                    (part001_prunes ignorer) (part001_keeps cfg ignorer)
                                    (part001_walkFn_keeps cfg ignorer)
                                    (part001_walkFn_prunes cfg ignorer)
                                    (part001_walkFn_err cfg ignorer)
                                    (Found d) Part001.initial) as [l [E [l' El]]].
    rewrite E. cbn [Part001.files Part001.initial app].
    pose proof (collected_NoDup path (part001_prunes ignorer) (part001_keeps cfg ignorer)
                                (part001_keeps_key cfg ignorer)
                                (part001_keeps_once cfg ignorer) d "." Hv Hd) as Hnd.
    rewrite El, map_app in Hnd. now apply NoDup_app_remove_r in Hnd.
Qed.

Lemma no_path_is_collected_twice_witness :
  NoDup (map path
             (Main.files
                (fst (WalkDir (Main.walkFn Sample.main_defaults)
                              (Found Sample.withUnreadableDir) Main.initial)))).
Proof.
  apply (proj1 (no_path_is_collected_twice Sample.withUnreadableDir eq_refl eq_refl)).
Defined.

(** ** The name of a file in its path *)

Lemma stripTrailingSeparators_name : forall name,
    all notSeparator name = true ->
    GoFilepath.stripTrailingSeparators name = name.
Proof.
  induction name as [|c name IH]; intros H; [reflexivity|].
  cbn [all] in H. apply andb_prop in H. destruct H as [Hc H].
  unfold notSeparator in Hc. apply negb_true_iff in Hc.
  cbn [GoFilepath.stripTrailingSeparators]. rewrite (IH H), Hc.
  now destruct name.
Qed.

Lemma stripTrailingSeparators_append : forall u name,
    name <> EmptyString -> all notSeparator name = true ->
    GoFilepath.stripTrailingSeparators (u ++ name) = u ++ name.
Proof.
  induction u as [|c u IH]; intros name Hne H.
  - now apply stripTrailingSeparators_name.
  - cbn [String.append GoFilepath.stripTrailingSeparators]. rewrite (IH name Hne H).
    destruct (u ++ name) eqn:E; [|reflexivity].
    destruct u; [cbn in E; congruence | discriminate].
Qed.

Lemma lastElement_name : forall name found,
    all notSeparator name = true -> GoFilepath.lastElement name found = found.
Proof.
  induction name as [|c name IH]; intros found H; [reflexivity|].
  cbn [all] in H. apply andb_prop in H. destruct H as [Hc H].
  unfold notSeparator in Hc. apply negb_true_iff in Hc.
  cbn [GoFilepath.lastElement]. rewrite Hc. now apply IH.
Qed.

Lemma lastElement_append : forall u name found,
    all notSeparator name = true ->
    GoFilepath.lastElement (u ++ String "/" name) found = name.
Proof.
  induction u as [|c u IH]; intros name found H.
  - cbn [String.append GoFilepath.lastElement].
    change (GoFilepath.IsPathSeparator "/") with true. cbv iota.
    now apply lastElement_name.
  - cbn [String.append GoFilepath.lastElement].
    destruct (GoFilepath.IsPathSeparator c); now apply IH.
Qed.

Lemma Base_relJoin rel name :
  validName name = true -> GoFilepath.Base (relJoin rel name) = name.
Proof.
  intros Hv. pose proof (validName_notSeparator _ Hv) as Hs.
  assert (Hne : name <> EmptyString).
  { unfold validName in Hv. destruct name; [discriminate | discriminate]. }
  unfold relJoin. destruct (String.eqb rel ".").
  - unfold GoFilepath.Base. destruct name as [|c name]; [congruence|].
    cbv zeta. rewrite (stripTrailingSeparators_name _ Hs).
    now rewrite (lastElement_name _ _ Hs).
  - unfold GoFilepath.Base.
    destruct (rel ++ String GoFilepath.Separator EmptyString ++ name) eqn:E.
    { destruct rel; discriminate. }
    rewrite <- E. cbv zeta.
    change (rel ++ String GoFilepath.Separator EmptyString ++ name)
      with (rel ++ String "/" name) in *.
    replace (rel ++ String "/" name) with ((rel ++ "/") ++ name) at 1 2
      by (now rewrite append_assoc).
    rewrite (stripTrailingSeparators_append _ _ Hne Hs).
    rewrite append_assoc. cbn [String.append].
    rewrite (lastElement_append _ _ _ Hs).
    destruct name; [congruence | reflexivity].
Qed.

Lemma EqualFold_ToLower : forall s t,
    GoStrings.EqualFold s t = String.eqb (GoStrings.ToLower s) (GoStrings.ToLower t).
Proof.
  induction s as [|a s IH]; intros [|b t]; try reflexivity.
  cbn [GoStrings.EqualFold GoStrings.ToLower String.eqb]. rewrite IH.
  now destruct (Ascii.eqb (GoStrings.lowerByte a) (GoStrings.lowerByte b)).
Qed.

(** X20.  Whether a collected file sorts first as the readme depends on
    its own name only, not on the directory it is in: for an entry
    [name] found in the directory at [rel], [filepath.Base] of its
    relative path is [name], and the file counts as the readme exactly
    when [name], in lower case, is [readme.md]. *)
Theorem readme_is_told_by_the_name :
  forall rel name bytes,
    validName name = true ->
    GoFilepath.Base (relJoin rel name) = name
    /\ isReadme (mkFileData (GoFilepath.ToSlash (relJoin rel name)) bytes)
       = String.eqb (GoStrings.ToLower name) "readme.md".
Proof.
  intros rel name bytes Hv. split; [now apply Base_relJoin|].
  unfold isReadme. cbn [path]. rewrite ToSlash_id, (Base_relJoin _ _ Hv).
  now rewrite EqualFold_ToLower.
Qed.

Lemma readme_is_told_by_the_name_witness :
  isReadme (mkFileData (GoFilepath.ToSlash (relJoin "docs/api" "ReadMe.MD")) "# api")
  = true.
Proof.
  apply (proj2 (readme_is_told_by_the_name "docs/api" "ReadMe.MD" "# api" eq_refl)).
Defined.

(** ** The size limit *)

Lemma wrap64_small (z : Z) :
  (- 9223372036854775808 <= z < 9223372036854775808)%Z -> wrap64 z = z.
Proof. intros H. unfold wrap64. rewrite Z.mod_small; lia. Qed.

(** X21.  With a limit [-s L] of [0 <= L < 2^53] the limit in bytes is
    [1024 * L], and a regular file above it that no [-e] pattern matches
    is reported by [src/main.go] with its size in KB rounded down: the
    number shown is never below [L], and it is [L] itself, as in
    [too large: 25KB > 25KB], for a file up to 1023 bytes above the
    limit. *)
Theorem too_large_message_rounds_down :
  forall cfg rel name data st size,
    (0 <= Main.sizeLimitKB cfg < 9007199254740992)%Z ->
    matchAny (Main.excludes cfg) rel = false ->
    (1024 * Main.sizeLimitKB cfg < size)%Z ->
    Main.walkFn cfg rel (Some (File name true (Some size) data)) None st
    = (Main.skip (Main.call st (InfoCall rel))
                 (rel ++ " (too large: " ++ GoFmt.itoa (Z.quot size 1024)
                      ++ "KB > " ++ GoFmt.itoa (Main.sizeLimitKB cfg) ++ "KB)"),
       None)
    /\ (Main.sizeLimitKB cfg <= Z.quot size 1024)%Z
    /\ ((size < 1024 * (Main.sizeLimitKB cfg + 1))%Z ->
        Z.quot size 1024 = Main.sizeLimitKB cfg).
Proof.
  intros cfg rel name data st size HL Hex Hsize.
  assert (Hmax : Main.maxSizeBytes cfg = (1024 * Main.sizeLimitKB cfg)%Z).
  { unfold Main.maxSizeBytes. rewrite wrap64_small; lia. }
  rewrite Z.quot_div_nonneg by lia.
  split; [|split].
  - unfold Main.walkFn. cbn [negb]. rewrite Hex. cbv zeta.
    rewrite Hmax. replace (size >? 1024 * Main.sizeLimitKB cfg)%Z with true
      by (symmetry; apply Z.gtb_lt; lia).
    now rewrite Z.quot_div_nonneg by lia.
  - apply Z.div_le_lower_bound; lia.
  - intros Hup. symmetry. apply (Z.div_unique size 1024 _ (size - 1024 * Main.sizeLimitKB cfg)); lia.
Qed.

Lemma too_large_message_rounds_down_witness :
  Main.walkFn Sample.main_defaults "a.go"
              (Some (File "a.go" true (Some 26000%Z) (Some "package a"))) None
              Main.initial
  = (Main.mkState [] ["a.go (too large: 25KB > 25KB)"] [InfoCall "a.go"], None).
Proof.
  apply (proj1 (too_large_message_rounds_down
                  Sample.main_defaults "a.go" "a.go" (Some "package a") Main.initial
                  26000%Z ltac:(cbn; lia) eq_refl ltac:(cbn; lia))).
Defined.

Lemma sizeFits_nonpositive (maxSizeBytes size : Z) :
  (maxSizeBytes <= 0)%Z -> (0 <= size)%Z -> sizeFits maxSizeBytes size = false.
Proof.
  intros Hmax Hsize. unfold sizeFits.
  destruct (Z.gtb_spec size maxSizeBytes); [reflexivity|].
  replace size with 0%Z by lia. reflexivity.
Qed.

Lemma main_selected_nonpositive cfg : forall d rel,
    (Main.maxSizeBytes cfg <= 0)%Z -> nonNegativeSizes d = true ->
    collected (main_prunes cfg) (main_keeps cfg) rel d = [].
Proof.
  induction d as [name regular info data | name readErr entries IH]
    using node_induction; intros rel Hmax Hs.
  - cbn [collected main_keeps nonNegativeSizes] in *.
    destruct regular, info as [size|], data; try reflexivity.
    apply Z.leb_le in Hs. rewrite (sizeFits_nonpositive _ _ Hmax Hs).
    now rewrite andb_false_r.
  - cbn [collected nonNegativeSizes] in *.
    destruct (main_prunes cfg rel name); [reflexivity|].
    induction IH as [|d ds Hd _ IHds]; [reflexivity|].
    cbn [forallb flat_map] in *. apply andb_prop in Hs. destruct Hs as [Hs1 Hs2].
    now rewrite (Hd _ Hmax Hs1), (IHds Hs2).
Qed.

(** X22.  With a limit [-s L] that is zero or negative (down to [-2^53])
    [src/main.go] selects no file of a tree, whatever the patterns; where
    every directory that is not pruned can be listed, the run prints
    nothing to the standard output and its exit status is 0. *)
Theorem nonpositive_limit_selects_nothing :
  forall cfg d,
    (- 9007199254740992 <= Main.sizeLimitKB cfg <= 0)%Z ->
    nonNegativeSizes d = true ->
    main_selected cfg d = []
    /\ (forall w absRoot,
           Main.useClaudeXML cfg && Main.useMarkdown cfg = false ->
           (List.length (Main.positionalArgs cfg) <= 1)%nat ->
           Abs w (Main.rootDir cfg) = inl absRoot ->
           root w absRoot = Found d ->
           readable (erasePruned (main_prunes cfg) "." d) = true ->
           stdout (Main.main cfg w) = EmptyString
           /\ exitCode (Main.main cfg w) = 0%Z).
Proof.
  intros cfg d HL Hs.
  assert (Hmax : (Main.maxSizeBytes cfg <= 0)%Z).
  { unfold Main.maxSizeBytes. rewrite wrap64_small; lia. }
  assert (Hnil : main_selected cfg d = [])
    by (now apply main_selected_nonpositive).
  split; [exact Hnil|].
  intros w absRoot Hflags Hargs Habs Hroot Hr. unfold Main.main.
  rewrite Hflags. apply Nat.ltb_ge in Hargs. rewrite Hargs, Habs, Hroot.
  destruct (WalkDir_collects (Main.walkFn cfg) Main.files (main_prunes cfg)
                             (main_keeps cfg) (main_walkFn_keeps cfg)
                             (main_walkFn_prunes cfg) d Main.initial Hr) as [E1 E2].
  destruct (WalkDir (Main.walkFn cfg) (Found d) Main.initial) as [st err].
  cbn [fst snd] in E1, E2. subst err. fold (main_selected cfg d) in E2.
  rewrite Hnil in E2. cbn [Main.files Main.initial app] in E2. rewrite E2.
  now split.
Qed.

Lemma nonpositive_limit_selects_nothing_witness :
  stdout (Main.main (Main.mkConfig 0 false false EmptyString [] [] [])
                    (Sample.worldOf Sample.scenario))
  = EmptyString.
Proof.
  apply (proj1 (proj2 (nonpositive_limit_selects_nothing
                         (Main.mkConfig 0 false false EmptyString [] [] [])
                         Sample.scenario ltac:(cbn; lia) eq_refl)
                      (Sample.worldOf Sample.scenario) "/work/."
                      eq_refl (Nat.le_0_l 1) eq_refl eq_refl eq_refl)).
Defined.

(** ** The path given to [-p] *)

Lemma dotdot_match (s : string) :
  match s with
  | String "." s' => GoFilepath.endsElement s'
  | _ => false
  end
  = GoStrings.HasPrefix s "." && GoFilepath.endsElement (drop 1 s).
Proof.
  destruct s as [|c s]; [reflexivity|].
  destruct c as [[] [] [] [] [] [] [] []]; try reflexivity;
    cbn; now rewrite ?andb_true_r.
Qed.

Lemma element_append : forall e rest,
    all notSeparator e = true -> GoFilepath.endsElement rest = true ->
    GoFilepath.element (e ++ rest) = (e, rest).
Proof.
  induction e as [|c e IH]; intros rest He Hr.
  - destruct rest as [|c rest]; [reflexivity|].
    cbn [GoFilepath.endsElement] in Hr. cbn [String.append GoFilepath.element].
    now rewrite Hr.
  - cbn [all] in He. apply andb_prop in He. destruct He as [Hc He].
    unfold notSeparator in Hc. apply negb_true_iff in Hc.
    cbn [String.append GoFilepath.element]. rewrite Hc, (IH rest He Hr).
    reflexivity.
Qed.

Lemma validName_head c e :
  validName (String c e) = true ->
  GoFilepath.IsPathSeparator c = false /\ all notSeparator e = true.
Proof.
  intros Hv. apply validName_notSeparator in Hv. cbn [all] in Hv.
  apply andb_prop in Hv. destruct Hv as [Hc He].
  unfold notSeparator in Hc. apply negb_true_iff in Hc. now split.
Qed.

Lemma cleanLoop_element fuel e rest out :
  validName e = true -> GoFilepath.endsElement rest = true ->
  GoFilepath.cleanLoop (S fuel) false (e ++ rest) out 0
  = GoFilepath.cleanLoop fuel false rest
                         ((if isEmpty out then EmptyString else out ++ "/") ++ e) 0.
Proof.
  intros Hv Hr. pose proof (validName_notSeparator _ Hv) as Hs.
  destruct e as [|c e]; [discriminate|].
  destruct (validName_head _ _ Hv) as [Hc He].
  assert (F2 : Ascii.eqb c "."%char && GoFilepath.endsElement (e ++ rest) = false).
  { destruct (Ascii.eqb_spec c "."%char) as [->|]; [|reflexivity].
    destruct e as [|c2 e]; [discriminate Hv|].
    cbn [andb String.append GoFilepath.endsElement].
    cbn [all] in He. apply andb_prop in He. destruct He as [Hc2 _].
    unfold notSeparator in Hc2. now apply negb_true_iff in Hc2. }
  assert (F3 : Ascii.eqb c "."%char
               && (GoStrings.HasPrefix (e ++ rest) "."
                   && GoFilepath.endsElement (drop 1 (e ++ rest))) = false).
  { destruct (Ascii.eqb_spec c "."%char) as [->|]; [|reflexivity].
    destruct e as [|c2 e]; [discriminate Hv|].
    cbn [andb String.append GoStrings.HasPrefix drop].
    destruct (Ascii.eqb_spec "."%char c2) as [<-|]; [|reflexivity].
    destruct e as [|c3 e]; [discriminate Hv|].
    cbn [andb String.append GoFilepath.endsElement].
    cbn [all] in He. apply andb_prop in He. destruct He as [_ He].
    apply andb_prop in He. destruct He as [Hc3 _].
    unfold notSeparator in Hc3. now apply negb_true_iff in Hc3. }
  cbn [String.append GoFilepath.cleanLoop]. rewrite Hc, F2, dotdot_match, F3.
  change (String c (e ++ rest)) with (String c e ++ rest).
  rewrite (element_append _ _ Hs Hr). cbn [andb orb negb].
  destruct out as [|c0 out]; reflexivity.
Qed.

Lemma cleanLoop_separator fuel path out :
  GoFilepath.cleanLoop (S fuel) false (String "/" path) out 0
  = GoFilepath.cleanLoop fuel false path out 0.
Proof. reflexivity. Qed.

Lemma cleanLoop_end fuel out : GoFilepath.cleanLoop fuel false EmptyString out 0 = out.
Proof. now destruct fuel. Qed.

Lemma validName_length e : validName e = true -> (1 <= String.length e)%nat.
Proof. destruct e; [discriminate | cbn; lia]. Qed.

Lemma cleanLoop_elements : forall elems fuel out rest,
    Forall (fun e => validName e = true) elems -> elems <> [] ->
    GoFilepath.endsElement rest = true ->
    (String.length (String.concat "/" elems ++ rest) <= fuel)%nat ->
    exists fuel',
      (String.length rest <= fuel')%nat
      /\ GoFilepath.cleanLoop fuel false (String.concat "/" elems ++ rest) out 0
         = GoFilepath.cleanLoop
             fuel' false rest
             ((if isEmpty out then EmptyString else out ++ "/")
                ++ String.concat "/" elems) 0.
Proof.
  induction elems as [|e elems IH]; intros fuel out rest Hv Hne Hr Hf; [congruence|].
  inversion Hv as [|? ? He Hes]; subst. pose proof (validName_length _ He) as Hl.
  destruct elems as [|e2 elems].
  - cbn [String.concat] in *. rewrite length_append in Hf.
    destruct fuel as [|fuel]; [lia|]. exists fuel. split; [lia|].
    now apply cleanLoop_element.
  - change (String.concat "/" (e :: e2 :: elems))
      with (e ++ "/" ++ String.concat "/" (e2 :: elems)) in *.
    rewrite !append_assoc in *. rewrite !length_append in Hf.
    cbn [String.append String.length] in Hf.
    destruct fuel as [|fuel]; [lia|].
    rewrite (cleanLoop_element fuel e ("/" ++ String.concat "/" (e2 :: elems) ++ rest)
                               out He eq_refl).
    destruct fuel as [|fuel]; [lia|].
    cbn [String.append]. rewrite cleanLoop_separator.
    destruct (IH fuel ((if isEmpty out then EmptyString else out ++ "/") ++ e) rest
                 Hes ltac:(discriminate) Hr) as [fuel' [Hf' E]].
    { rewrite length_append. lia. }
    exists fuel'. split; [exact Hf'|]. rewrite E. f_equal.
    destruct e as [|c e]; [discriminate|].
    destruct out; cbn [isEmpty String.append]; now rewrite ?append_assoc.
Qed.

Lemma Clean_plain elems junction :
  Forall (fun e => validName e = true) elems -> elems <> [] ->
  junction = EmptyString \/ junction = "/" ->
  forall rels,
    Forall (fun e => validName e = true) rels -> rels <> [] ->
    GoFilepath.Clean (String.concat "/" elems ++ junction ++ "/"
                                    ++ String.concat "/" rels)
    = String.concat "/" elems ++ "/" ++ String.concat "/" rels.
Proof.
  intros Hv Hne Hj rels Hrv Hrne.
  set (tail := junction ++ "/" ++ String.concat "/" rels).
  assert (Htail : GoFilepath.endsElement tail = true)
    by (destruct Hj as [-> | ->]; reflexivity).
  assert (Hhead : exists c p, String.concat "/" elems = String c p
                              /\ GoFilepath.IsPathSeparator c = false).
  { destruct elems as [|e elems]; [congruence|]. inversion Hv as [|? ? He _]; subst.
    destruct e as [|c e]; [discriminate|].
    destruct (validName_head _ _ He) as [Hc _].
    destruct elems; cbn [String.concat String.append]; eauto. }
  destruct Hhead as [c [p [Ep Hc]]].
  unfold GoFilepath.Clean.
  destruct (String.concat "/" elems ++ tail) as [|c' p'] eqn:E.
  { rewrite Ep in E. discriminate. }
  assert (Hc' : GoFilepath.IsPathSeparator c' = false).
  { rewrite Ep in E. cbn [String.append] in E. injection E as <- _. exact Hc. }
  rewrite Hc'. rewrite <- E. clear E Hc' c' p'.
  destruct (cleanLoop_elements elems (String.length (String.concat "/" elems ++ tail))
                               EmptyString tail Hv Hne Htail (le_n _))
    as [fuel1 [Hf1 E1]].
  rewrite E1. cbn [isEmpty String.append]. clear E1.
  assert (E2 : exists fuel2,
             (String.length (String.concat "/" rels) <= fuel2)%nat
             /\ GoFilepath.cleanLoop fuel1 false tail (String.concat "/" elems) 0
                = GoFilepath.cleanLoop fuel2 false (String.concat "/" rels)
                                       (String.concat "/" elems) 0).
  { subst tail. destruct Hj as [-> | ->]; cbn [String.append String.length] in *.
    - destruct fuel1 as [|fuel1]; [lia|]. exists fuel1. split; [lia|].
      apply cleanLoop_separator.
    - destruct fuel1 as [|[|fuel1]]; try lia. exists fuel1. split; [lia|].
      now rewrite !cleanLoop_separator. }
  destruct E2 as [fuel2 [Hf2 E2]]. rewrite E2. clear E2.
  destruct (cleanLoop_elements rels fuel2 (String.concat "/" elems) EmptyString
                               Hrv Hrne eq_refl) as [fuel3 [_ E3]].
  { now rewrite append_nil_r. }
  rewrite append_nil_r in E3. rewrite E3, cleanLoop_end.
  rewrite Ep. cbn [isEmpty String.append]. now rewrite append_assoc.
Qed.

(** X23.  With [-p] a path of one or more plain names joined by slashes
    (no empty name, no [.], no [..]), with or without a slash at its
    end, a file whose relative path is made of plain names is shown
    under the name [prefix/path]; with no [-p] it is shown under its
    relative path. *)
Theorem prepended_path_is_prefix_and_path :
  forall prefix rel,
    Forall (fun e => validName e = true) prefix -> prefix <> [] ->
    Forall (fun e => validName e = true) rel -> rel <> [] ->
    Main.applyPrepend (String.concat "/" rel) (String.concat "/" prefix)
    = String.concat "/" prefix ++ "/" ++ String.concat "/" rel
    /\ Main.applyPrepend (String.concat "/" rel) (String.concat "/" prefix ++ "/")
       = String.concat "/" prefix ++ "/" ++ String.concat "/" rel
    /\ Main.applyPrepend (String.concat "/" rel) EmptyString = String.concat "/" rel.
Proof.
  intros prefix rel Hp Hpne Hr Hrne.
  assert (Hne : String.concat "/" prefix <> EmptyString).
  { destruct prefix as [|e prefix]; [congruence|]. inversion Hp as [|? ? He _]; subst.
    destruct e; [discriminate|]. destruct prefix; discriminate. }
  split; [|split; [|reflexivity]].
  - unfold Main.applyPrepend, GoFilepath.Join.
    destruct (String.concat "/" prefix) eqn:E; [congruence|]. rewrite <- E.
    rewrite ToSlash_id.
    apply (Clean_plain prefix EmptyString Hp Hpne (or_introl eq_refl) rel Hr Hrne).
  - unfold Main.applyPrepend, GoFilepath.Join.
    destruct (String.concat "/" prefix ++ "/") eqn:E.
    { destruct (String.concat "/" prefix); [congruence | discriminate]. }
    rewrite <- E. rewrite ToSlash_id.
    pose proof (Clean_plain prefix "/" Hp Hpne (or_intror eq_refl) rel Hr Hrne) as H.
    rewrite append_assoc. exact H.
Qed.

Lemma prepended_path_is_prefix_and_path_witness :
  Main.applyPrepend "cmd/main.go" "repo/src/" = "repo/src/cmd/main.go".
Proof.
  apply (proj1 (proj2 (prepended_path_is_prefix_and_path
                         ["repo"; "src"] ["cmd"; "main.go"]
                         ltac:(repeat constructor) ltac:(discriminate)
                         ltac:(repeat constructor) ltac:(discriminate)))).
Defined.

(** ** The Markdown of the first variant *)

Lemma forcedNewline_cases (content : string) :
  forcedNewline content = EmptyString \/ forcedNewline content = newline.
Proof.
  unfold forcedNewline. destruct (lastByte content) as [c|]; [|now left].
  destruct (Ascii.eqb c "010"%char); [now left | now right].
Qed.

(** X24.  The Markdown of [src/unnamed/part_000] and that of
    [src/main.go] with no [-p] are the same text for files whose content
    is not empty and does not end in a newline; for any other file they
    differ: the first variant writes a newline before the closing fence
    in every case. *)
Theorem markdown_of_the_first_variant :
  (forall files,
      Forall (fun file => forcedNewline (content file) = newline) files ->
      Part000.buildMarkdown EmptyString files
      = Main.buildMarkdown EmptyString files EmptyString)
  /\ (forall file,
         Part000.buildMarkdown EmptyString [file]
         = Main.buildMarkdown EmptyString [file] EmptyString ->
         forcedNewline (content file) = newline).
Proof.
  split.
  - intros files H.
    rewrite part000_buildMarkdown_blocks, main_buildMarkdown_blocks. f_equal. f_equal.
    induction H as [|file files Hf _ IH]; [reflexivity|].
    cbn [map]. rewrite IH. f_equal.
    unfold part000_markdownBlock, main_markdownBlock, markdownBody.
    now rewrite Hf.
  - intros file E.
    rewrite part000_buildMarkdown_blocks, main_buildMarkdown_blocks in E.
    cbn [map joinBlocks fold_right String.append] in E.
    rewrite !append_nil_r in E.
    unfold part000_markdownBlock, main_markdownBlock, markdownBody in E.
    change (Main.applyPrepend (path file) EmptyString) with (path file) in E.
    change (Part000.getLanguageHint (path file))
      with (Main.getLanguageHint (path file)) in E.
    apply append_cancel_l in E. rewrite !append_assoc in E.
    apply append_cancel_l in E.
    destruct (forcedNewline_cases (content file)) as [E0|E0]; [|exact E0].
    rewrite E0 in E. discriminate E.
Qed.

Lemma markdown_of_the_first_variant_witness :
  Part000.buildMarkdown EmptyString [mkFileData "a.go" "package a"]
  = Main.buildMarkdown EmptyString [mkFileData "a.go" "package a"] EmptyString.
Proof.
  apply (proj1 markdown_of_the_first_variant [mkFileData "a.go" "package a"]).
  repeat constructor.
Defined.

(** ** The comparison given to [sort.Slice] *)

Lemma string_ltb_trans (a b c : string) :
  String.ltb a b = true -> String.ltb b c = true -> String.ltb a c = true.
Proof.
  unfold String.ltb.
  destruct (String.compare a b) eqn:Eab; try discriminate.
  destruct (String.compare b c) eqn:Ebc; try discriminate.
  intros _ _. now rewrite (string_compare_lt_trans a b c Eab Ebc).
Qed.

Lemma less_true_iff (a b : fileData) :
  less a b = true <->
  (isReadme a = true /\ isReadme b = false)
  \/ (isReadme a = isReadme b /\ String.ltb (path a) (path b) = true).
Proof.
  unfold less. destruct (isReadme a), (isReadme b); cbn; intuition congruence.
Qed.

(** X25.  The comparison the three variants give to [sort.Slice] is what
    that function asks for, a strict weak ordering: no file is before
    itself, being before is transitive, and so is being neither before
    nor after; and of two files with different paths one is before the
    other. *)
Theorem less_is_a_strict_weak_ordering :
  (forall a, less a a = false)
  /\ (forall a b c, less a b = true -> less b c = true -> less a c = true)
  /\ (forall a b c,
         less a b = false -> less b a = false ->
         less b c = false -> less c b = false ->
         less a c = false /\ less c a = false)
  /\ (forall a b, path a <> path b -> less a b = true \/ less b a = true).
Proof.
  split; [|split; [|split]].
  - intros a. destruct (less a a) eqn:E; [|reflexivity].
    pose proof (less_asym a a E). congruence.
  - intros a b c. rewrite !less_true_iff.
    intros [[A1 A2]|[A1 A2]] [[B1 B2]|[B1 B2]].
    + congruence.
    + left. split; congruence.
    + left. split; congruence.
    + right. split; [congruence|]. now apply (string_ltb_trans _ (path b)).
  - intros a b c Hab Hba Hbc Hcb. split.
    + apply (less_false_trans c b a); assumption.
    + apply (less_false_trans a b c); assumption.
  - intros a b Hne.
    destruct (less a b) eqn:Eab; [now left|]. right.
    destruct (less b a) eqn:Eba; [reflexivity|].
    exfalso. apply Hne. now apply less_both_false.
Qed.

Lemma less_is_a_strict_weak_ordering_witness :
  less (mkFileData "docs/README.md" "# docs") (mkFileData "a.go" "package a") = true
  \/ less (mkFileData "a.go" "package a") (mkFileData "docs/README.md" "# docs") = true.
Proof.
  apply (proj2 (proj2 (proj2 less_is_a_strict_weak_ordering))
               (mkFileData "docs/README.md" "# docs") (mkFileData "a.go" "package a")).
  discriminate.
Defined.
